(** * Workload classification, rendering and reconciliation

    A shallow embedding of the native workload pipeline of clabernetes:
    - [Detector]: package [detector] (the workload classifier),
    - [Renderer]: package [renderer] (manifest builders),
    - [VMExec]: package [vm] (the KubeVirt executor's manifest builder),
    - [Reconciler]: package [reconciler] (create / update / delete against
      the cluster).

    Go values are modelled as follows.  A Go [string] is a Rocq [string]
    (a sequence of bytes).  A Go map that is only read or ranged over is a
    [gmap]; a map or slice field of a Kubernetes object, where
    [reflect.DeepEqual] tells [nil] from empty, is an [option] of a [gmap]
    or of a [list] ([None] is [nil]).  A pointer field is an [option].
    A [range] over a map visits the entries in an order Go leaves
    unspecified: every function that ranges over a map takes the order of
    the run as a [schedule]. *)

From Stdlib Require Import Ascii String.
From stdpp Require Import gmap strings list fin_maps countable pretty.

#[local] Set Warnings "-register-all".
#[local] Open Scope string_scope.

(** ** Go's [strings] package *)

Module GoStrings.

(** [strings.HasPrefix s prefix] *)
Fixpoint HasPrefix (s prefix : string) : bool :=
  match prefix, s with
  | EmptyString, _ => true
  | String _ _, EmptyString => false
  | String c p, String d s' => bool_decide (c = d) && HasPrefix s' p
  end.

(** [strings.Contains s substr] *)
Fixpoint Contains (s substr : string) : bool :=
  HasPrefix s substr ||
  match s with
  | EmptyString => false
  | String _ s' => Contains s' substr
  end.

(** The first [sep]-separated field of [s] and the rest after the first
    separator byte, when there is one. *)
Fixpoint cut (sep : ascii) (s : string) : option (string * string) :=
  match s with
  | EmptyString => None
  | String c s' =>
      if bool_decide (c = sep) then Some (EmptyString, s')
      else match cut sep s' with
           | Some (a, b) => Some (String c a, b)
           | None => None
           end
  end.

(** [strings.SplitN s sep 2] for a one-byte separator: one part when
    [sep] does not occur in [s], two parts otherwise. *)
Definition SplitN2 (s : string) (sep : ascii) : list string :=
  match cut sep s with
  | Some (a, b) => [a; b]
  | None => [s]
  end.

(** Lower-casing of the ASCII letters, byte by byte.  It is what
    [strings.ToLower] computes on every string made of ASCII bytes. *)
Definition lower_byte (c : ascii) : ascii :=
  let n := nat_of_ascii c in
  if bool_decide (65 <= n <= 90)%nat then ascii_of_nat (n + 32) else c.

Fixpoint ascii_ToLower (s : string) : string :=
  match s with
  | EmptyString => EmptyString
  | String c s' => String (lower_byte c) (ascii_ToLower s')
  end.

End GoStrings.

(** ** Iteration order of [range] over a map *)

(** The order in which one run visits the entries of each map. *)
Definition schedule : Type := forall V : Type, gmap string V -> list (string * V).

(** A schedule Go can produce: every entry is visited exactly once. *)
Definition valid_schedule (sched : schedule) : Prop :=
  forall (V : Type) (m : gmap string V), sched V m ≡ₚ map_to_list m.

Definition sched_fwd : schedule := fun V m => map_to_list m.
Definition sched_rev : schedule := fun V m => reverse (map_to_list m).

(** ** Package [common] *)

Module Common.

(** [type WorkloadType string] *)
Definition WorkloadType : Type := string.
Definition WorkloadTypeContainer : WorkloadType := "container".
Definition WorkloadTypeVM : WorkloadType := "vm".

(** [type ExecutionMode string] *)
Definition ExecutionMode : Type := string.
Definition ExecutionModeContainer : ExecutionMode := "container".
Definition ExecutionModeVM : ExecutionMode := "vm".
Definition ExecutionModeAuto : ExecutionMode := "auto".
Definition ExecutionModeLegacy : ExecutionMode := "legacy".
Definition ExecutionModeHybrid : ExecutionMode := "hybrid".

(** [resource.Quantity], seen through the two methods the code calls on
    it.  The zero value, which a missing map key yields, is zero. *)
Record Quantity : Type := mkQuantity {
  IsZero : bool;
  QString : string;
}.
Definition zeroQuantity : Quantity := mkQuantity true "0".

(** [k8scorev1.ResourceRequirements] *)
Record ResourceRequirements : Type := mkResourceRequirements {
  Limits : option (gmap string Quantity);
  Requests : option (gmap string Quantity);
}.
Definition zeroResourceRequirements : ResourceRequirements :=
  mkResourceRequirements None None.

Definition ResourceMemory : string := "memory".
Definition ResourceCPU : string := "cpu".

(** Indexing a [ResourceList], [nil] or not. *)
Definition resourceList_get (l : option (gmap string Quantity)) (k : string) : Quantity :=
  match l with
  | Some m => default zeroQuantity (m !! k)
  | None => zeroQuantity
  end.

Record NetworkEndpoint : Type := mkNetworkEndpoint {
  ep_Node : string;
  ep_Interface : string;
  ep_Address : string;
}.

Record NetworkInterface : Type := mkNetworkInterface {
  if_Name : string;
  if_Type : string;
  if_Endpoint : option NetworkEndpoint;
}.

Record NodeConfig : Type := mkNodeConfig {
  Name : string;
  Image : string;
  Kind : string;
  Labels : gmap string string;
  Annotations : gmap string string;
  Environment : gmap string string;
  Interfaces : list NetworkInterface;
  Resources : option ResourceRequirements;
  StartupConfig : string;
  Files : gmap string string;
}.

End Common.

(** ** Package [detector] *)

Module Detector.
Import GoStrings Common.

Record WorkloadClassifier : Type := mkWorkloadClassifier {
  vmImageMap : gmap string bool;
  forceVM : gmap string bool;
  forceContainer : gmap string bool;
}.

(** Indexing a [map[string]bool]: a missing key reads as [false]. *)
Definition index_bool (m : gmap string bool) (k : string) : bool :=
  default false (m !! k).

Definition knownImages : list (string * bool) :=
  [ ("cisco/csr1000v", true); ("cisco/iosv", true); ("cisco/iosxr", true);
    ("cisco/nxos", true);
    ("arista/veos", true); ("arista/ceos", false);
    ("juniper/vmx", true); ("juniper/vsrx", true); ("juniper/vqfx", true);
    ("vyos/vyos", true); ("pfsense/pfsense", true);
    ("opnsense/opnsense", true);
    ("mikrotik/routeros", true); ("mikrotik/chr", true);
    ("fortinet/fortigate", true);
    ("nokia/srl", false); ("nokia/srlinux", false);
    ("sonic/sonic", false); ("azure/sonic", false);
    ("frr/frr", false); ("quagga/quagga", false);
    ("alpine", false); ("ubuntu", false); ("centos", false);
    ("debian", false) ].

Definition NewWorkloadClassifier : WorkloadClassifier :=
  mkWorkloadClassifier (list_to_map knownImages) ∅ ∅.

Definition vmIndicators : list string :=
  [ "vmx"; "vsrx"; "vqfx"; "veos"; "csr1000v"; "iosv"; "iosxr";
    "vyos"; "pfsense"; "opnsense"; "routeros"; "chr"; "fortigate";
    "vm-"; "-vm"; "virtual"; "qemu"; "kvm" ].

Definition containerIndicators : list string :=
  [ "ceos"; "srl"; "srlinux"; "sonic"; "frr"; "quagga";
    "alpine"; "ubuntu"; "centos"; "debian"; "busybox";
    "container"; "docker"; "k8s" ].

Definition vmKinds : gmap string bool :=
  list_to_map
    [ ("csr1000v", true); ("iosv", true); ("iosxr", true); ("nxos", true);
      ("veos", true); ("vmx", true); ("vsrx", true); ("vqfx", true);
      ("vyos", true); ("pfsense", true); ("opnsense", true);
      ("routeros", true); ("chr", true); ("fortigate", true);
      ("fortios", true) ].

Definition containerKinds : gmap string bool :=
  list_to_map
    [ ("ceos", true); ("srl", true); ("srlinux", true); ("sonic", true);
      ("frr", true); ("quagga", true); ("linux", true); ("host", true);
      ("bridge", true); ("ovs", true) ].

Definition vmImageFormats : list string :=
  [ "qcow2"; "vmdk"; "iso"; "ova"; "vhd" ].

Definition vmRegistries : list string :=
  [ "registry.hub.docker.com/virtualization/"; "quay.io/kubevirt/";
    "registry.redhat.io/ubi8/" ].

Definition containerRegistries : list string :=
  [ "docker.io/"; "ghcr.io/"; "quay.io/"; "gcr.io/"; "registry.k8s.io/" ].

(** The environment key of the per-node directive, as the classifier
    spells it. *)
Definition EXECUTION_MODE : string := "EXECUTION_MODE".

Section classifier.
(** [strings.ToLower] of the Go library; [GoStrings.ascii_ToLower] is
    its restriction to ASCII input. *)
Context (ToLower : string -> string).
Context (sched : schedule).

Definition classifyByImage (c : WorkloadClassifier) (image : string) : WorkloadType :=
  let imageLower := ToLower image in
  match find (fun e : string * bool => Contains imageLower (ToLower e.1))
             (sched bool (vmImageMap c)) with
  | Some (_, isVM) =>
      if isVM then WorkloadTypeVM else WorkloadTypeContainer
  | None =>
      if existsb (fun indicator => Contains imageLower indicator) vmIndicators
      then WorkloadTypeVM
      else if existsb (fun indicator => Contains imageLower indicator)
                      containerIndicators
      then WorkloadTypeContainer
      else ""
  end.

Definition classifyByKind (kind : string) : WorkloadType :=
  let kindLower := ToLower kind in
  if index_bool vmKinds kindLower then WorkloadTypeVM
  else if index_bool containerKinds kindLower then WorkloadTypeContainer
  else "".

Definition classifyByImageCharacteristics (image : string) : WorkloadType :=
  let imageLower := ToLower image in
  if Contains imageLower "qcow2" || Contains imageLower "vmdk" ||
     Contains imageLower "iso" || Contains imageLower "ova" ||
     Contains imageLower "vhd"
  then WorkloadTypeVM
  else if existsb (fun registry => HasPrefix imageLower registry) vmRegistries
  then WorkloadTypeVM
  else if existsb (fun registry => HasPrefix imageLower registry)
                  containerRegistries
  then WorkloadTypeContainer
  else "".

(** The [switch] on the lower-cased directive: the verdict of a
    recognised value, [None] when the [switch] falls through. *)
Definition execModeSwitch (execMode : string) : option WorkloadType :=
  let v := ToLower execMode in
  if bool_decide (v = "vm") || bool_decide (v = "virtual-machine")
  then Some WorkloadTypeVM
  else if bool_decide (v = "container") || bool_decide (v = "pod")
  then Some WorkloadTypeContainer
  else None.

(** What follows the directive check in [DetermineWorkloadType]. *)
Definition classifyWithoutDirective (c : WorkloadClassifier) (config : NodeConfig)
  : WorkloadType :=
  if index_bool (forceVM c) (Name config) then WorkloadTypeVM
  else if index_bool (forceContainer c) (Name config) then WorkloadTypeContainer
  else
    let workloadType := classifyByImage c (Image config) in
    if negb (bool_decide (workloadType = "")) then workloadType
    else
      let workloadType := classifyByKind (Kind config) in
      if negb (bool_decide (workloadType = "")) then workloadType
      else
        let workloadType := classifyByImageCharacteristics (Image config) in
        if negb (bool_decide (workloadType = "")) then workloadType
        else WorkloadTypeContainer.

Definition DetermineWorkloadType (c : WorkloadClassifier) (config : NodeConfig)
  : WorkloadType :=
  match Environment config !! EXECUTION_MODE with
  | Some execMode =>
      match execModeSwitch execMode with
      | Some verdict => verdict
      | None => classifyWithoutDirective c config
      end
  | None => classifyWithoutDirective c config
  end.

End classifier.

Definition ForceVM (c : WorkloadClassifier) (nodeName : string) : WorkloadClassifier :=
  mkWorkloadClassifier (vmImageMap c)
    (<[nodeName := true]> (forceVM c))
    (delete nodeName (forceContainer c)).

Definition ForceContainer (c : WorkloadClassifier) (nodeName : string)
  : WorkloadClassifier :=
  mkWorkloadClassifier (vmImageMap c)
    (delete nodeName (forceVM c))
    (<[nodeName := true]> (forceContainer c)).

(** A call of one of the two force methods. *)
Inductive ForceCall : Type :=
  | CallForceVM (nodeName : string)
  | CallForceContainer (nodeName : string).

Definition callNode (call : ForceCall) : string :=
  match call with
  | CallForceVM n | CallForceContainer n => n
  end.

Definition callType (call : ForceCall) : WorkloadType :=
  match call with
  | CallForceVM _ => WorkloadTypeVM
  | CallForceContainer _ => WorkloadTypeContainer
  end.

Definition runCall (c : WorkloadClassifier) (call : ForceCall) : WorkloadClassifier :=
  match call with
  | CallForceVM n => ForceVM c n
  | CallForceContainer n => ForceContainer c n
  end.

(** The calls of a list, made in order. *)
Definition runCalls (c : WorkloadClassifier) (calls : list ForceCall)
  : WorkloadClassifier :=
  foldl runCall c calls.

End Detector.

(** ** Kubernetes objects *)

Module K8s.
Import Common.

(** The fields of the API types that the repository sets or reads.  A
    field that a composite literal of the source leaves out has Go's
    zero value. *)

Record ObjectMeta : Type := mkObjectMeta {
  meta_Name : string;
  meta_Namespace : string;
  meta_Labels : option (gmap string string);
  meta_Annotations : option (gmap string string);
  meta_ResourceVersion : string;
}.

Record EnvVar : Type := mkEnvVar {
  env_Name : string;
  env_Value : string;
}.

Record ContainerPort : Type := mkContainerPort {
  port_Name : string;
  port_ContainerPort : Z;
  port_Protocol : string;
}.

Record Capabilities : Type := mkCapabilities {
  cap_Add : option (list string);
}.

Record SecurityContext : Type := mkSecurityContext {
  sc_Capabilities : option Capabilities;
}.

Record Container : Type := mkContainer {
  ctr_Name : string;
  ctr_Image : string;
  ctr_Env : option (list EnvVar);
  ctr_Ports : option (list ContainerPort);
  ctr_SecurityContext : option SecurityContext;
  ctr_ImagePullPolicy : string;
  ctr_Resources : ResourceRequirements;
}.

Record PodSpec : Type := mkPodSpec {
  pod_Containers : option (list Container);
  pod_RestartPolicy : string;
  pod_DNSPolicy : string;
}.

Record PodTemplateSpec : Type := mkPodTemplateSpec {
  tpl_Labels : option (gmap string string);
  tpl_Annotations : option (gmap string string);
  tpl_Spec : PodSpec;
}.

Record LabelSelector : Type := mkLabelSelector {
  MatchLabels : option (gmap string string);
}.

(** [appsv1.DeploymentStrategy]; the API constants for its [Type] are
    [RecreateDeploymentStrategyType] and
    [RollingUpdateDeploymentStrategyType], and the empty string is the
    unset value, which the API server defaults to a rolling update. *)
Record DeploymentStrategy : Type := mkDeploymentStrategy {
  strategy_Type : string;
}.
Definition RecreateDeploymentStrategyType : string := "Recreate".
Definition RollingUpdateDeploymentStrategyType : string := "RollingUpdate".

Record DeploymentSpec : Type := mkDeploymentSpec {
  Replicas : option Z;
  Selector : option LabelSelector;
  Template : PodTemplateSpec;
  Strategy : DeploymentStrategy;
}.

Record Deployment : Type := mkDeployment {
  dep_Meta : ObjectMeta;
  dep_Spec : DeploymentSpec;
}.

Record ServicePort : Type := mkServicePort {
  sport_Name : string;
  sport_Port : Z;
  sport_Protocol : string;
}.

Record ServiceSpec : Type := mkServiceSpec {
  svc_Selector : option (gmap string string);
  svc_Ports : option (list ServicePort);
  svc_Type : string;
  svc_ClusterIP : string;
}.

Record Service : Type := mkService {
  svc_Meta : ObjectMeta;
  svc_Spec : ServiceSpec;
}.

Record ConfigMap : Type := mkConfigMap {
  cm_Meta : ObjectMeta;
  cm_Data : option (gmap string string);
}.

Definition ProtocolTCP : string := "TCP".
Definition PullIfNotPresent : string := "IfNotPresent".
Definition RestartPolicyAlways : string := "Always".
Definition DNSClusterFirst : string := "ClusterFirst".
Definition ServiceTypeClusterIP : string := "ClusterIP".

#[global] Instance Quantity_eq_dec : EqDecision Quantity.
Proof. solve_decision. Defined.
#[global] Instance ResourceRequirements_eq_dec : EqDecision ResourceRequirements.
Proof. solve_decision. Defined.
#[global] Instance ObjectMeta_eq_dec : EqDecision ObjectMeta.
Proof. solve_decision. Defined.
#[global] Instance EnvVar_eq_dec : EqDecision EnvVar.
Proof. solve_decision. Defined.
#[global] Instance ContainerPort_eq_dec : EqDecision ContainerPort.
Proof. solve_decision. Defined.
#[global] Instance Capabilities_eq_dec : EqDecision Capabilities.
Proof. solve_decision. Defined.
#[global] Instance SecurityContext_eq_dec : EqDecision SecurityContext.
Proof. solve_decision. Defined.
#[global] Instance Container_eq_dec : EqDecision Container.
Proof. solve_decision. Defined.
#[global] Instance ServicePort_eq_dec : EqDecision ServicePort.
Proof. solve_decision. Defined.

(** *** Unstructured objects

    The content of an [unstructured.Unstructured] is a tree of Go
    values held in [interface{}] slots.  The constructors are the
    dynamic types that occur in the manifests of this repository:
    [UString], [UBool], [UInt] ([int64]), [UMap]
    ([map[string]interface{}]) and [USlice] ([[]interface{}]) are the
    types of decoded JSON; [UStringMap] is a [map[string]string] stored
    in a slot, which is not. *)

Inductive UValue : Type :=
  | UString (s : string)
  | UBool (b : bool)
  | UInt (z : Z)
  | UMap (m : gmap string UValue)
  | USlice (l : list UValue)
  | UStringMap (m : gmap string string).

Record Unstructured : Type := mkUnstructured {
  Object : gmap string UValue;
}.

(** A tree that [runtime.DeepCopyJSONValue] copies: it panics on every
    dynamic type that is not a JSON type. *)
Fixpoint json_typed (v : UValue) : bool :=
  match v with
  | UString _ | UBool _ | UInt _ => true
  | UMap m => map_fold (fun _ x acc => json_typed x && acc) true m
  | USlice l => forallb json_typed l
  | UStringMap _ => false
  end.

(** A serialisation of the trees into [gen_tree], on which equality is
    decidable; [reflect.DeepEqual] on two trees is equality of the
    trees, see [deep_equal_spec]. *)
Definition uleaf : Type := string + bool + Z + gmap string string.

Fixpoint uencode (v : UValue) : gen_tree uleaf :=
  match v with
  | UString s => GenLeaf (inl (inl (inl s)))
  | UBool b => GenLeaf (inl (inl (inr b)))
  | UInt z => GenLeaf (inl (inr z))
  | UStringMap m => GenLeaf (inr m)
  | UMap m =>
      GenNode 0 (map_fold (fun k x acc =>
                   GenNode 2 [GenLeaf (inl (inl (inl k))); uencode x] :: acc) [] m)
  | USlice l => GenNode 1 (map uencode l)
  end.

(** [reflect.DeepEqual] on two values of a slot. *)
Definition deep_equal (v w : UValue) : bool :=
  bool_decide (uencode v = uencode w).

(** [reflect.DeepEqual] on two [map[string]interface{}], [nil] or not. *)
Definition deep_equal_map (a b : option (gmap string UValue)) : bool :=
  match a, b with
  | None, None => true
  | Some m, Some n => deep_equal (UMap m) (UMap n)
  | _, _ => false
  end.

(** [unstructured.NestedFieldNoCopy]: the value at a path, [None] when
    a field is missing or a value on the way is not a map. *)
Fixpoint nestedField (v : UValue) (fields : list string) : option UValue :=
  match fields with
  | [] => Some v
  | field :: rest =>
      match v with
      | UMap m =>
          match m !! field with
          | Some x => nestedField x rest
          | None => None
          end
      | _ => None
      end
  end.

(** [unstructured.NestedString], with the [found] and [err] results
    dropped as the accessors of [Unstructured] do. *)
Definition getNestedString (obj : gmap string UValue) (fields : list string) : string :=
  match nestedField (UMap obj) fields with
  | Some (UString s) => s
  | _ => ""
  end.

Definition GetName (u : Unstructured) : string :=
  getNestedString (Object u) ["metadata"; "name"].
Definition GetNamespace (u : Unstructured) : string :=
  getNestedString (Object u) ["metadata"; "namespace"].
Definition GetKind (u : Unstructured) : string :=
  getNestedString (Object u) ["kind"].
Definition GetResourceVersion (u : Unstructured) : string :=
  getNestedString (Object u) ["metadata"; "resourceVersion"].

(** [u.SetResourceVersion v]: [SetNestedField] creates the ["metadata"]
    map when it is missing and gives up when a value of another type is
    in its place. *)
Definition SetResourceVersion (u : Unstructured) (version : string) : Unstructured :=
  match Object u !! "metadata" with
  | Some (UMap md) =>
      mkUnstructured
        (<["metadata" := UMap (<["resourceVersion" := UString version]> md)]> (Object u))
  | Some _ => u
  | None =>
      mkUnstructured
        (<["metadata" := UMap {["resourceVersion" := UString version]}]> (Object u))
  end.

(** Why a goroutine panics in this model. *)
Inductive PanicReason : Type :=
  | TypeAssertion
  | DeepCopy.

Inductive Outcome (A : Type) : Type :=
  | Panic (why : PanicReason)
  | Ret (a : A).
Arguments Panic {A} why.
Arguments Ret {A} a.

(** [unstructured.NestedMap obj fields...], with [found] and [err]
    dropped as the reconciler does: the [nil] map when the field is
    missing or is not a map, a deep copy of the map otherwise; the copy
    panics on a tree that is not JSON-typed. *)
Definition NestedMap (obj : gmap string UValue) (fields : list string)
  : Outcome (option (gmap string UValue)) :=
  match nestedField (UMap obj) fields with
  | Some (UMap m) => if json_typed (UMap m) then Ret (Some m) else Panic DeepCopy
  | _ => Ret None
  end.

(** *** Errors *)

Inductive GoError : Type :=
  | ErrNotFound
  | ErrAlreadyExists
  | ErrInjected
  | ErrNew (msg : string)
  | ErrWrap (msg : string) (cause : GoError).

(** [errors.IsNotFound] *)
Fixpoint IsNotFound (e : GoError) : bool :=
  match e with
  | ErrNotFound => true
  | ErrWrap _ cause => IsNotFound cause
  | _ => false
  end.

(** *** The cluster

    What a typed or dynamic client sees: one object per resource kind,
    namespace and name.  The store keeps an object as it was written. *)

Inductive ResourceKind : Type :=
  | KDeployment
  | KService
  | KConfigMap
  | KVirtualMachine.

#[global] Instance ResourceKind_eq_dec : EqDecision ResourceKind.
Proof. solve_decision. Defined.

#[global] Instance ResourceKind_countable : Countable ResourceKind.
Proof.
  refine (inj_countable'
    (fun k => match k with
              | KDeployment => 0 | KService => 1 | KConfigMap => 2
              | KVirtualMachine => 3 end)
    (fun n => match n with
              | 0 => KDeployment | 1 => KService | 2 => KConfigMap
              | _ => KVirtualMachine end) _).
  by intros [].
Defined.

(** A value in an [interface{}] slot of the reconciler: a pointer to
    one of the four object types, or a value of another type. *)
Inductive Obj : Type :=
  | ODeployment (d : Deployment)
  | OService (s : Service)
  | OConfigMap (c : ConfigMap)
  | OUnstructured (u : Unstructured)
  | OOther.

Abbreviation ident := (ResourceKind * string * string)%type.

Abbreviation Cluster := (gmap ident Obj).

(** Where the API server keeps an object. *)
Definition obj_ident (o : Obj) : option ident :=
  match o with
  | ODeployment d =>
      Some (KDeployment, meta_Namespace (dep_Meta d), meta_Name (dep_Meta d))
  | OService s =>
      Some (KService, meta_Namespace (svc_Meta s), meta_Name (svc_Meta s))
  | OConfigMap c =>
      Some (KConfigMap, meta_Namespace (cm_Meta c), meta_Name (cm_Meta c))
  | OUnstructured u => Some (KVirtualMachine, GetNamespace u, GetName u)
  | OOther => None
  end.

(** The deep copy of the ["spec"] of a manifest does not panic. *)
Definition vm_copyable (u : Unstructured) : Prop :=
  exists spec, NestedMap (Object u) ["spec"] = Ret spec.

(** An object that a client can have read from the API server: one of the
    four kinds, and decoded from JSON when it is unstructured. *)
Definition obj_ok (o : Obj) : Prop :=
  match o with
  | OUnstructured u => vm_copyable u
  | OOther => False
  | _ => True
  end.

(** Every object is stored under its own kind, namespace and name, and is
    one that the server can hold. *)
Definition cluster_wf (c : Cluster) : Prop :=
  map_Forall (fun id o => obj_ident o = Some id /\ obj_ok o) c.

Definition obj_labels (o : Obj) : option (gmap string string) :=
  match o with
  | ODeployment d => meta_Labels (dep_Meta d)
  | OService s => meta_Labels (svc_Meta s)
  | OConfigMap c => meta_Labels (cm_Meta c)
  | _ => None
  end.

Inductive Verb : Type := VGet | VCreate | VUpdate | VDelete | VList.

(** The calls that the API server fails, by verb and target. *)
Definition Faults : Type := Verb -> ResourceKind -> string -> string -> bool.

Definition no_faults : Faults := fun _ _ _ _ => false.

Section api.
Context (faults : Faults).

Definition api_get (c : Cluster) (k : ResourceKind) (ns name : string)
  : GoError + Obj :=
  if faults VGet k ns name then inl ErrInjected
  else match c !! (k, ns, name) with
       | Some o => inr o
       | None => inl ErrNotFound
       end.

Definition api_create (c : Cluster) (k : ResourceKind) (ns name : string) (o : Obj)
  : GoError + Cluster :=
  if faults VCreate k ns name then inl ErrInjected
  else match c !! (k, ns, name) with
       | Some _ => inl ErrAlreadyExists
       | None => inr (<[(k, ns, name) := o]> c)
       end.

Definition api_update (c : Cluster) (k : ResourceKind) (ns name : string) (o : Obj)
  : GoError + Cluster :=
  if faults VUpdate k ns name then inl ErrInjected
  else match c !! (k, ns, name) with
       | Some _ => inr (<[(k, ns, name) := o]> c)
       | None => inl ErrNotFound
       end.

Definition api_delete (c : Cluster) (k : ResourceKind) (ns name : string)
  : GoError + Cluster :=
  if faults VDelete k ns name then inl ErrInjected
  else match c !! (k, ns, name) with
       | Some _ => inr (delete (k, ns, name) c)
       | None => inl ErrNotFound
       end.

(** The objects of one kind in a namespace that carry the label
    [key=value]. *)
Definition api_list (c : Cluster) (k : ResourceKind) (ns key value : string)
  : GoError + list Obj :=
  if faults VList k ns "" then inl ErrInjected
  else inr ((map_to_list
               (filter (fun e : ident * Obj =>
                          e.1.1.1 = k /\ e.1.1.2 = ns /\
                          (obj_labels e.2 ≫= (.!! key)) = Some value) c)).*2).

End api.

End K8s.


(** ** Package [constants] *)

Module Constants.

Definition LabelTopologyOwner : string := "clabernetes/topologyOwner".
Definition LabelTopology : string := "clabernetes/topology".
Definition LabelTopologyNode : string := "clabernetes/topologyNode".
Definition LabelExecutionMode : string := "clabernetes/executionMode".
Definition LabelWorkloadType : string := "clabernetes/workloadType".
Definition LabelNetworkingMode : string := "clabernetes/networkingMode".
Definition LabelNodeKind : string := "clabernetes/nodeKind".
Definition WorkloadTypeContainer : string := "container".
Definition WorkloadTypeVM : string := "vm".

End Constants.

(** ** Package [renderer] *)

Module Renderer.
Import GoStrings Common K8s Constants.

(** Modelled from the spec: the declarations of the [Topology] custom
    resource and of containerlab's [NodeDefinition] are not among the
    sources.  The records below hold the fields that [buildNodeConfig]
    reads: the topology-level execution configuration with its per-node
    overrides, and a node's image, kind, environment, labels and startup
    configuration. *)
Record NodeOverride : Type := mkNodeOverride {
  ov_ExecutionMode : ExecutionMode;
  ov_Resources : option ResourceRequirements;
  ov_Config : gmap string string;
}.

Record NativeExecution : Type := mkNativeExecution {
  ne_ExecutionMode : ExecutionMode;
  ne_CNI : string;
  ne_NodeOverrides : gmap string NodeOverride;
}.

Record Topology : Type := mkTopology {
  topo_Name : string;
  topo_NativeExecution : NativeExecution;
}.

Record NodeDefinition : Type := mkNodeDefinition {
  nd_Image : string;
  nd_Kind : string;
  nd_Env : gmap string string;
  nd_Labels : gmap string string;
  nd_StartupConfig : string;
}.

(** [Resource] of the source; [Type] is a keyword here. *)
Record Resource : Type := mkResource {
  res_Type : string;
  res_Object : Obj;
  res_Dependencies : option (list string);
}.

Record RenderResult : Type := mkRenderResult {
  rr_WorkloadType : WorkloadType;
  rr_Resources : list Resource;
  rr_NodeConfig : NodeConfig;
}.

(** [for k, v := range src { dst[k] = v }] *)
Definition range_insert (sched : schedule) (src dst : gmap string string)
  : gmap string string :=
  foldl (fun acc kv => <[kv.1 := kv.2]> acc) dst (sched string src).

Section renderer.
(** The two environment keys of [constants/env.go], which is not among
    the sources. *)
Context (ExecutionModeEnv NetworkingModeEnv : string).
Context (ToLower : string -> string).
Context (sched : schedule).
Context (classifier : Detector.WorkloadClassifier).

Definition buildNodeConfig (nodeName : string) (config : NodeDefinition)
  (topology : Topology) : NodeConfig :=
  let labels : gmap string string :=
    <[LabelNodeKind := nd_Kind config]>
      (<[LabelTopologyNode := nodeName]>
         (<[LabelTopology := topo_Name topology]> ∅)) in
  let environment : gmap string string := ∅ in
  let native := topo_NativeExecution topology in
  let '(environment, labels) :=
    if negb (bool_decide (ne_ExecutionMode native = ""))
    then (<[ExecutionModeEnv := ne_ExecutionMode native]> environment,
          <[LabelExecutionMode := ne_ExecutionMode native]> labels)
    else (environment, labels) in
  let '(environment, labels) :=
    if negb (bool_decide (ne_CNI native = ""))
    then (<[NetworkingModeEnv := ne_CNI native]> environment,
          <[LabelNetworkingMode := ne_CNI native]> labels)
    else (environment, labels) in
  let '(environment, labels, resources) :=
    match ne_NodeOverrides native !! nodeName with
    | Some override =>
        let '(environment, labels) :=
          if negb (bool_decide (ov_ExecutionMode override = ""))
          then (<[ExecutionModeEnv := ov_ExecutionMode override]> environment,
                <[LabelExecutionMode := ov_ExecutionMode override]> labels)
          else (environment, labels) in
        (range_insert sched (ov_Config override) environment, labels,
         ov_Resources override)
    | None => (environment, labels, None)
    end in
  let environment := range_insert sched (nd_Env config) environment in
  let labels := range_insert sched (nd_Labels config) labels in
  mkNodeConfig nodeName (nd_Image config) (nd_Kind config)
    labels ∅ environment
    [mkNetworkInterface "eth0" "ethernet" None]
    resources
    (nd_StartupConfig config)
    ∅.

Definition buildDeployment (config : NodeConfig) (topology : Topology)
  (namespace : string) : Deployment :=
  let labels :=
    <[LabelWorkloadType := Constants.WorkloadTypeContainer]>
      (range_insert sched (Labels config) ∅) in
  let annotations := range_insert sched (Annotations config) ∅ in
  let env :=
    map (fun kv : string * string => mkEnvVar kv.1 kv.2)
        (sched string (Environment config)) in
  let ports :=
    [ mkContainerPort "ssh" 22%Z ProtocolTCP;
      mkContainerPort "netconf" 830%Z ProtocolTCP;
      mkContainerPort "gnmi" 57400%Z ProtocolTCP ] in
  let container :=
    mkContainer (Name config) (Image config) (Some env) (Some ports)
      (Some (mkSecurityContext (Some (mkCapabilities (Some ["NET_ADMIN"])))))
      PullIfNotPresent
      (match Resources config with
       | Some r => r
       | None => zeroResourceRequirements
       end) in
  let replicas : Z := 1%Z in
  mkDeployment
    (mkObjectMeta (Name config) namespace (Some labels) (Some annotations) "")
    (mkDeploymentSpec
       (Some replicas)
       (Some (mkLabelSelector (Some {[LabelTopologyNode := Name config]})))
       (mkPodTemplateSpec (Some labels) (Some annotations)
          (mkPodSpec (Some [container]) RestartPolicyAlways ""))
       (mkDeploymentStrategy "")).

Definition umap (l : list (string * UValue)) : UValue := UMap (list_to_map l).

Definition buildVirtualMachine (config : NodeConfig) (topology : Topology)
  (namespace : string) : Unstructured :=
  let labels :=
    <["kubevirt.io/vm" := Name config]>
      (<[LabelWorkloadType := Constants.WorkloadTypeVM]>
         (range_insert sched (Labels config) ∅)) in
  mkUnstructured (list_to_map
    [ ("apiVersion", UString "kubevirt.io/v1");
      ("kind", UString "VirtualMachine");
      ("metadata", umap
         [ ("name", UString (Name config));
           ("namespace", UString namespace);
           ("labels", UStringMap labels) ]);
      ("spec", umap
         [ ("running", UBool true);
           ("template", umap
              [ ("metadata", umap [ ("labels", UStringMap labels) ]);
                ("spec", umap
                   [ ("domain", umap
                        [ ("devices", umap
                             [ ("disks", USlice
                                  [ umap [ ("name", UString "containerdisk");
                                           ("disk", umap [ ("bus", UString "virtio") ]) ] ]);
                               ("interfaces", USlice
                                  [ umap [ ("name", UString "default");
                                           ("masquerade", umap []) ] ]) ]);
                          ("resources", umap
                             [ ("requests", umap
                                  [ ("memory", UString "1Gi");
                                    ("cpu", UString "1") ]) ]) ]);
                     ("networks", USlice
                        [ umap [ ("name", UString "default");
                                 ("pod", umap []) ] ]);
                     ("volumes", USlice
                        [ umap [ ("name", UString "containerdisk");
                                 ("containerDisk", umap
                                    [ ("image", UString (Image config)) ]) ] ]) ]) ]) ]) ]).

Definition buildService (config : NodeConfig) (topology : Topology)
  (namespace : string) : Service :=
  let labels : gmap string string :=
    <[LabelTopologyNode := Name config]>
      (<[LabelTopology := topo_Name topology]> ∅) in
  let ports :=
    [ mkServicePort "ssh" 22%Z ProtocolTCP;
      mkServicePort "netconf" 830%Z ProtocolTCP;
      mkServicePort "gnmi" 57400%Z ProtocolTCP ] in
  mkService
    (mkObjectMeta (Name config) namespace (Some labels) None "")
    (mkServiceSpec (Some {[LabelTopologyNode := Name config]}) (Some ports)
       ServiceTypeClusterIP "").

Definition buildConfigMap (config : NodeConfig) (topology : Topology)
  (namespace : string) : ConfigMap :=
  let labels : gmap string string :=
    <[LabelTopologyNode := Name config]>
      (<[LabelTopology := topo_Name topology]> ∅) in
  let data := range_insert sched (Files config) ∅ in
  let data :=
    if negb (bool_decide (StartupConfig config = ""))
    then <["startup-config" := StartupConfig config]> data
    else data in
  mkConfigMap
    (mkObjectMeta (Name config ++ "-config") namespace (Some labels) None "")
    (Some data).

Definition renderContainerResources (config : NodeConfig) (topology : Topology)
  (namespace : string) : GoError + list Resource :=
  let deployment := buildDeployment config topology namespace in
  let service := buildService config topology namespace in
  inr [ mkResource "Deployment" (ODeployment deployment) None;
        mkResource "Service" (OService service)
          (Some [meta_Name (dep_Meta deployment)]) ].

Definition renderVMResources (config : NodeConfig) (topology : Topology)
  (namespace : string) : GoError + list Resource :=
  let vm := buildVirtualMachine config topology namespace in
  let service := buildService config topology namespace in
  inr [ mkResource "VirtualMachine" (OUnstructured vm) None;
        mkResource "Service" (OService service) (Some [Name config ++ "-vm"]) ].

Definition renderCommonResources (config : NodeConfig) (topology : Topology)
  (namespace : string) : GoError + list Resource :=
  if bool_decide (0 < size (Files config))%nat
     || negb (bool_decide (StartupConfig config = ""))
  then
    let configMap := buildConfigMap config topology namespace in
    inr [ mkResource "ConfigMap" (OConfigMap configMap) None ]
  else inr [].

Definition renderNodeResources (config : NodeConfig) (workloadType : WorkloadType)
  (topology : Topology) (namespace : string) : GoError + list Resource :=
  let byType :=
    if bool_decide (workloadType = Common.WorkloadTypeContainer)
    then renderContainerResources config topology namespace
    else if bool_decide (workloadType = Common.WorkloadTypeVM)
    then renderVMResources config topology namespace
    else inl (ErrNew ("unsupported workload type: " ++ workloadType)) in
  match byType with
  | inl err => inl err
  | inr resources =>
      match renderCommonResources config topology namespace with
      | inl err => inl err
      | inr commonResources => inr (resources ++ commonResources)%list
      end
  end.

(** One turn of the loop of [RenderTopologyWorkloads]. *)
Definition renderNode (topology : Topology) (namespace : string)
  (results : gmap string RenderResult) (entry : string * NodeDefinition)
  : GoError + gmap string RenderResult :=
  let '(nodeName, config) := entry in
  let nodeConfig := buildNodeConfig nodeName config topology in
  let workloadType :=
    Detector.DetermineWorkloadType ToLower sched classifier nodeConfig in
  match renderNodeResources nodeConfig workloadType topology namespace with
  | inl err =>
      inl (ErrWrap ("failed to render resources for node " ++ nodeName ++ ": ") err)
  | inr resources =>
      inr (<[nodeName := mkRenderResult workloadType resources nodeConfig]> results)
  end.

Fixpoint renderNodes (topology : Topology) (namespace : string)
  (entries : list (string * NodeDefinition)) (results : gmap string RenderResult)
  : GoError + gmap string RenderResult :=
  match entries with
  | [] => inr results
  | entry :: rest =>
      match renderNode topology namespace results entry with
      | inl err => inl err
      | inr results' => renderNodes topology namespace rest results'
      end
  end.

Definition RenderTopologyWorkloads (topology : Topology)
  (configs : gmap string NodeDefinition) (namespace : string)
  : GoError + gmap string RenderResult :=
  renderNodes topology namespace (sched NodeDefinition configs) ∅.

End renderer.

End Renderer.

(** ** Package [vm]: the manifest of the KubeVirt executor *)

Module VMExec.
Import GoStrings Common K8s Constants.

Definition umap := Renderer.umap.

(** The line feed and the double quote of the script below. *)
Definition LF : string := String (ascii_of_nat 10) EmptyString.
Definition DQ : string := String (ascii_of_nat 34) EmptyString.

Definition generateCloudInitUserData (config : NodeConfig) : string :=
  let userData :=
    "#cloud-config" ++ LF ++
    "hostname: " ++ Name config ++ LF ++
    "users:" ++ LF ++
    "  - name: admin" ++ LF ++
    "    sudo: ALL=(ALL) NOPASSWD:ALL" ++ LF ++
    "    shell: /bin/bash" ++ LF ++
    "    ssh_authorized_keys:" ++ LF ++
    "      - ssh-rsa AAAAB3NzaC1yc2EAAAADAQABAAABgQC... # Add your SSH key here" ++ LF ++
    "runcmd:" ++ LF ++
    "  - echo " ++ DQ ++ "Node " ++ Name config ++ " started" ++ DQ ++
    " > /var/log/clabernetes-init.log" ++ LF in
  if negb (bool_decide (StartupConfig config = ""))
  then userData ++ "  - echo " ++ DQ ++ StartupConfig config ++ DQ ++
       " > /tmp/startup-config.txt" ++ LF
  else userData.

(** The memory and CPU requests by node kind. *)
Definition kindResources (kind : string) : string * string :=
  if bool_decide (kind = "vyos") || bool_decide (kind = "opnsense")
     || bool_decide (kind = "pfsense")
  then ("2Gi", "2")
  else if bool_decide (kind = "csr1000v") || bool_decide (kind = "vmx")
  then ("4Gi", "2")
  else ("1Gi", "1").

(** The requests after the node's own resource requests are applied. *)
Definition vmRequests (config : NodeConfig) : string * string :=
  let '(memory, cpu) := kindResources (Kind config) in
  match Resources config with
  | Some resources =>
      let mem := resourceList_get (Requests resources) ResourceMemory in
      let memory := if negb (IsZero mem) then QString mem else memory in
      let cpuRes := resourceList_get (Requests resources) ResourceCPU in
      let cpu := if negb (IsZero cpuRes) then QString cpuRes else cpu in
      (memory, cpu)
  | None => (memory, cpu)
  end.

(** [fmt.Sprintf("net%d", i+1)] *)
Definition netName (i : nat) : string := "net" ++ pretty (i + 1)%nat.

Definition vmInterfaces (config : NodeConfig) : list UValue :=
  umap [ ("name", UString "default"); ("masquerade", umap []) ]
  :: imap (fun i _ => umap [ ("name", UString (netName i)); ("bridge", umap []) ])
          (Interfaces config).

Definition vmNetworks (config : NodeConfig) : list UValue :=
  umap [ ("name", UString "default"); ("pod", umap []) ]
  :: imap (fun i _ =>
             umap [ ("name", UString (netName i));
                    ("multus", umap
                       [ ("networkName", UString (Name config ++ "-" ++ netName i)) ]) ])
          (Interfaces config).

Definition vmVolumes (config : NodeConfig) : list UValue :=
  [ umap [ ("name", UString "containerdisk");
           ("containerDisk", umap [ ("image", UString (Image config)) ]) ];
    umap [ ("name", UString "cloudinitdisk");
           ("cloudInitNoCloud", umap
              [ ("userData", UString (generateCloudInitUserData config)) ]) ] ].

Section executor.
Context (sched : schedule).

(** The manifest is a [map[string]interface{}]; its slices of maps,
    which the source types as [[]map[string]interface{}], are kept as
    [USlice]. *)
Definition renderVirtualMachine (namespace : string) (config : NodeConfig)
  : gmap string UValue :=
  let labels : gmap string string :=
    Renderer.range_insert sched (Labels config)
      (list_to_map
         [ ("app", Name config);
           (LabelTopologyNode, Name config);
           ("clabernetes/execution-mode", "native");
           ("clabernetes/workload-type", "vm");
           ("kubevirt.io/vm", Name config) ]) in
  let annotations : gmap string string :=
    Renderer.range_insert sched (Annotations config)
      (list_to_map
         [ ("clabernetes/node-kind", Kind config);
           ("clabernetes/image", Image config) ]) in
  let interfaces := vmInterfaces config in
  let networks := vmNetworks config in
  let '(memory, cpu) := vmRequests config in
  list_to_map
    [ ("apiVersion", UString "kubevirt.io/v1");
      ("kind", UString "VirtualMachine");
      ("metadata", umap
         [ ("name", UString (Name config));
           ("namespace", UString namespace);
           ("labels", UStringMap labels);
           ("annotations", UStringMap annotations) ]);
      ("spec", umap
         [ ("running", UBool true);
           ("template", umap
              [ ("metadata", umap [ ("labels", UStringMap labels) ]);
                ("spec", umap
                   [ ("domain", umap
                        [ ("devices", umap
                             [ ("disks", USlice
                                  [ umap [ ("name", UString "containerdisk");
                                           ("disk", umap [ ("bus", UString "virtio") ]) ];
                                    umap [ ("name", UString "cloudinitdisk");
                                           ("disk", umap [ ("bus", UString "virtio") ]) ] ]);
                               ("interfaces", USlice interfaces) ]);
                          ("resources", umap
                             [ ("requests", umap
                                  [ ("memory", UString memory);
                                    ("cpu", UString cpu) ]) ]) ]);
                     ("networks", USlice networks);
                     ("volumes", USlice (vmVolumes config)) ]) ]) ]) ].

End executor.

End VMExec.

(** ** Package [reconciler] *)

Module Reconciler.
Import GoStrings Common K8s Constants Renderer.

Record ResourceInfo : Type := mkResourceInfo {
  ri_Type : string;
  ri_Name : string;
  ri_Namespace : string;
  ri_WorkloadType : WorkloadType;
}.

Record ReconcileResult : Type := mkReconcileResult {
  Created : list ResourceInfo;
  Updated : list ResourceInfo;
  Deleted : list ResourceInfo;
  Errors : list GoError;
}.

Definition emptyResult : ReconcileResult := mkReconcileResult [] [] [] [].

Definition addCreated (r : ReconcileResult) (i : ResourceInfo) : ReconcileResult :=
  mkReconcileResult (Created r ++ [i]) (Updated r) (Deleted r) (Errors r).
Definition addUpdated (r : ReconcileResult) (i : ResourceInfo) : ReconcileResult :=
  mkReconcileResult (Created r) (Updated r ++ [i]) (Deleted r) (Errors r).
Definition addDeleted (r : ReconcileResult) (i : ResourceInfo) : ReconcileResult :=
  mkReconcileResult (Created r) (Updated r) (Deleted r ++ [i]) (Errors r).
Definition addError (r : ReconcileResult) (e : GoError) : ReconcileResult :=
  mkReconcileResult (Created r) (Updated r) (Deleted r) (Errors r ++ [e]).

(** Assignments through the pointer to a desired object. *)
Definition withResourceVersion (m : ObjectMeta) (version : string) : ObjectMeta :=
  mkObjectMeta (meta_Name m) (meta_Namespace m) (meta_Labels m)
    (meta_Annotations m) version.

Definition depSetResourceVersion (d : Deployment) (version : string) : Deployment :=
  mkDeployment (withResourceVersion (dep_Meta d) version) (dep_Spec d).

Definition svcSetResourceVersion (s : Service) (version : string) : Service :=
  mkService (withResourceVersion (svc_Meta s) version) (svc_Spec s).

Definition svcSetClusterIP (s : Service) (ip : string) : Service :=
  mkService (svc_Meta s)
    (mkServiceSpec (svc_Selector (svc_Spec s)) (svc_Ports (svc_Spec s))
       (svc_Type (svc_Spec s)) ip).

Definition cmSetResourceVersion (m : ConfigMap) (version : string) : ConfigMap :=
  mkConfigMap (withResourceVersion (cm_Meta m) version) (cm_Data m).

Definition needsDeploymentUpdate (existing desired : Deployment) : bool :=
  if negb (bool_decide (pod_Containers (tpl_Spec (Template (dep_Spec existing)))
                        = pod_Containers (tpl_Spec (Template (dep_Spec desired)))))
  then true
  else if negb (bool_decide (meta_Labels (dep_Meta existing)
                             = meta_Labels (dep_Meta desired)))
  then true
  else if negb (bool_decide (meta_Annotations (dep_Meta existing)
                             = meta_Annotations (dep_Meta desired)))
  then true
  else false.

Definition needsServiceUpdate (existing desired : Service) : bool :=
  if negb (bool_decide (svc_Ports (svc_Spec existing) = svc_Ports (svc_Spec desired)))
  then true
  else if negb (bool_decide (svc_Selector (svc_Spec existing)
                             = svc_Selector (svc_Spec desired)))
  then true
  else if negb (bool_decide (svc_Type (svc_Spec existing) = svc_Type (svc_Spec desired)))
  then true
  else false.

Definition getResourceKey (resource : Resource) : string :=
  match res_Object resource with
  | ODeployment obj => "Deployment/" ++ meta_Name (dep_Meta obj)
  | OService obj => "Service/" ++ meta_Name (svc_Meta obj)
  | OConfigMap obj => "ConfigMap/" ++ meta_Name (cm_Meta obj)
  | OUnstructured obj => GetKind obj ++ "/" ++ GetName obj
  | OOther => "Unknown/" ++ res_Type resource
  end.

(** What a reconcile function leaves behind: its error, the cluster, the
    result it appends to, and the desired object, which it may have
    assigned to. *)
Definition Step (A : Type) : Type := option GoError * Cluster * ReconcileResult * A.

Section reconciler.
Context (faults : Faults).

Definition getDeployment (c : Cluster) (ns name : string) : GoError + Deployment :=
  match api_get faults c KDeployment ns name with
  | inl err => inl err
  | inr (ODeployment d) => inr d
  | inr _ => inl ErrNotFound
  end.

Definition getService (c : Cluster) (ns name : string) : GoError + Service :=
  match api_get faults c KService ns name with
  | inl err => inl err
  | inr (OService s) => inr s
  | inr _ => inl ErrNotFound
  end.

Definition getConfigMap (c : Cluster) (ns name : string) : GoError + ConfigMap :=
  match api_get faults c KConfigMap ns name with
  | inl err => inl err
  | inr (OConfigMap m) => inr m
  | inr _ => inl ErrNotFound
  end.

Definition getVirtualMachine (c : Cluster) (ns name : string) : GoError + Unstructured :=
  match api_get faults c KVirtualMachine ns name with
  | inl err => inl err
  | inr (OUnstructured u) => inr u
  | inr _ => inl ErrNotFound
  end.

Definition reconcileDeployment (deployment : Deployment) (workloadType : WorkloadType)
  (c : Cluster) (result : ReconcileResult) : Step Deployment :=
  let ns := meta_Namespace (dep_Meta deployment) in
  let name := meta_Name (dep_Meta deployment) in
  match getDeployment c ns name with
  | inl err =>
      if IsNotFound err then
        match api_create faults c KDeployment ns name (ODeployment deployment) with
        | inl err =>
            (Some (ErrWrap ("failed to create deployment " ++ name ++ ": ") err),
             c, result, deployment)
        | inr c' =>
            (None, c',
             addCreated result (mkResourceInfo "Deployment" name ns workloadType),
             deployment)
        end
      else
        (Some (ErrWrap ("failed to get deployment " ++ name ++ ": ") err),
         c, result, deployment)
  | inr existing =>
      if needsDeploymentUpdate existing deployment then
        let deployment :=
          depSetResourceVersion deployment (meta_ResourceVersion (dep_Meta existing)) in
        match api_update faults c KDeployment ns name (ODeployment deployment) with
        | inl err =>
            (Some (ErrWrap ("failed to update deployment " ++ name ++ ": ") err),
             c, result, deployment)
        | inr c' =>
            (None, c',
             addUpdated result (mkResourceInfo "Deployment" name ns workloadType),
             deployment)
        end
      else (None, c, result, deployment)
  end.

Definition reconcileService (service : Service) (workloadType : WorkloadType)
  (c : Cluster) (result : ReconcileResult) : Step Service :=
  let ns := meta_Namespace (svc_Meta service) in
  let name := meta_Name (svc_Meta service) in
  match getService c ns name with
  | inl err =>
      if IsNotFound err then
        match api_create faults c KService ns name (OService service) with
        | inl err =>
            (Some (ErrWrap ("failed to create service " ++ name ++ ": ") err),
             c, result, service)
        | inr c' =>
            (None, c',
             addCreated result (mkResourceInfo "Service" name ns workloadType),
             service)
        end
      else
        (Some (ErrWrap ("failed to get service " ++ name ++ ": ") err),
         c, result, service)
  | inr existing =>
      if needsServiceUpdate existing service then
        let service :=
          svcSetResourceVersion service (meta_ResourceVersion (svc_Meta existing)) in
        let service := svcSetClusterIP service (svc_ClusterIP (svc_Spec existing)) in
        match api_update faults c KService ns name (OService service) with
        | inl err =>
            (Some (ErrWrap ("failed to update service " ++ name ++ ": ") err),
             c, result, service)
        | inr c' =>
            (None, c',
             addUpdated result (mkResourceInfo "Service" name ns workloadType),
             service)
        end
      else (None, c, result, service)
  end.

Definition reconcileConfigMap (configMap : ConfigMap) (workloadType : WorkloadType)
  (c : Cluster) (result : ReconcileResult) : Step ConfigMap :=
  let ns := meta_Namespace (cm_Meta configMap) in
  let name := meta_Name (cm_Meta configMap) in
  match getConfigMap c ns name with
  | inl err =>
      if IsNotFound err then
        match api_create faults c KConfigMap ns name (OConfigMap configMap) with
        | inl err =>
            (Some (ErrWrap ("failed to create configmap " ++ name ++ ": ") err),
             c, result, configMap)
        | inr c' =>
            (None, c',
             addCreated result (mkResourceInfo "ConfigMap" name ns workloadType),
             configMap)
        end
      else
        (Some (ErrWrap ("failed to get configmap " ++ name ++ ": ") err),
         c, result, configMap)
  | inr existing =>
      if negb (bool_decide (cm_Data existing = cm_Data configMap)) then
        let configMap :=
          cmSetResourceVersion configMap (meta_ResourceVersion (cm_Meta existing)) in
        match api_update faults c KConfigMap ns name (OConfigMap configMap) with
        | inl err =>
            (Some (ErrWrap ("failed to update configmap " ++ name ++ ": ") err),
             c, result, configMap)
        | inr c' =>
            (None, c',
             addUpdated result (mkResourceInfo "ConfigMap" name ns workloadType),
             configMap)
        end
      else (None, c, result, configMap)
  end.

Definition reconcileVirtualMachine (vm : Unstructured) (workloadType : WorkloadType)
  (c : Cluster) (result : ReconcileResult) : Outcome (Step Unstructured) :=
  match getVirtualMachine c (GetNamespace vm) (GetName vm) with
  | inl err =>
      if IsNotFound err then
        match api_create faults c KVirtualMachine (GetNamespace vm) (GetName vm)
                (OUnstructured vm) with
        | inl err =>
            Ret (Some (ErrWrap ("failed to create VM " ++ GetName vm ++ ": ") err),
                 c, result, vm)
        | inr c' =>
            Ret (None, c',
                 addCreated result
                   (mkResourceInfo "VirtualMachine" (GetName vm) (GetNamespace vm)
                      workloadType),
                 vm)
        end
      else
        Ret (Some (ErrWrap ("failed to get VM " ++ GetName vm ++ ": ") err),
             c, result, vm)
  | inr existing =>
      match NestedMap (Object existing) ["spec"] with
      | Panic why => Panic why
      | Ret existingSpec =>
          match NestedMap (Object vm) ["spec"] with
          | Panic why => Panic why
          | Ret desiredSpec =>
              if negb (deep_equal_map existingSpec desiredSpec) then
                let vm := SetResourceVersion vm (GetResourceVersion existing) in
                match api_update faults c KVirtualMachine (GetNamespace vm) (GetName vm)
                        (OUnstructured vm) with
                | inl err =>
                    Ret (Some (ErrWrap ("failed to update VM " ++ GetName vm ++ ": ") err),
                         c, result, vm)
                | inr c' =>
                    Ret (None, c',
                         addUpdated result
                           (mkResourceInfo "VirtualMachine" (GetName vm)
                              (GetNamespace vm) workloadType),
                         vm)
                end
              else Ret (None, c, result, vm)
          end
      end
  end.

(** Puts the object back behind the resource's pointer. *)
Definition withObject (resource : Resource) (o : Obj) : Resource :=
  mkResource (res_Type resource) o (res_Dependencies resource).

Definition reconcileResource (resource : Resource) (workloadType : WorkloadType)
  (namespace : string) (c : Cluster) (result : ReconcileResult)
  : Outcome (Step Resource) :=
  if bool_decide (res_Type resource = "Deployment") then
    match res_Object resource with
    | ODeployment d =>
        let '(err, c', result', d') := reconcileDeployment d workloadType c result in
        Ret (err, c', result', withObject resource (ODeployment d'))
    | _ => Panic TypeAssertion
    end
  else if bool_decide (res_Type resource = "Service") then
    match res_Object resource with
    | OService s =>
        let '(err, c', result', s') := reconcileService s workloadType c result in
        Ret (err, c', result', withObject resource (OService s'))
    | _ => Panic TypeAssertion
    end
  else if bool_decide (res_Type resource = "ConfigMap") then
    match res_Object resource with
    | OConfigMap m =>
        let '(err, c', result', m') := reconcileConfigMap m workloadType c result in
        Ret (err, c', result', withObject resource (OConfigMap m'))
    | _ => Panic TypeAssertion
    end
  else if bool_decide (res_Type resource = "VirtualMachine") then
    match res_Object resource with
    | OUnstructured u =>
        match reconcileVirtualMachine u workloadType c result with
        | Panic why => Panic why
        | Ret (err, c', result', u') =>
            Ret (err, c', result', withObject resource (OUnstructured u'))
        end
    | _ => Panic TypeAssertion
    end
  else
    Ret (Some (ErrNew ("unsupported resource type: " ++ res_Type resource)),
         c, result, resource).

(** The typed items of a list call. *)
Definition asDeployment (o : Obj) : option Deployment :=
  match o with ODeployment d => Some d | _ => None end.
Definition asService (o : Obj) : option Service :=
  match o with OService s => Some s | _ => None end.
Definition asConfigMap (o : Obj) : option ConfigMap :=
  match o with OConfigMap m => Some m | _ => None end.

Definition getExistingResources (c : Cluster) (topology : Topology) (namespace : string)
  : GoError + gmap string Obj :=
  let resources : gmap string Obj := ∅ in
  match api_list faults c KDeployment namespace LabelTopology (topo_Name topology) with
  | inl err => inl (ErrWrap "failed to list deployments: " err)
  | inr deployments =>
      let resources :=
        foldl (fun acc d => <["Deployment/" ++ meta_Name (dep_Meta d) := ODeployment d]> acc)
              resources (omap asDeployment deployments) in
      match api_list faults c KService namespace LabelTopology (topo_Name topology) with
      | inl err => inl (ErrWrap "failed to list services: " err)
      | inr services =>
          let resources :=
            foldl (fun acc s => <["Service/" ++ meta_Name (svc_Meta s) := OService s]> acc)
                  resources (omap asService services) in
          match api_list faults c KConfigMap namespace LabelTopology
                  (topo_Name topology) with
          | inl err => inl (ErrWrap "failed to list configmaps: " err)
          | inr configMaps =>
              inr (foldl (fun acc m =>
                            <["ConfigMap/" ++ meta_Name (cm_Meta m) := OConfigMap m]> acc)
                         resources (omap asConfigMap configMaps))
          end
      end
  end.

(** The error of a delete call that [deleteResource] returns: none for
    success and for not-found. *)
Definition deleteOutcome (c : Cluster) (r : GoError + Cluster) : option GoError * Cluster :=
  match r with
  | inl err => if negb (IsNotFound err) then (Some err, c) else (None, c)
  | inr c' => (None, c')
  end.

Definition deleteResource (key : string) (resource : Obj) (c : Cluster)
  (result : ReconcileResult) : Outcome (option GoError * Cluster * ReconcileResult) :=
  match SplitN2 key "/" with
  | [resourceType; resourceName] =>
      let deleted :=
        if bool_decide (resourceType = "Deployment") then
          match resource with
          | ODeployment deployment =>
              Ret (deleteOutcome c
                     (api_delete faults c KDeployment
                        (meta_Namespace (dep_Meta deployment)) resourceName))
          | _ => Panic TypeAssertion
          end
        else if bool_decide (resourceType = "Service") then
          match resource with
          | OService service =>
              Ret (deleteOutcome c
                     (api_delete faults c KService
                        (meta_Namespace (svc_Meta service)) resourceName))
          | _ => Panic TypeAssertion
          end
        else if bool_decide (resourceType = "ConfigMap") then
          match resource with
          | OConfigMap configMap =>
              Ret (deleteOutcome c
                     (api_delete faults c KConfigMap
                        (meta_Namespace (cm_Meta configMap)) resourceName))
          | _ => Panic TypeAssertion
          end
        else Ret (None, c) in
      match deleted with
      | Panic why => Panic why
      | Ret (Some err, c') => Ret (Some err, c', result)
      | Ret (None, c') =>
          Ret (None, c', addDeleted result (mkResourceInfo resourceType resourceName "" ""))
      end
  | _ => Ret (Some (ErrNew ("invalid resource key: " ++ key)), c, result)
  end.

(** The loop of [deleteUnwantedResources] over the keys of [existing] in
    the order of the run; [existing[existingKey]] of a missing key is the
    nil interface. *)
Fixpoint deleteUnwantedLoop (keys : list string) (existing : gmap string Obj)
  (desired : gmap string Resource) (c : Cluster) (result : ReconcileResult)
  : Outcome (option GoError * Cluster * ReconcileResult) :=
  match keys with
  | [] => Ret (None, c, result)
  | existingKey :: rest =>
      match desired !! existingKey with
      | Some _ => deleteUnwantedLoop rest existing desired c result
      | None =>
          match deleteResource existingKey (default OOther (existing !! existingKey))
                  c result with
          | Panic why => Panic why
          | Ret (Some err, c', result') =>
              Ret (Some (ErrWrap ("failed to delete resource " ++ existingKey ++ ": ") err),
                   c', result')
          | Ret (None, c', result') =>
              deleteUnwantedLoop rest existing desired c' result'
          end
      end
  end.

Definition deleteUnwantedResources (sched : schedule) (existing : gmap string Obj)
  (desired : gmap string Resource) (c : Cluster) (result : ReconcileResult)
  : Outcome (option GoError * Cluster * ReconcileResult) :=
  deleteUnwantedLoop (sched Obj existing).*1 existing desired c result.

(** The state that the loops of [ReconcileTopologyWorkloads] thread. *)
Record LoopState : Type := mkLoopState {
  ls_cluster : Cluster;
  ls_result : ReconcileResult;
  ls_desired : gmap string Resource;
}.

(** The body of the inner loop, for one resource of one node. *)
Definition reconcileOne (nodeName : string) (workloadType : WorkloadType)
  (namespace : string) (resource : Resource) (s : LoopState)
  : Outcome (LoopState * Resource) :=
  let key := getResourceKey resource in
  let desired := <[key := resource]> (ls_desired s) in
  match reconcileResource resource workloadType namespace (ls_cluster s) (ls_result s) with
  | Panic why => Panic why
  | Ret (Some err, c', result', resource') =>
      Ret (mkLoopState c'
             (addError result'
                (ErrWrap ("failed to reconcile resource " ++ key ++ " for node "
                          ++ nodeName ++ ": ") err))
             desired,
           resource')
  | Ret (None, c', result', resource') =>
      Ret (mkLoopState c' result' desired, resource')
  end.

(** The inner loop over the resources of a node; it returns the
    resources as the loop leaves them. *)
Fixpoint reconcileResources (nodeName : string) (workloadType : WorkloadType)
  (namespace : string) (resources : list Resource) (s : LoopState)
  : Outcome (LoopState * list Resource) :=
  match resources with
  | [] => Ret (s, [])
  | resource :: rest =>
      match reconcileOne nodeName workloadType namespace resource s with
      | Panic why => Panic why
      | Ret (s', resource') =>
          match reconcileResources nodeName workloadType namespace rest s' with
          | Panic why => Panic why
          | Ret (s'', rest') => Ret (s'', resource' :: rest')
          end
      end
  end.

(** The outer loop over the nodes, in the order of the run. *)
Fixpoint reconcileNodes (namespace : string) (entries : list (string * RenderResult))
  (s : LoopState) : Outcome (LoopState * list (string * RenderResult)) :=
  match entries with
  | [] => Ret (s, [])
  | (nodeName, renderResult) :: rest =>
      match reconcileResources nodeName (rr_WorkloadType renderResult) namespace
              (rr_Resources renderResult) s with
      | Panic why => Panic why
      | Ret (s', resources') =>
          match reconcileNodes namespace rest s' with
          | Panic why => Panic why
          | Ret (s'', rest') =>
              Ret (s'',
                   (nodeName,
                    mkRenderResult (rr_WorkloadType renderResult) resources'
                      (rr_NodeConfig renderResult)) :: rest')
          end
      end
  end.

(** The render results after a call: the map is the caller's, and the
    objects behind its pointers are as the loops left them. *)
Definition afterCall (renderResults : gmap string RenderResult)
  (visited : list (string * RenderResult)) : gmap string RenderResult :=
  foldl (fun acc e => <[e.1 := e.2]> acc) renderResults visited.

(** [ReconcileTopologyWorkloads]: the pair of the result and the error
    that the function returns, the cluster and the render results after
    the call. *)
Definition ReconcileTopologyWorkloads (sched : schedule) (topology : Topology)
  (renderResults : gmap string RenderResult) (namespace : string) (c : Cluster)
  : Outcome ((GoError + ReconcileResult) * Cluster * gmap string RenderResult) :=
  let result := emptyResult in
  match getExistingResources c topology namespace with
  | inl err =>
      Ret (inl (ErrWrap "failed to get existing resources: " err), c, renderResults)
  | inr existingResources =>
      match reconcileNodes namespace (sched RenderResult renderResults)
              (mkLoopState c result ∅) with
      | Panic why => Panic why
      | Ret (s, visited) =>
          match deleteUnwantedResources sched existingResources (ls_desired s)
                  (ls_cluster s) (ls_result s) with
          | Panic why => Panic why
          | Ret (Some err, c', result') =>
              Ret (inr (addError result'
                          (ErrWrap "failed to delete unwanted resources: " err)),
                   c', afterCall renderResults visited)
          | Ret (None, c', result') =>
              Ret (inr result', c', afterCall renderResults visited)
          end
      end
  end.

End reconciler.

End Reconciler.

(** * Properties *)

Import GoStrings Common K8s Constants Detector Renderer Reconciler.

(** ** The classifier *)

(** The node configuration with the directive removed from its
    environment. *)
Definition withoutDirective (config : NodeConfig) : NodeConfig :=
  mkNodeConfig (Name config) (Image config) (Kind config) (Labels config)
    (Annotations config) (delete EXECUTION_MODE (Environment config))
    (Interfaces config) (Resources config) (StartupConfig config) (Files config).

(** A node configuration of the test suite: name, image, kind and
    environment. *)
Definition testNode (name image kind : string) (env : gmap string string) : NodeConfig :=
  mkNodeConfig name image kind ∅ ∅ env [] None "" ∅.

Lemma sched_fwd_valid : valid_schedule sched_fwd.
Proof. intros V m. reflexivity. Qed.

Lemma sched_rev_valid : valid_schedule sched_rev.
Proof. intros V m. unfold sched_rev. by rewrite reverse_Permutation. Qed.

Lemma index_bool_insert_eq (m : gmap string bool) k :
  index_bool (<[k := true]> m) k = true.
Proof. unfold index_bool. by rewrite lookup_insert_eq. Qed.

Lemma index_bool_insert_ne (m : gmap string bool) k k' b :
  k <> k' -> index_bool (<[k := b]> m) k' = index_bool m k'.
Proof. intros Hne. unfold index_bool. by rewrite lookup_insert_ne. Qed.

Lemma index_bool_delete_eq (m : gmap string bool) k :
  index_bool (delete k m) k = false.
Proof. unfold index_bool. by rewrite lookup_delete_eq. Qed.

Lemma index_bool_delete_ne (m : gmap string bool) k k' :
  k <> k' -> index_bool (delete k m) k' = index_bool m k'.
Proof. intros Hne. unfold index_bool. by rewrite lookup_delete_ne. Qed.

Section classifier_facts.
Context (ToLower : string -> string) (sched : schedule).

Lemma execModeSwitch_vm execMode :
  ToLower execMode = "vm" \/ ToLower execMode = "virtual-machine" ->
  execModeSwitch ToLower execMode = Some WorkloadTypeVM.
Proof. unfold execModeSwitch. intros [-> | ->]; reflexivity. Qed.

Lemma execModeSwitch_container execMode :
  ToLower execMode = "container" \/ ToLower execMode = "pod" ->
  execModeSwitch ToLower execMode = Some WorkloadTypeContainer.
Proof. unfold execModeSwitch. intros [-> | ->]; reflexivity. Qed.

Lemma execModeSwitch_none execMode :
  ToLower execMode ∉ ["vm"; "virtual-machine"; "container"; "pod"] ->
  execModeSwitch ToLower execMode = None.
Proof.
  intros Hnot. unfold execModeSwitch.
  repeat case_bool_decide; simpl; try reflexivity;
    exfalso; apply Hnot;
    match goal with H : ToLower execMode = _ |- _ => rewrite H end;
    repeat constructor.
Qed.

Lemma execModeSwitch_range execMode verdict :
  execModeSwitch ToLower execMode = Some verdict ->
  verdict = WorkloadTypeContainer \/ verdict = WorkloadTypeVM.
Proof.
  unfold execModeSwitch.
  destruct (_ || _); [intros [= <-]; by right|].
  destruct (_ || _); [intros [= <-]; by left|]. discriminate.
Qed.

(** The test [workloadType != ""] on the empty string. *)
Lemma pick_empty (rest : WorkloadType) :
  (if negb (bool_decide (("" : WorkloadType) = "")) then "" else rest) = rest.
Proof. reflexivity. Qed.

Lemma classifyByImage_range c image :
  classifyByImage ToLower sched c image = "" \/
  classifyByImage ToLower sched c image = WorkloadTypeContainer \/
  classifyByImage ToLower sched c image = WorkloadTypeVM.
Proof.
  unfold classifyByImage.
  destruct (find _ _) as [[? []]|]; auto.
  repeat (destruct (existsb _ _); auto).
Qed.

Lemma classifyByKind_range kind :
  classifyByKind ToLower kind = "" \/
  classifyByKind ToLower kind = WorkloadTypeContainer \/
  classifyByKind ToLower kind = WorkloadTypeVM.
Proof. unfold classifyByKind. repeat (destruct (index_bool _ _); auto). Qed.

Lemma classifyByImageCharacteristics_range image :
  classifyByImageCharacteristics ToLower image = "" \/
  classifyByImageCharacteristics ToLower image = WorkloadTypeContainer \/
  classifyByImageCharacteristics ToLower image = WorkloadTypeVM.
Proof.
  unfold classifyByImageCharacteristics.
  destruct (_ || _); auto. repeat (destruct (existsb _ _); auto).
Qed.

Lemma classifyWithoutDirective_range c config :
  classifyWithoutDirective ToLower sched c config = WorkloadTypeContainer \/
  classifyWithoutDirective ToLower sched c config = WorkloadTypeVM.
Proof.
  unfold classifyWithoutDirective. cbv zeta.
  destruct (index_bool (forceVM c) _); [by right|].
  destruct (index_bool (forceContainer c) _); [by left|].
  destruct (classifyByImage_range c (Image config)) as [-> | [-> | ->]];
    [rewrite pick_empty | by left | by right].
  destruct (classifyByKind_range (Kind config)) as [-> | [-> | ->]];
    [rewrite pick_empty | by left | by right].
  destruct (classifyByImageCharacteristics_range (Image config))
    as [-> | [-> | ->]]; [by left | by left | by right].
Qed.

Lemma DetermineWorkloadType_range c config :
  DetermineWorkloadType ToLower sched c config = WorkloadTypeContainer \/
  DetermineWorkloadType ToLower sched c config = WorkloadTypeVM.
Proof.
  unfold DetermineWorkloadType.
  destruct (Environment config !! EXECUTION_MODE) as [execMode|];
    [|apply classifyWithoutDirective_range].
  destruct (execModeSwitch ToLower execMode) as [verdict|] eqn:Hsw;
    [|apply classifyWithoutDirective_range].
  by apply execModeSwitch_range in Hsw.
Qed.

(** The classification when the directive check falls through. *)
Lemma DetermineWorkloadType_no_directive c config :
  Environment config !! EXECUTION_MODE ≫= execModeSwitch ToLower = None ->
  DetermineWorkloadType ToLower sched c config
  = classifyWithoutDirective ToLower sched c config.
Proof.
  unfold DetermineWorkloadType.
  destruct (Environment config !! EXECUTION_MODE) as [execMode|]; simpl; [|done].
  by intros ->.
Qed.

Lemma existsb_none {A} (f : A -> bool) (l : list A) :
  (forall x, x ∈ l -> f x = false) -> existsb f l = false.
Proof.
  intros H. induction l as [|x l IH]; simpl; [done|].
  rewrite H by constructor. apply IH. intros y Hy. apply H. by constructor.
Qed.

Lemma find_none {A} (f : A -> bool) (l : list A) :
  (forall x, x ∈ l -> f x = false) -> find f l = None.
Proof.
  intros H. induction l as [|x l IH]; simpl; [done|].
  rewrite H by constructor. apply IH. intros y Hy. apply H. by constructor.
Qed.

Lemma classifyByImage_none c image :
  valid_schedule sched ->
  (forall pattern isVM, vmImageMap c !! pattern = Some isVM ->
     Contains (ToLower image) (ToLower pattern) = false) ->
  (forall indicator, indicator ∈ (vmIndicators ++ containerIndicators)%list ->
     Contains (ToLower image) indicator = false) ->
  classifyByImage ToLower sched c image = "".
Proof.
  intros Hsched Htable Hind. unfold classifyByImage.
  rewrite find_none.
  - rewrite !existsb_none; [done| |]; intros i Hi; apply Hind;
      apply elem_of_app; [by right | by left].
  - intros [pattern isVM] Hin. simpl. apply (Htable pattern isVM).
    apply elem_of_map_to_list. by rewrite <- (Hsched bool (vmImageMap c)).
Qed.

Lemma classifyByKind_none kind :
  vmKinds !! ToLower kind = None -> containerKinds !! ToLower kind = None ->
  classifyByKind ToLower kind = "".
Proof. intros Hvm Hct. unfold classifyByKind, index_bool. by rewrite Hvm, Hct. Qed.

Lemma classifyByImageCharacteristics_none image :
  (forall format, format ∈ vmImageFormats ->
     Contains (ToLower image) format = false) ->
  (forall registry, registry ∈ (vmRegistries ++ containerRegistries)%list ->
     HasPrefix (ToLower image) registry = false) ->
  classifyByImageCharacteristics ToLower image = "".
Proof.
  intros Hfmt Hreg. unfold classifyByImageCharacteristics.
  rewrite !Hfmt by (unfold vmImageFormats; repeat constructor). cbn [orb].
  rewrite !existsb_none; [done| |]; intros r Hr; apply Hreg;
    apply elem_of_app; [by right | by left].
Qed.

End classifier_facts.

(** C2.  A node whose environment sets EXECUTION_MODE to a value that
    lower-cases to "vm" or "virtual-machine" is classified as a VM, and
    one whose value lower-cases to "container" or "pod" as a container,
    whatever the image, the kind, the classifier's table and its force
    registries are. *)
Theorem directive_wins (ToLower : string -> string) (sched : schedule)
  (c : WorkloadClassifier) (config : NodeConfig) (execMode : string) :
  Environment config !! EXECUTION_MODE = Some execMode ->
  (ToLower execMode = "vm" \/ ToLower execMode = "virtual-machine" ->
   DetermineWorkloadType ToLower sched c config = WorkloadTypeVM) /\
  (ToLower execMode = "container" \/ ToLower execMode = "pod" ->
   DetermineWorkloadType ToLower sched c config = WorkloadTypeContainer).
Proof.
  intros Henv. unfold DetermineWorkloadType. rewrite Henv. split; intros Hmode.
  - by rewrite execModeSwitch_vm.
  - by rewrite execModeSwitch_container.
Qed.

(** A container image, forced to container by the registry as well, with
    the directive "VM" in upper case: the directive decides. *)
Lemma directive_wins_witness :
  DetermineWorkloadType ascii_ToLower sched_fwd
    (ForceContainer NewWorkloadClassifier "x")
    (testNode "x" "ceos:latest" "ceos" {[ EXECUTION_MODE := "VM" ]})
  = WorkloadTypeVM.
Proof.
  apply (directive_wins ascii_ToLower sched_fwd
           (ForceContainer NewWorkloadClassifier "x")
           (testNode "x" "ceos:latest" "ceos" {[ EXECUTION_MODE := "VM" ]}) "VM").
  - reflexivity.
  - left. reflexivity.
Defined.

(** C7.  The classifier returns one of the two workload types for every
    node configuration, and it returns container for a node without
    directive and without force override whose image matches no pattern
    of the table, no indicator, no image format and no registry, and
    whose kind is in neither list of kinds. *)
Theorem classification_total_with_container_default
  (ToLower : string -> string) (sched : schedule) :
  (forall c config,
     DetermineWorkloadType ToLower sched c config = WorkloadTypeContainer \/
     DetermineWorkloadType ToLower sched c config = WorkloadTypeVM) /\
  (valid_schedule sched ->
   forall c config,
     Environment config !! EXECUTION_MODE = None ->
     index_bool (forceVM c) (Name config) = false ->
     index_bool (forceContainer c) (Name config) = false ->
     (forall pattern isVM, vmImageMap c !! pattern = Some isVM ->
        Contains (ToLower (Image config)) (ToLower pattern) = false) ->
     (forall indicator, indicator ∈ (vmIndicators ++ containerIndicators)%list ->
        Contains (ToLower (Image config)) indicator = false) ->
     vmKinds !! ToLower (Kind config) = None ->
     containerKinds !! ToLower (Kind config) = None ->
     (forall format, format ∈ vmImageFormats ->
        Contains (ToLower (Image config)) format = false) ->
     (forall registry, registry ∈ (vmRegistries ++ containerRegistries)%list ->
        HasPrefix (ToLower (Image config)) registry = false) ->
     DetermineWorkloadType ToLower sched c config = WorkloadTypeContainer).
Proof.
  split; [apply DetermineWorkloadType_range|].
  intros Hsched c config Henv HfVM HfCt Htable Hind HkVM HkCt Hfmt Hreg.
  rewrite DetermineWorkloadType_no_directive by (by rewrite Henv).
  unfold classifyWithoutDirective. cbv zeta. rewrite HfVM, HfCt.
  rewrite classifyByImage_none, pick_empty by done.
  rewrite classifyByKind_none, pick_empty by done.
  rewrite classifyByImageCharacteristics_none by done.
  reflexivity.
Qed.

Lemma Forall_elem_of_bool {A} (f : A -> bool) (l : list A) :
  forallb f l = true -> forall x, x ∈ l -> f x = true.
Proof.
  intros H x Hx. apply list_elem_of_In in Hx.
  by apply (proj1 (forallb_forall f l) H).
Qed.

(** The unknown image and kind of the test suite. *)
Lemma classification_total_with_container_default_witness :
  DetermineWorkloadType ascii_ToLower sched_fwd NewWorkloadClassifier
    (testNode "unknown1" "unknown/router:latest" "unknown" ∅)
  = WorkloadTypeContainer.
Proof.
  apply (proj2 (classification_total_with_container_default ascii_ToLower sched_fwd)
           sched_fwd_valid NewWorkloadClassifier
           (testNode "unknown1" "unknown/router:latest" "unknown" ∅)).
  - reflexivity.
  - reflexivity.
  - reflexivity.
  - intros pattern isVM Hlook.
    apply elem_of_list_to_map_2 in Hlook.
    apply negb_true_iff.
    apply (Forall_elem_of_bool
             (fun e : string * bool =>
                negb (Contains (ascii_ToLower "unknown/router:latest")
                        (ascii_ToLower e.1)))
             knownImages eq_refl (pattern, isVM) Hlook).
  - intros indicator Hin. apply negb_true_iff.
    apply (Forall_elem_of_bool
             (fun i => negb (Contains (ascii_ToLower "unknown/router:latest") i))
             (vmIndicators ++ containerIndicators)%list eq_refl indicator Hin).
  - reflexivity.
  - reflexivity.
  - intros format Hin. apply negb_true_iff.
    apply (Forall_elem_of_bool
             (fun i => negb (Contains (ascii_ToLower "unknown/router:latest") i))
             vmImageFormats eq_refl format Hin).
  - intros registry Hin. apply negb_true_iff.
    apply (Forall_elem_of_bool
             (fun i => negb (HasPrefix (ascii_ToLower "unknown/router:latest") i))
             (vmRegistries ++ containerRegistries)%list eq_refl registry Hin).
Defined.

Lemma runCall_other (c : WorkloadClassifier) (call : ForceCall) (n : string) :
  callNode call <> n ->
  forceVM (runCall c call) !! n = forceVM c !! n /\
  forceContainer (runCall c call) !! n = forceContainer c !! n.
Proof.
  intros Hne. destruct call as [m|m]; simpl in *;
    by rewrite lookup_insert_ne, lookup_delete_ne.
Qed.

Lemma runCalls_other (calls : list ForceCall) (c : WorkloadClassifier) (n : string) :
  Forall (fun later => callNode later <> n) calls ->
  forceVM (runCalls c calls) !! n = forceVM c !! n /\
  forceContainer (runCalls c calls) !! n = forceContainer c !! n.
Proof.
  unfold runCalls. intros Hall. revert c.
  induction Hall as [|call calls Hne _ IH]; intros c; simpl; [done|].
  destruct (IH (runCall c call)) as [-> ->]. by apply runCall_other.
Qed.

Lemma runCalls_vmImageMap (calls : list ForceCall) (c : WorkloadClassifier) :
  vmImageMap (runCalls c calls) = vmImageMap c.
Proof.
  unfold runCalls. revert c. induction calls as [|call calls IH]; intros c; simpl; [done|].
  rewrite IH. by destruct call.
Qed.

(** The two registries after a call, at the node of the call. *)
Lemma runCall_here (c : WorkloadClassifier) (call : ForceCall) :
  match call with
  | CallForceVM n =>
      forceVM (runCall c call) !! n = Some true /\
      forceContainer (runCall c call) !! n = None
  | CallForceContainer n =>
      forceVM (runCall c call) !! n = None /\
      forceContainer (runCall c call) !! n = Some true
  end.
Proof.
  destruct call as [n|n]; simpl; by rewrite lookup_insert_eq, lookup_delete_eq.
Qed.

(** The registries never share a node once they are disjoint. *)
Lemma runCalls_disjoint (calls : list ForceCall) (c : WorkloadClassifier) :
  dom (forceVM c) ## dom (forceContainer c) ->
  dom (forceVM (runCalls c calls)) ## dom (forceContainer (runCalls c calls)).
Proof.
  unfold runCalls. revert c.
  induction calls as [|call calls IH]; intros c Hdisj; simpl; [done|].
  apply IH. destruct call as [n|n]; simpl;
    rewrite dom_insert_L, dom_delete_L; intros x;
    rewrite elem_of_union, elem_of_difference, !elem_of_singleton;
    intros H1 H2; specialize (Hdisj x); tauto.
Qed.

(** C8.  After any sequence of force calls, the node of a call that no
    later call names again is in at most one of the two registries, and a
    node configuration of that name without a recognised EXECUTION_MODE
    directive gets the workload type of that call.  From a new classifier
    no node is ever in both registries. *)
Theorem force_overrides_last_write_wins (ToLower : string -> string) (sched : schedule) :
  (forall (c0 : WorkloadClassifier) (before after : list ForceCall) (call : ForceCall),
     Forall (fun later => callNode later <> callNode call) after ->
     let c := runCalls c0 (before ++ call :: after) in
     ~ (callNode call ∈ dom (forceVM c) /\ callNode call ∈ dom (forceContainer c)) /\
     (forall config,
        Name config = callNode call ->
        Environment config !! EXECUTION_MODE ≫= execModeSwitch ToLower = None ->
        DetermineWorkloadType ToLower sched c config = callType call)) /\
  (forall (calls : list ForceCall) (n : string),
     let c := runCalls NewWorkloadClassifier calls in
     ~ (n ∈ dom (forceVM c) /\ n ∈ dom (forceContainer c))).
Proof.
  split.
  - intros c0 before after call Hafter c.
    assert (Hsplit : c = runCalls (runCall (runCalls c0 before) call) after).
    { unfold c, runCalls. by rewrite foldl_app. }
    destruct (runCalls_other after (runCall (runCalls c0 before) call)
                (callNode call) Hafter) as [HVM HCt].
    rewrite <- Hsplit in HVM, HCt.
    pose proof (runCall_here (runCalls c0 before) call) as Hhere.
    split.
    + rewrite !elem_of_dom, HVM, HCt.
      destruct call as [n|n]; cbn [callNode] in *; destruct Hhere as [H1 H2];
        rewrite H1, H2; intros [[? ?] [? ?]]; discriminate.
    + intros config Hname Hdir.
      rewrite DetermineWorkloadType_no_directive by done.
      unfold classifyWithoutDirective, index_bool. rewrite Hname, HVM, HCt.
      destruct call as [n|n]; cbn [callNode callType] in *;
        destruct Hhere as [H1 H2]; rewrite H1, H2; reflexivity.
  - intros calls n c [HVM HCt].
    apply (runCalls_disjoint calls NewWorkloadClassifier) with (x := n); [|done..].
    simpl. set_solver.
Qed.

(** The scenario of the test suite: a cEOS node forced to VM and then
    back to container is a container. *)
Lemma force_overrides_last_write_wins_witness :
  let c := runCalls NewWorkloadClassifier [CallForceVM "test1"; CallForceContainer "test1"] in
  ~ ("test1" ∈ dom (forceVM c) /\ "test1" ∈ dom (forceContainer c)) /\
  DetermineWorkloadType ascii_ToLower sched_fwd c
    (testNode "test1" "vyos/vyos:1.4" "vyos" ∅) = WorkloadTypeContainer.
Proof.
  destruct (proj1 (force_overrides_last_write_wins ascii_ToLower sched_fwd)
              NewWorkloadClassifier [CallForceVM "test1"] []
              (CallForceContainer "test1") (Forall_nil_2 _)) as [Hexcl Htype].
  split; [exact Hexcl|].
  apply (Htype (testNode "test1" "vyos/vyos:1.4" "vyos" ∅)); reflexivity.
Defined.

(** C9.  An EXECUTION_MODE value that lower-cases to none of the four
    recognised strings leaves the classification as it is for the same
    node without the directive; the documented modes "auto", "legacy" and
    "hybrid" are such values. *)
Theorem unrecognised_directive_is_ignored (sched : schedule)
  (c : WorkloadClassifier) (config : NodeConfig) (execMode : string) :
  Environment config !! EXECUTION_MODE = Some execMode ->
  (forall ToLower : string -> string,
     ToLower execMode ∉ ["vm"; "virtual-machine"; "container"; "pod"] ->
     DetermineWorkloadType ToLower sched c config
     = DetermineWorkloadType ToLower sched c (withoutDirective config)) /\
  (execMode ∈ [ExecutionModeAuto; ExecutionModeLegacy; ExecutionModeHybrid] ->
   DetermineWorkloadType ascii_ToLower sched c config
   = DetermineWorkloadType ascii_ToLower sched c (withoutDirective config)).
Proof.
  intros Henv.
  assert (Hgen : forall ToLower : string -> string,
            ToLower execMode ∉ ["vm"; "virtual-machine"; "container"; "pod"] ->
            DetermineWorkloadType ToLower sched c config
            = DetermineWorkloadType ToLower sched c (withoutDirective config)).
  { intros ToLower Hnot.
    rewrite !DetermineWorkloadType_no_directive.
    - reflexivity.
    - simpl. by rewrite lookup_delete_eq.
    - rewrite Henv. simpl. by apply execModeSwitch_none. }
  split; [exact Hgen|].
  intros Hdoc. apply Hgen.
  apply elem_of_cons in Hdoc as [-> | Hdoc];
    [|apply elem_of_cons in Hdoc as [-> | Hdoc];
      [|apply list_elem_of_singleton in Hdoc as ->]];
    vm_compute; intros Hin;
    repeat (apply elem_of_cons in Hin as [Hin | Hin]; [discriminate|]);
    by apply elem_of_nil in Hin.
Qed.

(** A VyOS node under the mode "auto": classified by its image, as
    without the directive. *)
Lemma unrecognised_directive_is_ignored_witness :
  DetermineWorkloadType ascii_ToLower sched_fwd NewWorkloadClassifier
    (testNode "fw1" "vyos/vyos:1.4" "vyos" {[ EXECUTION_MODE := "auto" ]})
  = DetermineWorkloadType ascii_ToLower sched_fwd NewWorkloadClassifier
      (withoutDirective
         (testNode "fw1" "vyos/vyos:1.4" "vyos" {[ EXECUTION_MODE := "auto" ]})).
Proof.
  refine (proj2 (unrecognised_directive_is_ignored sched_fwd NewWorkloadClassifier
                   (testNode "fw1" "vyos/vyos:1.4" "vyos" {[ EXECUTION_MODE := "auto" ]})
                   "auto" _) _).
  - reflexivity.
  - unfold ExecutionModeAuto. constructor.
Defined.

(** ** The renderer *)

(** The value at a path of an unstructured manifest. *)
Definition manifestField (u : Unstructured) (fields : list string) : option UValue :=
  nestedField (UMap (Object u)) fields.

(** The container of a rendered Deployment. *)
Definition deploymentContainers (d : Deployment) : option (list Container) :=
  pod_Containers (tpl_Spec (Template (dep_Spec d))).

(** The Deployment of a node among render results, when it has one. *)
Definition renderedDeployment (results : GoError + gmap string RenderResult)
  (nodeName : string) : option Deployment :=
  match results with
  | inr m =>
      rr ← m !! nodeName;
      head (omap (fun r => asDeployment (res_Object r)) (rr_Resources rr))
  | inl _ => None
  end.

(** The names of the environment variables of the first container. *)
Definition envNames (d : Deployment) : list string :=
  match deploymentContainers d with
  | Some (ctr :: _) => env_Name <$> default [] (ctr_Env ctr)
  | _ => []
  end.

(** A topology without execution mode, CNI and overrides. *)
Definition plainTopology (name : string) : Topology :=
  mkTopology name (mkNativeExecution "" "" ∅).

(** One Linux node with two environment variables. *)
Definition twoVariables : gmap string NodeDefinition :=
  {[ "n1" := mkNodeDefinition "alpine:3" "linux" (<["A" := "1"]> {["B" := "2"]}) ∅ "" ]}.

(** C4.  Rendering is not a function of the node configuration and the
    classifier table alone: the environment variables of the container
    follow the order in which the run ranges over the Environment map.
    For the node [twoVariables], two orders that Go allows give the lists
    A, B and B, A, hence two different sets of render results. *)
Theorem rendering_follows_map_iteration_order (ExecutionModeEnv NetworkingModeEnv : string) :
  let render (sched : schedule) :=
    RenderTopologyWorkloads ExecutionModeEnv NetworkingModeEnv ascii_ToLower sched
      NewWorkloadClassifier (plainTopology "lab") twoVariables "ns" in
  valid_schedule sched_fwd /\ valid_schedule sched_rev /\
  envNames <$> renderedDeployment (render sched_fwd) "n1" = Some ["A"; "B"] /\
  envNames <$> renderedDeployment (render sched_rev) "n1" = Some ["B"; "A"] /\
  render sched_fwd <> render sched_rev.
Proof.
  intros render.
  assert (Hfwd : envNames <$> renderedDeployment (render sched_fwd) "n1" = Some ["A"; "B"])
    by (vm_compute; reflexivity).
  assert (Hrev : envNames <$> renderedDeployment (render sched_rev) "n1" = Some ["B"; "A"])
    by (vm_compute; reflexivity).
  split; [apply sched_fwd_valid|]. split; [apply sched_rev_valid|].
  split; [exact Hfwd|]. split; [exact Hrev|].
  intros Heq. rewrite Heq in Hfwd. rewrite Hfwd in Hrev. clear Heq Hfwd.
  discriminate Hrev.
Qed.

(** C5.  The Deployment that the renderer builds for a node has one
    replica, one container with the ports 22, 830 and 57400 and the
    capability NET_ADMIN, and no update strategy: the field is left at
    its zero value, it is not Recreate. *)
Theorem rendered_deployment_has_no_recreate_strategy (sched : schedule)
  (config : NodeConfig) (topology : Topology) (namespace : string) :
  let d := buildDeployment sched config topology namespace in
  Replicas (dep_Spec d) = Some 1%Z /\
  (exists ctr,
     deploymentContainers d = Some [ctr] /\
     (port_ContainerPort <$> default [] (ctr_Ports ctr)) = [22; 830; 57400]%Z /\
     (sc ← ctr_SecurityContext ctr; caps ← sc_Capabilities sc; cap_Add caps)
     = Some ["NET_ADMIN"]) /\
  strategy_Type (Strategy (dep_Spec d)) = "" /\
  strategy_Type (Strategy (dep_Spec d)) <> RecreateDeploymentStrategyType.
Proof.
  intros d. split; [reflexivity|]. split; [|split; [reflexivity | discriminate]].
  eexists. split; [reflexivity|]. split; reflexivity.
Qed.

(** The manifest of the KubeVirt executor carries what the renderer's
    manifest lacks. *)
Lemma executor_manifest_is_complete (sched : schedule) (namespace : string)
  (config : NodeConfig) :
  let vm := mkUnstructured (VMExec.renderVirtualMachine sched namespace config) in
  manifestField vm ["spec"; "template"; "spec"; "volumes"]
  = Some (USlice (VMExec.vmVolumes config)) /\
  manifestField vm ["spec"; "template"; "spec"; "domain"; "devices"; "interfaces"]
  = Some (USlice (VMExec.vmInterfaces config)) /\
  length (VMExec.vmInterfaces config) = S (length (Interfaces config)) /\
  manifestField vm ["spec"; "template"; "spec"; "domain"; "resources"; "requests"]
  = Some (umap [ ("memory", UString (VMExec.vmRequests config).1);
                 ("cpu", UString (VMExec.vmRequests config).2) ]).
Proof.
  intros vm. unfold vm, VMExec.renderVirtualMachine.
  destruct (VMExec.vmRequests config) as [memory cpu].
  repeat split; try reflexivity.
  unfold VMExec.vmInterfaces. simpl. by rewrite length_imap.
Qed.

(** A VyOS node with two interfaces, a startup configuration and a
    memory request of its own. *)
Definition vyosNode : NodeConfig :=
  mkNodeConfig "fw1" "vyos/vyos:1.4" "vyos" ∅ ∅ ∅
    [ mkNetworkInterface "eth1" "ethernet" None;
      mkNetworkInterface "eth2" "ethernet" None ]
    (Some (mkResourceRequirements None
             (Some {[ ResourceMemory := mkQuantity false "8Gi" ]})))
    "set system host-name fw1" ∅.

(** C6.  The VirtualMachine manifest that the renderer builds has the
    container-disk volume of the node's image and nothing else of what
    the claim lists: no cloud-init volume, the default interface alone,
    and the requests 1Gi and 1 whatever the kind and the node's resource
    requests are.  For the node [vyosNode] the executor's manifest has
    two volumes, three interfaces and the requests 8Gi and 2. *)
Theorem rendered_vm_lacks_cloud_init_links_and_profile (sched : schedule)
  (config : NodeConfig) (topology : Topology) (namespace : string) :
  let vm := buildVirtualMachine sched config topology namespace in
  manifestField vm ["spec"; "template"; "spec"; "volumes"]
  = Some (USlice [ umap [ ("name", UString "containerdisk");
                          ("containerDisk", umap [ ("image", UString (Image config)) ]) ] ]) /\
  manifestField vm ["spec"; "template"; "spec"; "domain"; "devices"; "interfaces"]
  = Some (USlice [ umap [ ("name", UString "default"); ("masquerade", umap []) ] ]) /\
  manifestField vm ["spec"; "template"; "spec"; "domain"; "resources"; "requests"]
  = Some (umap [ ("memory", UString "1Gi"); ("cpu", UString "1") ]) /\
  length (VMExec.vmVolumes vyosNode) = 2 /\
  length (VMExec.vmInterfaces vyosNode) = 3 /\
  VMExec.vmRequests vyosNode = ("8Gi", "2").
Proof.
  intros vm. repeat split; reflexivity.
Qed.

(** The dynamic type of the object is the one that [reconcileResource]
    asserts for the tag. *)
Definition tag_matches (r : Resource) : Prop :=
  match res_Object r with
  | ODeployment _ => res_Type r = "Deployment"
  | OService _ => res_Type r = "Service"
  | OConfigMap _ => res_Type r = "ConfigMap"
  | OUnstructured _ => res_Type r = "VirtualMachine"
  | OOther => False
  end.

Lemma NestedMap_panic obj fields why :
  NestedMap obj fields = Panic why -> why = DeepCopy.
Proof.
  unfold NestedMap. destruct (nestedField _ _) as [[]|]; try discriminate.
  destruct (json_typed _); [discriminate|]. by intros [= <-].
Qed.

Lemma reconcileVirtualMachine_panic faults vm workloadType c result why :
  reconcileVirtualMachine faults vm workloadType c result = Panic why -> why = DeepCopy.
Proof.
  unfold reconcileVirtualMachine.
  destruct (getVirtualMachine _ _ _ _) as [err|existing].
  - destruct (IsNotFound err); [|discriminate].
    destruct (api_create _ _ _ _ _ _); discriminate.
  - destruct (NestedMap (Object existing) _) as [w1|existingSpec] eqn:H1.
    { intros [= <-]. by apply NestedMap_panic in H1. }
    destruct (NestedMap (Object vm) _) as [w2|desiredSpec] eqn:H2.
    { intros [= <-]. by apply NestedMap_panic in H2. }
    destruct (negb _); [|discriminate].
    destruct (api_update _ _ _ _ _ _); discriminate.
Qed.

Lemma reconcileResource_no_type_panic faults r workloadType ns c result :
  tag_matches r ->
  reconcileResource faults r workloadType ns c result <> Panic TypeAssertion.
Proof.
  unfold tag_matches, reconcileResource.
  destruct (res_Object r) as [d|s|m|u|]; [| | | |done]; intros ->;
    cbn [bool_decide decide_rel]; simpl.
  - by destruct (reconcileDeployment _ _ _ _ _) as [[[? ?] ?] ?].
  - by destruct (reconcileService _ _ _ _ _) as [[[? ?] ?] ?].
  - by destruct (reconcileConfigMap _ _ _ _ _) as [[[? ?] ?] ?].
  - destruct (reconcileVirtualMachine _ _ _ _ _) as [why|[[[? ?] ?] ?]] eqn:Hvm;
      [|done].
    apply reconcileVirtualMachine_panic in Hvm as ->. discriminate.
Qed.

Section renderer_facts.
Context (ExecutionModeEnv NetworkingModeEnv : string).
Context (ToLower : string -> string) (sched : schedule).
Context (classifier : WorkloadClassifier).

Lemma renderNodeResources_tags config workloadType topology namespace resources :
  renderNodeResources sched config workloadType topology namespace = inr resources ->
  Forall tag_matches resources.
Proof.
  unfold renderNodeResources, renderContainerResources, renderVMResources,
    renderCommonResources.
  repeat case_bool_decide; try discriminate;
    destruct (_ || _); intros [= <-]; repeat constructor.
Qed.

Lemma renderNodeResources_total config workloadType topology namespace :
  workloadType = Common.WorkloadTypeContainer \/ workloadType = Common.WorkloadTypeVM ->
  exists resources,
    renderNodeResources sched config workloadType topology namespace = inr resources.
Proof.
  unfold renderNodeResources, renderContainerResources, renderVMResources,
    renderCommonResources.
  intros [-> | ->]; cbn [bool_decide decide_rel]; simpl;
    destruct (_ || _); eauto.
Qed.

Lemma renderNodes_tags topology namespace entries :
  forall results,
    map_Forall (fun _ rr => Forall tag_matches (rr_Resources rr)) results ->
    exists results',
      renderNodes ExecutionModeEnv NetworkingModeEnv ToLower sched classifier
        topology namespace entries results = inr results' /\
      map_Forall (fun _ rr => Forall tag_matches (rr_Resources rr)) results'.
Proof.
  induction entries as [|[nodeName config] entries IH]; intros results Hall; simpl.
  - eauto.
  - set (nodeConfig := buildNodeConfig _ _ _ _ _ _).
    set (workloadType := DetermineWorkloadType _ _ _ _).
    destruct (renderNodeResources_total nodeConfig workloadType topology namespace)
      as [resources Hres]; [apply DetermineWorkloadType_range|].
    rewrite Hres. apply IH. apply map_Forall_insert_2; [|done].
    simpl. by eapply renderNodeResources_tags.
Qed.

End renderer_facts.

(** C10.  Rendering a topology succeeds, and every resource of every
    render result carries an object of the dynamic type that
    [reconcileResource] asserts for its tag; no type assertion of
    [reconcileResource] fails on it. *)
Theorem rendered_objects_match_their_tags (ExecutionModeEnv NetworkingModeEnv : string)
  (ToLower : string -> string) (sched : schedule) (classifier : WorkloadClassifier)
  (topology : Topology) (configs : gmap string NodeDefinition) (namespace : string) :
  exists results,
    RenderTopologyWorkloads ExecutionModeEnv NetworkingModeEnv ToLower sched classifier
      topology configs namespace = inr results /\
    forall nodeName renderResult resource,
      results !! nodeName = Some renderResult ->
      resource ∈ rr_Resources renderResult ->
      tag_matches resource /\
      forall faults workloadType ns c result,
        reconcileResource faults resource workloadType ns c result
        <> Panic TypeAssertion.
Proof.
  unfold RenderTopologyWorkloads.
  destruct (renderNodes_tags ExecutionModeEnv NetworkingModeEnv ToLower sched classifier
              topology namespace (sched NodeDefinition configs) ∅)
    as [results [Hrender Hall]]; [apply map_Forall_empty|].
  exists results. split; [exact Hrender|].
  intros nodeName renderResult resource Hlook Hin.
  pose proof (Hall nodeName renderResult Hlook) as Htags. simpl in Htags.
  rewrite Forall_forall in Htags. specialize (Htags resource Hin).
  split; [exact Htags|]. intros. by apply reconcileResource_no_type_panic.
Qed.

(** The resources of a VyOS node, rendered as a VM with its Service. *)
Lemma rendered_objects_match_their_tags_witness :
  exists results renderResult,
    RenderTopologyWorkloads "EXECUTION_MODE" "NETWORKING_MODE" ascii_ToLower sched_fwd
      NewWorkloadClassifier (plainTopology "lab")
      {[ "fw1" := mkNodeDefinition "vyos/vyos:1.4" "vyos" ∅ ∅ "" ]} "ns" = inr results /\
    results !! "fw1" = Some renderResult /\
    res_Type <$> rr_Resources renderResult = ["VirtualMachine"; "Service"] /\
    Forall tag_matches (rr_Resources renderResult).
Proof.
  destruct (rendered_objects_match_their_tags "EXECUTION_MODE" "NETWORKING_MODE"
              ascii_ToLower sched_fwd NewWorkloadClassifier (plainTopology "lab")
              {[ "fw1" := mkNodeDefinition "vyos/vyos:1.4" "vyos" ∅ ∅ "" ]} "ns")
    as [results [Hrender Hall]].
  assert (Hfw : exists renderResult,
             results !! "fw1" = Some renderResult /\
             res_Type <$> rr_Resources renderResult = ["VirtualMachine"; "Service"]).
  { vm_compute in Hrender. injection Hrender as <-.
    eexists. split; vm_compute; reflexivity. }
  destruct Hfw as [renderResult [Hlook Htypes]].
  exists results, renderResult.
  split; [exact Hrender|]. split; [exact Hlook|]. split; [exact Htypes|].
  apply Forall_forall. intros resource Hin.
  exact (proj1 (Hall "fw1" renderResult resource Hlook Hin)).
Defined.

(** ** Unstructured objects *)

(** [deep_equal] decides equality of the trees. *)
Fixpoint usize (v : UValue) : nat :=
  match v with
  | UString _ | UBool _ | UInt _ | UStringMap _ => 1
  | UMap m => S (map_fold (fun _ x acc => usize x + acc) 0 m)
  | USlice l => S (foldr (fun x acc => usize x + acc) 0 l)
  end.

Lemma usize_map_elem (m : gmap string UValue) (k : string) (x : UValue) :
  m !! k = Some x -> usize x < usize (UMap m).
Proof.
  cbn [usize]. revert k x.
  induction m as [|i y m Hi Hfold IH] using map_first_key_ind; intros k x Hk.
  - by rewrite lookup_empty in Hk.
  - rewrite map_fold_insert_first_key by done.
    destruct (decide (i = k)) as [->|Hne].
    + rewrite lookup_insert_eq in Hk. injection Hk as ->. lia.
    + rewrite lookup_insert_ne in Hk by done. specialize (IH _ _ Hk). lia.
Qed.

Lemma usize_slice_elem (l : list UValue) (x : UValue) :
  x ∈ l -> usize x < usize (USlice l).
Proof. cbn [usize]. induction 1; cbn [foldr]; lia. Qed.

(** Induction on the trees, with the hypothesis for every entry of a map
    and every element of a slice. *)
Lemma UValue_nested_ind (P : UValue -> Prop) :
  (forall s, P (UString s)) ->
  (forall b, P (UBool b)) ->
  (forall z, P (UInt z)) ->
  (forall m, map_Forall (fun _ x => P x) m -> P (UMap m)) ->
  (forall l, Forall P l -> P (USlice l)) ->
  (forall m, P (UStringMap m)) ->
  forall v, P v.
Proof.
  intros Hs Hb Hz Hm Hl Hsm v.
  remember (usize v) as n eqn:Hn. revert v Hn.
  induction (lt_wf n) as [n _ IH]. intros v ->.
  destruct v as [s|b|z|m|l|m]; auto.
  - apply Hm. intros k x Hk. eapply IH; [|reflexivity]. by eapply usize_map_elem.
  - apply Hl. apply Forall_forall. intros x Hx.
    eapply IH; [|reflexivity]. by apply usize_slice_elem.
Qed.

Lemma uencode_inj (v w : UValue) : uencode v = uencode w -> v = w.
Proof.
  revert w.
  induction v as [s|b|z|m IH|l IH|m] using UValue_nested_ind;
    intros [s'|b'|z'|m'|l'|m''] Heq; cbn [uencode] in Heq; try congruence.
  - f_equal. injection Heq as Heq. revert m' Heq.
    induction m as [|i y m Hi Hfold IHm] using map_first_key_ind; intros m2 Heq.
    + rewrite map_fold_empty in Heq.
      destruct m2 as [|j z m2 Hj Hfold2 _] using map_first_key_ind; [done|].
      by rewrite map_fold_insert_first_key in Heq by done.
    + rewrite map_fold_insert_first_key in Heq by done.
      destruct m2 as [|j z m2 Hj Hfold2 _] using map_first_key_ind.
      * by rewrite map_fold_empty in Heq.
      * rewrite map_fold_insert_first_key in Heq by done.
        injection Heq as -> Hyz Hrest.
        apply map_Forall_insert in IH as [IHy IHrest]; [|done].
        rewrite (IHy _ Hyz). f_equal. by apply IHm.
  - f_equal. injection Heq as Heq. revert l' Heq.
    induction IH as [|x l Hx _ IHl]; intros [|y l2] Heq; cbn [map] in Heq;
      try done.
    injection Heq as Hxy Hrest. f_equal; auto.
Qed.

Lemma deep_equal_spec (v w : UValue) : deep_equal v w = true <-> v = w.
Proof.
  unfold deep_equal. rewrite bool_decide_eq_true. split.
  - apply uencode_inj.
  - by intros ->.
Qed.

Lemma deep_equal_map_spec (a b : option (gmap string UValue)) :
  deep_equal_map a b = true <-> a = b.
Proof.
  destruct a as [m|], b as [n|]; cbn [deep_equal_map]; try (split; congruence).
  rewrite deep_equal_spec. split; congruence.
Qed.

Lemma deep_equal_map_refl (a : option (gmap string UValue)) : deep_equal_map a a = true.
Proof. by apply deep_equal_map_spec. Qed.

(** Setting the resource version leaves the name, the namespace, the kind
    and the ["spec"] of an object alone. *)
Lemma SetResourceVersion_field (u : Unstructured) (version : string) (fields : list string) :
  fields = ["metadata"; "name"] \/ fields = ["metadata"; "namespace"] \/
  fields = ["kind"] ->
  getNestedString (Object (SetResourceVersion u version)) fields
  = getNestedString (Object u) fields.
Proof.
  unfold SetResourceVersion, getNestedString.
  destruct (Object u !! "metadata") as [[s|b|z|md|l|sm]|] eqn:Hmd;
    intros [-> | [-> | ->]]; cbn [nestedField Object]; rewrite ?Hmd;
    rewrite ?lookup_insert_eq, ?(lookup_insert_ne _ "metadata" "kind") by done;
    cbn [nestedField]; rewrite ?Hmd;
    rewrite ?(lookup_insert_ne _ "resourceVersion") by done;
    rewrite ?lookup_singleton_ne by done; reflexivity.
Qed.

Lemma GetName_SetResourceVersion u version :
  GetName (SetResourceVersion u version) = GetName u.
Proof. apply SetResourceVersion_field. auto. Qed.

Lemma GetNamespace_SetResourceVersion u version :
  GetNamespace (SetResourceVersion u version) = GetNamespace u.
Proof. apply SetResourceVersion_field. auto. Qed.

Lemma GetKind_SetResourceVersion u version :
  GetKind (SetResourceVersion u version) = GetKind u.
Proof. apply SetResourceVersion_field. auto. Qed.

Lemma NestedMap_SetResourceVersion u version :
  NestedMap (Object (SetResourceVersion u version)) ["spec"]
  = NestedMap (Object u) ["spec"].
Proof.
  unfold SetResourceVersion, NestedMap.
  destruct (Object u !! "metadata") as [[s|b|z|md|l|sm]|] eqn:Hmd;
    cbn [nestedField Object]; rewrite ?lookup_insert_ne by done; reflexivity.
Qed.

(** ** One scheme for the four reconcile functions

    [reconcileDeployment], [reconcileService], [reconcileConfigMap] and
    [reconcileVirtualMachine] are the same function up to the client they
    call, the comparison they make and the fields they assign before an
    update.  [reconcileWith] is that function; the facts about a single
    step are proved once, on it. *)

Record Scheme (A : Type) : Type := mkScheme {
  sk_kind : ResourceKind;
  sk_type : string;
  sk_word : string;
  sk_inj : A -> Obj;
  sk_proj : Obj -> option A;
  sk_ns : A -> string;
  sk_name : A -> string;
  sk_needs : A -> A -> Outcome bool;
  sk_stamp : A -> A -> A;
}.
Arguments sk_kind {A} _.
Arguments sk_type {A} _.
Arguments sk_word {A} _.
Arguments sk_inj {A} _ _.
Arguments sk_proj {A} _ _.
Arguments sk_ns {A} _ _.
Arguments sk_name {A} _ _.
Arguments sk_needs {A} _ _ _.
Arguments sk_stamp {A} _ _ _.

Definition sk_ident {A} (S : Scheme A) (a : A) : ident :=
  (sk_kind S, sk_ns S a, sk_name S a).

Definition getWith {A} (faults : Faults) (S : Scheme A) (c : Cluster) (ns name : string)
  : GoError + A :=
  match api_get faults c (sk_kind S) ns name with
  | inl err => inl err
  | inr o =>
      match sk_proj S o with
      | Some a => inr a
      | None => inl ErrNotFound
      end
  end.

Definition reconcileWith {A} (faults : Faults) (S : Scheme A) (a : A)
  (workloadType : WorkloadType) (c : Cluster) (result : ReconcileResult)
  : Outcome (Step A) :=
  match getWith faults S c (sk_ns S a) (sk_name S a) with
  | inl err =>
      if IsNotFound err then
        match api_create faults c (sk_kind S) (sk_ns S a) (sk_name S a) (sk_inj S a) with
        | inl err =>
            Ret (Some (ErrWrap ("failed to create " ++ sk_word S ++ " "
                                ++ sk_name S a ++ ": ") err),
                 c, result, a)
        | inr c' =>
            Ret (None, c',
                 addCreated result
                   (mkResourceInfo (sk_type S) (sk_name S a) (sk_ns S a) workloadType),
                 a)
        end
      else
        Ret (Some (ErrWrap ("failed to get " ++ sk_word S ++ " " ++ sk_name S a ++ ": ")
                     err),
             c, result, a)
  | inr existing =>
      match sk_needs S existing a with
      | Panic why => Panic why
      | Ret true =>
          let a' := sk_stamp S existing a in
          match api_update faults c (sk_kind S) (sk_ns S a') (sk_name S a')
                  (sk_inj S a') with
          | inl err =>
              Ret (Some (ErrWrap ("failed to update " ++ sk_word S ++ " "
                                  ++ sk_name S a' ++ ": ") err),
                   c, result, a')
          | inr c' =>
              Ret (None, c',
                   addUpdated result
                     (mkResourceInfo (sk_type S) (sk_name S a') (sk_ns S a') workloadType),
                   a')
          end
      | Ret false => Ret (None, c, result, a)
      end
  end.

(** The key of [getResourceKey], from the object and the tag. *)
Definition objKey (o : Obj) (tag : string) : string :=
  getResourceKey (mkResource tag o None).

(** What the proofs use of a scheme; [ok] singles out the objects on
    which the comparison does not panic. *)
Class SchemeLaws {A : Type} (S : Scheme A) (ok : A -> Prop) : Prop := {
  law_proj_inj : forall a, sk_proj S (sk_inj S a) = Some a;
  law_proj : forall o a, sk_proj S o = Some a -> o = sk_inj S a;
  law_proj_kind : forall o ns name,
    obj_ident o = Some (sk_kind S, ns, name) -> is_Some (sk_proj S o);
  law_ident : forall a, obj_ident (sk_inj S a) = Some (sk_ident S a);
  law_stamp_ns : forall e a, sk_ns S (sk_stamp S e a) = sk_ns S a;
  law_stamp_name : forall e a, sk_name S (sk_stamp S e a) = sk_name S a;
  law_stamp_key : forall e a tag,
    objKey (sk_inj S (sk_stamp S e a)) tag = objKey (sk_inj S a) tag;
  law_needs_stamp : forall e e' a,
    sk_needs S e (sk_stamp S e' a) = sk_needs S e a;
  law_needs_refl : forall a, ok a -> sk_needs S a a = Ret false;
  law_needs_ok : forall e a, ok e -> ok a -> exists b, sk_needs S e a = Ret b;
  law_ok_needs : forall e a b, sk_needs S e a = Ret b -> ok a;
  law_ok_stamp : forall e a, ok a -> ok (sk_stamp S e a);
  law_proj_ok : forall o e, sk_proj S o = Some e -> obj_ok o -> ok e;
  law_inj_ok : forall a, ok a -> obj_ok (sk_inj S a);
}.

Definition depScheme : Scheme Deployment :=
  mkScheme Deployment KDeployment "Deployment" "deployment" ODeployment asDeployment
    (fun d => meta_Namespace (dep_Meta d)) (fun d => meta_Name (dep_Meta d))
    (fun existing desired => Ret (needsDeploymentUpdate existing desired))
    (fun existing desired =>
       depSetResourceVersion desired (meta_ResourceVersion (dep_Meta existing))).

Definition svcScheme : Scheme Service :=
  mkScheme Service KService "Service" "service" OService asService
    (fun s => meta_Namespace (svc_Meta s)) (fun s => meta_Name (svc_Meta s))
    (fun existing desired => Ret (needsServiceUpdate existing desired))
    (fun existing desired =>
       svcSetClusterIP
         (svcSetResourceVersion desired (meta_ResourceVersion (svc_Meta existing)))
         (svc_ClusterIP (svc_Spec existing))).

Definition cmScheme : Scheme ConfigMap :=
  mkScheme ConfigMap KConfigMap "ConfigMap" "configmap" OConfigMap asConfigMap
    (fun m => meta_Namespace (cm_Meta m)) (fun m => meta_Name (cm_Meta m))
    (fun existing desired =>
       Ret (negb (bool_decide (cm_Data existing = cm_Data desired))))
    (fun existing desired =>
       cmSetResourceVersion desired (meta_ResourceVersion (cm_Meta existing))).

Definition asUnstructured (o : Obj) : option Unstructured :=
  match o with OUnstructured u => Some u | _ => None end.

(** The comparison of [reconcileVirtualMachine]. *)
Definition vmNeedsUpdate (existing desired : Unstructured) : Outcome bool :=
  match NestedMap (Object existing) ["spec"] with
  | Panic why => Panic why
  | Ret existingSpec =>
      match NestedMap (Object desired) ["spec"] with
      | Panic why => Panic why
      | Ret desiredSpec => Ret (negb (deep_equal_map existingSpec desiredSpec))
      end
  end.

Definition vmScheme : Scheme Unstructured :=
  mkScheme Unstructured KVirtualMachine "VirtualMachine" "VM" OUnstructured asUnstructured
    GetNamespace GetName vmNeedsUpdate
    (fun existing desired => SetResourceVersion desired (GetResourceVersion existing)).

Lemma needsDeploymentUpdate_refl d : needsDeploymentUpdate d d = false.
Proof. unfold needsDeploymentUpdate. by rewrite !bool_decide_eq_true_2. Qed.

Lemma needsServiceUpdate_refl s : needsServiceUpdate s s = false.
Proof. unfold needsServiceUpdate. by rewrite !bool_decide_eq_true_2. Qed.

#[global] Instance depScheme_laws : SchemeLaws depScheme (fun _ => True).
Proof.
  split; try done.
  - by intros [] a [= <-].
  - intros [] ns name; cbn; intros [= <- <-] || intros _; eauto.
  - intros a _. cbn. by rewrite needsDeploymentUpdate_refl.
  - intros e a _ _. cbn. eauto.
Qed.

#[global] Instance svcScheme_laws : SchemeLaws svcScheme (fun _ => True).
Proof.
  split; try done.
  - by intros [] a [= <-].
  - intros [] ns name; cbn; intros [= <- <-] || intros _; eauto.
  - intros a _. cbn. by rewrite needsServiceUpdate_refl.
  - intros e a _ _. cbn. eauto.
Qed.

#[global] Instance cmScheme_laws : SchemeLaws cmScheme (fun _ => True).
Proof.
  split; try done.
  - by intros [] a [= <-].
  - intros [] ns name; cbn; intros [= <- <-] || intros _; eauto.
  - intros a _. cbn. by rewrite bool_decide_eq_true_2.
  - intros e a _ _. cbn. eauto.
Qed.

#[global] Instance vmScheme_laws : SchemeLaws vmScheme vm_copyable.
Proof.
  split.
  - done.
  - by intros [] a [= <-].
  - intros [] ns name; cbn; intros [= <- <-] || intros _; eauto.
  - done.
  - intros e a. apply GetNamespace_SetResourceVersion.
  - intros e a. apply GetName_SetResourceVersion.
  - intros e a tag. unfold objKey, getResourceKey. cbn.
    by rewrite GetKind_SetResourceVersion, GetName_SetResourceVersion.
  - intros e e' a. cbn. unfold vmNeedsUpdate.
    by rewrite NestedMap_SetResourceVersion.
  - intros a [spec Hspec]. cbn. unfold vmNeedsUpdate.
    by rewrite Hspec, deep_equal_map_refl.
  - intros e a [se Hse] [sa Hsa]. cbn. unfold vmNeedsUpdate.
    rewrite Hse, Hsa. eauto.
  - intros e a b. cbn. unfold vmNeedsUpdate, vm_copyable.
    destruct (NestedMap (Object e) _); [done|].
    destruct (NestedMap (Object a) _); [done|]. eauto.
  - intros e a [spec Hspec]. exists spec. cbn.
    by rewrite NestedMap_SetResourceVersion.
  - by intros [] e [= <-].
  - done.
Qed.

Lemma reconcileDeployment_scheme faults d workloadType c result :
  Ret (reconcileDeployment faults d workloadType c result)
  = reconcileWith faults depScheme d workloadType c result.
Proof.
  unfold reconcileDeployment, reconcileWith, getWith, getDeployment. cbn.
  destruct (api_get _ _ _ _ _) as [err|[]]; cbn;
    try (destruct (IsNotFound err)); try (destruct (needsDeploymentUpdate _ _));
    try (destruct (api_create _ _ _ _ _ _)); try (destruct (api_update _ _ _ _ _ _));
    reflexivity.
Qed.

Lemma reconcileService_scheme faults s workloadType c result :
  Ret (reconcileService faults s workloadType c result)
  = reconcileWith faults svcScheme s workloadType c result.
Proof.
  unfold reconcileService, reconcileWith, getWith, getService. cbn.
  destruct (api_get _ _ _ _ _) as [err|[]]; cbn;
    try (destruct (IsNotFound err)); try (destruct (needsServiceUpdate _ _));
    try (destruct (api_create _ _ _ _ _ _)); try (destruct (api_update _ _ _ _ _ _));
    reflexivity.
Qed.

Lemma reconcileConfigMap_scheme faults m workloadType c result :
  Ret (reconcileConfigMap faults m workloadType c result)
  = reconcileWith faults cmScheme m workloadType c result.
Proof.
  unfold reconcileConfigMap, reconcileWith, getWith, getConfigMap. cbn.
  destruct (api_get _ _ _ _ _) as [err|[]]; cbn;
    try (destruct (IsNotFound err)); try (destruct (negb _));
    try (destruct (api_create _ _ _ _ _ _)); try (destruct (api_update _ _ _ _ _ _));
    reflexivity.
Qed.

Lemma reconcileVirtualMachine_scheme faults u workloadType c result :
  reconcileVirtualMachine faults u workloadType c result
  = reconcileWith faults vmScheme u workloadType c result.
Proof.
  unfold reconcileVirtualMachine, reconcileWith, getWith, getVirtualMachine,
    vmScheme, vmNeedsUpdate. cbn.
  destruct (api_get _ _ _ _ _) as [err|[]]; cbn;
    try (destruct (IsNotFound err));
    try (destruct (NestedMap (Object u0) _));
    try (destruct (NestedMap (Object u) _));
    try (destruct (negb _));
    try (destruct (api_create _ _ _ _ _ _)); try (destruct (api_update _ _ _ _ _ _));
    reflexivity.
Qed.





(** The desired object is in the cluster and the comparison finds no
    difference. *)
Definition sync {A} (S : Scheme A) (c : Cluster) (a : A) : Prop :=
  exists e, c !! sk_ident S a = Some (sk_inj S e) /\ sk_needs S e a = Ret false.

(** ** The API calls *)

Lemma api_create_inr (faults : Faults) (c : Cluster) (k : ResourceKind)
  (ns name : string) (o : Obj) (c' : Cluster) :
  api_create faults c k ns name o = inr c' ->
  c' = <[(k, ns, name) := o]> c /\ c !! (k, ns, name) = None /\
  faults VCreate k ns name = false.
Proof.
  unfold api_create. destruct (faults VCreate k ns name); [done|].
  destruct (c !! (k, ns, name)); [done|]. by intros [= <-].
Qed.

Lemma api_update_inr (faults : Faults) (c : Cluster) (k : ResourceKind)
  (ns name : string) (o : Obj) (c' : Cluster) :
  api_update faults c k ns name o = inr c' ->
  c' = <[(k, ns, name) := o]> c /\ is_Some (c !! (k, ns, name)) /\
  faults VUpdate k ns name = false.
Proof.
  unfold api_update. destruct (faults VUpdate k ns name); [done|].
  destruct (c !! (k, ns, name)); [|done]. intros [= <-]. eauto.
Qed.

Lemma api_delete_inr (faults : Faults) (c : Cluster) (k : ResourceKind)
  (ns name : string) (c' : Cluster) :
  api_delete faults c k ns name = inr c' ->
  c' = delete (k, ns, name) c /\ faults VDelete k ns name = false.
Proof.
  unfold api_delete. destruct (faults VDelete k ns name); [done|].
  destruct (c !! (k, ns, name)); [|done]. by intros [= <-].
Qed.

(** Inverts an equation between two returned steps. *)
Ltac ret_inv :=
  let H := fresh "Hret" in
  intros H; inversion H; subst; clear H.

Section scheme_facts.
Context {A : Type} (S : Scheme A) (ok : A -> Prop) `{!SchemeLaws S ok}.
Context (faults : Faults).

(** A step writes at the identity of its object or nowhere, and keeps
    the identity and the key of the object. *)
Lemma reconcileWith_frame (a : A) (workloadType : WorkloadType) (c : Cluster)
  (result : ReconcileResult) (err : option GoError) (c' : Cluster)
  (result' : ReconcileResult) (a' : A) :
  reconcileWith faults S a workloadType c result = Ret (err, c', result', a') ->
  sk_ident S a' = sk_ident S a /\
  (forall tag, objKey (sk_inj S a') tag = objKey (sk_inj S a) tag) /\
  (c' = c \/ c' = <[sk_ident S a := sk_inj S a']> c) /\
  (ok a -> ok a').
Proof.
  assert (Hstamp : forall e,
            sk_ident S (sk_stamp S e a) = sk_ident S a /\
            (forall tag, objKey (sk_inj S (sk_stamp S e a)) tag
                         = objKey (sk_inj S a) tag) /\
            (ok a -> ok (sk_stamp S e a))).
  { intros e. unfold sk_ident. rewrite law_stamp_ns, law_stamp_name.
    split; [done|]. split; [apply law_stamp_key | apply law_ok_stamp]. }
  unfold reconcileWith.
  destruct (getWith _ _ _ _ _) as [e|existing].
  - destruct (IsNotFound e); [|ret_inv; intuition auto].
    destruct (api_create _ _ _ _ _ _) as [e'|c1] eqn:Hcreate;
      ret_inv; [intuition auto|].
    apply api_create_inr in Hcreate as (-> & _ & _). intuition auto.
  - destruct (sk_needs S existing a) as [why|[]] eqn:Hneeds;
      [done| |ret_inv; intuition auto].
    destruct (Hstamp existing) as (Hid & Hkey & Hok). cbv zeta.
    destruct (api_update _ _ _ _ _ _) as [e'|c1] eqn:Hupdate;
      ret_inv; [intuition auto|].
    apply api_update_inr in Hupdate as (-> & _ & _).
    rewrite law_stamp_ns, law_stamp_name. intuition auto.
Qed.

Lemma reconcileWith_other (a : A) (workloadType : WorkloadType) (c : Cluster)
  (result : ReconcileResult) (err : option GoError) (c' : Cluster)
  (result' : ReconcileResult) (a' : A) (id : ident) :
  reconcileWith faults S a workloadType c result = Ret (err, c', result', a') ->
  id <> sk_ident S a -> c' !! id = c !! id.
Proof.
  intros Hstep Hne.
  destruct (reconcileWith_frame _ _ _ _ _ _ _ _ Hstep) as (_ & _ & [-> | ->] & _);
    [done|]. by rewrite lookup_insert_ne.
Qed.





End scheme_facts.

(** ** One step of the reconciler on a tagged resource *)

(** Where a resource lives in the cluster. *)
Definition rident (r : Resource) : option ident := obj_ident (res_Object r).

Definition resource_ok (r : Resource) : Prop := obj_ok (res_Object r).

(** The resource is in the cluster and its comparison finds no
    difference. *)
Definition rsync (c : Cluster) (r : Resource) : Prop :=
  match res_Object r with
  | ODeployment d => sync depScheme c d
  | OService s => sync svcScheme c s
  | OConfigMap m => sync cmScheme c m
  | OUnstructured u => sync vmScheme c u
  | OOther => False
  end.

Definition liftStep {A} (wrap : A -> Resource) (o : Outcome (Step A))
  : Outcome (Step Resource) :=
  match o with
  | Panic why => Panic why
  | Ret (err, c, result, a) => Ret (err, c, result, wrap a)
  end.

(** The resource [r], with any object of the scheme in place of its own,
    is reconciled by the scheme. *)
Definition packed {A} (S : Scheme A) (r : Resource) : Prop :=
  forall a : A,
    tag_matches (withObject r (sk_inj S a)) /\
    getResourceKey (withObject r (sk_inj S a)) = objKey (sk_inj S a) (res_Type r) /\
    (forall c : Cluster, rsync c (withObject r (sk_inj S a)) <-> sync S c a) /\
    (forall (faults : Faults) (workloadType : WorkloadType) (ns : string)
            (c : Cluster) (result : ReconcileResult),
       reconcileResource faults (withObject r (sk_inj S a)) workloadType ns c result
       = liftStep (fun a' => withObject r (sk_inj S a'))
           (reconcileWith faults S a workloadType c result)).

Lemma resource_packed (r : Resource) :
  tag_matches r ->
  exists (A : Type) (S : Scheme A) (ok : A -> Prop) (a : A),
    SchemeLaws S ok /\ packed S r /\ r = withObject r (sk_inj S a).
Proof.
  destruct r as [tag o deps]. unfold tag_matches. cbn [res_Object res_Type].
  destruct o as [d|s|m|u|]; [| | | |done]; intros ->.
  - exists Deployment, depScheme, (fun _ => True), d.
    split; [apply _|]. split; [|reflexivity].
    intros a. split; [reflexivity|]. split; [reflexivity|]. split; [reflexivity|].
    intros. unfold reconcileResource.
    cbn [withObject res_Type res_Object sk_inj depScheme svcScheme cmScheme vmScheme].
    rewrite bool_decide_eq_true_2 by done.
    rewrite <- reconcileDeployment_scheme.
    by destruct (reconcileDeployment _ _ _ _ _) as [[[? ?] ?] ?].
  - exists Service, svcScheme, (fun _ => True), s.
    split; [apply _|]. split; [|reflexivity].
    intros a. split; [reflexivity|]. split; [reflexivity|]. split; [reflexivity|].
    intros. unfold reconcileResource.
    cbn [withObject res_Type res_Object sk_inj depScheme svcScheme cmScheme vmScheme].
    rewrite bool_decide_eq_false_2 by done. rewrite bool_decide_eq_true_2 by done.
    rewrite <- reconcileService_scheme.
    by destruct (reconcileService _ _ _ _ _) as [[[? ?] ?] ?].
  - exists ConfigMap, cmScheme, (fun _ => True), m.
    split; [apply _|]. split; [|reflexivity].
    intros a. split; [reflexivity|]. split; [reflexivity|]. split; [reflexivity|].
    intros. unfold reconcileResource.
    cbn [withObject res_Type res_Object sk_inj depScheme svcScheme cmScheme vmScheme].
    rewrite !bool_decide_eq_false_2 by done. rewrite bool_decide_eq_true_2 by done.
    rewrite <- reconcileConfigMap_scheme.
    by destruct (reconcileConfigMap _ _ _ _ _) as [[[? ?] ?] ?].
  - exists Unstructured, vmScheme, vm_copyable, u.
    split; [apply _|]. split; [|reflexivity].
    intros a. split; [reflexivity|]. split; [reflexivity|]. split; [reflexivity|].
    intros. unfold reconcileResource.
    cbn [withObject res_Type res_Object sk_inj depScheme svcScheme cmScheme vmScheme].
    rewrite !bool_decide_eq_false_2 by done. rewrite bool_decide_eq_true_2 by done.
    rewrite reconcileVirtualMachine_scheme.
    by destruct (reconcileWith _ _ _ _ _ _) as [?|[[[? ?] ?] ?]].
Qed.

(** To prove a property of a tagged resource, prove it of the resource
    with an object of a scheme in place. *)
Lemma by_scheme (P : Resource -> Prop) (r : Resource) :
  tag_matches r ->
  (forall (A : Type) (S : Scheme A) (ok : A -> Prop) (a : A),
     SchemeLaws S ok -> packed S r -> P (withObject r (sk_inj S a))) ->
  P r.
Proof.
  intros Htag H.
  destruct (resource_packed r Htag) as (A & S & ok & a & Hlaws & Hpack & Hr).
  rewrite Hr. by eapply H.
Qed.

Lemma ok_of_inj {A} (S : Scheme A) (ok : A -> Prop) `{!SchemeLaws S ok} (a : A) :
  obj_ok (sk_inj S a) <-> ok a.
Proof.
  split; [|apply law_inj_ok].
  apply (law_proj_ok (S := S)). apply law_proj_inj.
Qed.

Section resource_step.
Context (faults : Faults).

(** A step writes at the identity of its resource or nowhere; the
    resource keeps its tag, its identity and its key. *)
Lemma reconcileResource_frame (r : Resource) (workloadType : WorkloadType)
  (ns : string) (c : Cluster) (result : ReconcileResult) (err : option GoError)
  (c' : Cluster) (result' : ReconcileResult) (r' : Resource) :
  tag_matches r ->
  reconcileResource faults r workloadType ns c result = Ret (err, c', result', r') ->
  tag_matches r' /\ rident r' = rident r /\
  getResourceKey r' = getResourceKey r /\
  (c' = c \/ exists id, rident r = Some id /\ c' = <[id := res_Object r']> c) /\
  (resource_ok r -> resource_ok r').
Proof.
  intros Htag. pattern r. apply by_scheme; [done|]. clear Htag.
  intros A S ok a Hlaws Hpack.
  destruct (Hpack a) as (_ & Hkey & _ & Hstep). rewrite Hstep, Hkey.
  destruct (reconcileWith _ _ _ _ _ _) as [why|[[[e1 c1] res1] a1]] eqn:Hw;
    [done|]. cbn [liftStep]. ret_inv.
  destruct (reconcileWith_frame S ok faults _ _ _ _ _ _ _ _ Hw)
    as (Hid & Hk & Hc & Hok).
  destruct (Hpack a1) as (Htag1 & Hkey1 & _ & _).
  split; [exact Htag1|]. unfold rident, resource_ok. cbn [withObject res_Object].
  rewrite !law_ident, Hid, Hkey1, Hk.
  split; [done|]. split; [done|]. split.
  - destruct Hc as [-> | ->]; [by left|]. right. eauto.
  - rewrite !(ok_of_inj S ok). exact Hok.
Qed.

Lemma reconcileResource_other (r : Resource) (workloadType : WorkloadType)
  (ns : string) (c : Cluster) (result : ReconcileResult) (err : option GoError)
  (c' : Cluster) (result' : ReconcileResult) (r' : Resource) (id : ident) :
  tag_matches r ->
  reconcileResource faults r workloadType ns c result = Ret (err, c', result', r') ->
  rident r <> Some id -> c' !! id = c !! id.
Proof.
  intros Htag Hstep Hne.
  destruct (reconcileResource_frame _ _ _ _ _ _ _ _ _ Htag Hstep)
    as (_ & _ & _ & [-> | (id' & Hid & ->)] & _); [done|].
  rewrite lookup_insert_ne; [done|]. congruence.
Qed.



End resource_step.




(** ** The loops of [ReconcileTopologyWorkloads] *)

(** Everything that [r] reports is in [r']. *)
Definition result_incl (r r' : ReconcileResult) : Prop :=
  Created r ⊆ Created r' /\ Updated r ⊆ Updated r' /\
  Deleted r ⊆ Deleted r' /\ Errors r ⊆ Errors r'.


(** The resources of the nodes, in the order of the entries. *)
Definition resourcesOf (entries : list (string * RenderResult)) : list Resource :=
  entries ≫= (fun e => rr_Resources e.2).







Lemma result_incl_addDeleted r i : result_incl r (addDeleted r i).
Proof. repeat split; intros x Hx; cbn; try done. apply elem_of_app; by left. Qed.




Section loop_facts.
Context (faults : Faults) (ns : string) (c0 : Cluster).




Lemma resourcesOf_cons e entries :
  resourcesOf (e :: entries) = (rr_Resources e.2 ++ resourcesOf entries)%list.
Proof. reflexivity. Qed.


End loop_facts.
(** ** The resources that a topology owns *)

Section foldl_insert.
Context {A B : Type} (f : A -> string) (g : A -> B).

(** The maps that [getExistingResources] fills, one item at a time. *)
Lemma foldl_insert_Some (l : list A) :
  forall (m : gmap string B) (k : string) (v : B),
    foldl (fun acc a => <[f a := g a]> acc) m l !! k = Some v ->
    (exists a, a ∈ l /\ f a = k /\ g a = v) \/
    (m !! k = Some v /\ forall a, a ∈ l -> f a <> k).
Proof.
  induction l as [|x l IH]; intros m k v; cbn [foldl].
  { intros Hm. right. split; [done|]. by intros a ?%elem_of_nil. }
  intros [(a & Hin & Hf & Hg) | [Hm Hnone]]%IH.
  - left. exists a. split; [by right|done].
  - destruct (decide (f x = k)) as [<-|Hne].
    + rewrite lookup_insert_eq in Hm. injection Hm as <-.
      left. exists x. split; [by left|done].
    + rewrite lookup_insert_ne in Hm by done. right. split; [done|].
      intros a [-> | Hin]%elem_of_cons; auto.
Qed.

Lemma foldl_insert_elem (l : list A) :
  forall (m : gmap string B) (k : string) (v : B),
    (forall a, a ∈ l -> f a = k -> g a = v) ->
    m !! k = Some v \/ (exists a, a ∈ l /\ f a = k) ->
    foldl (fun acc a => <[f a := g a]> acc) m l !! k = Some v.
Proof.
  induction l as [|x l IH]; intros m k v Hsame Hin; cbn [foldl].
  - destruct Hin as [Hm | (a & []%elem_of_nil & _)]. done.
  - apply IH.
    + intros a Ha. apply Hsame. by right.
    + destruct (decide (f x = k)) as [Heq|Hne].
      * left. rewrite <- Heq, lookup_insert_eq. f_equal. apply Hsame; [by left|done].
      * rewrite lookup_insert_ne by done.
        destruct Hin as [Hm | (a & Ha & Hf)]; [by left|].
        apply elem_of_cons in Ha as [-> | Ha]; [done|]. right. eauto.
Qed.

End foldl_insert.

(** The key of [getExistingResources] for an object that it lists. *)
Definition existingKey (o : Obj) : option string :=
  match o with
  | ODeployment d => Some ("Deployment/" ++ meta_Name (dep_Meta d))
  | OService s => Some ("Service/" ++ meta_Name (svc_Meta s))
  | OConfigMap m => Some ("ConfigMap/" ++ meta_Name (cm_Meta m))
  | _ => None
  end.

(** The object [o] is one that the three list calls return for the
    topology: it is in the namespace, of a listed kind, and carries the
    topology's label. *)
Definition owned (c : Cluster) (topology : Topology) (ns : string) (id : ident)
  (o : Obj) : Prop :=
  c !! id = Some o /\ id.1.2 = ns /\ is_Some (existingKey o) /\
  id.1.1 <> KVirtualMachine /\
  obj_labels o ≫= (.!! LabelTopology) = Some (topo_Name topology).

Lemma api_list_elem (faults : Faults) (c : Cluster) (k : ResourceKind)
  (ns key value : string) (l : list Obj) (o : Obj) :
  api_list faults c k ns key value = inr l ->
  o ∈ l <-> exists name, c !! (k, ns, name) = Some o /\
                         obj_labels o ≫= (.!! key) = Some value.
Proof.
  unfold api_list. destruct (faults VList k ns ""); [done|]. intros [= <-].
  rewrite list_elem_of_fmap. split.
  - intros ([[[k' ns'] name] o'] & -> & Hin).
    apply elem_of_map_to_list in Hin.
    apply map_lookup_filter_Some in Hin as [Hc (Hk & Hns & Hl)].
    cbn in Hk, Hns, Hl. subst. eauto.
  - intros (name & Hc & Hl). exists ((k, ns, name), o). split; [done|].
    apply elem_of_map_to_list. by apply map_lookup_filter_Some.
Qed.

Lemma getExistingResources_ok (faults : Faults) (c : Cluster) (topology : Topology)
  (ns : string) :
  (forall k, faults VList k ns "" = false) ->
  exists existing, getExistingResources faults c topology ns = inr existing.
Proof.
  intros Hlist. unfold getExistingResources, api_list. rewrite !Hlist. eauto.
Qed.

(** Every entry of the map is an object that the topology owns, under
    its key. *)
Lemma getExistingResources_owned (faults : Faults) (c : Cluster) (topology : Topology)
  (ns : string) (existing : gmap string Obj) (k : string) (o : Obj) :
  getExistingResources faults c topology ns = inr existing ->
  existing !! k = Some o ->
  existingKey o = Some k /\ exists id, owned c topology ns id o.
Proof.
  unfold getExistingResources.
  destruct (api_list faults c KDeployment _ _ _) as [|ds] eqn:Hds; [done|].
  destruct (api_list faults c KService _ _ _) as [|ss] eqn:Hss; [done|].
  destruct (api_list faults c KConfigMap _ _ _) as [|ms] eqn:Hms; [done|].
  intros [= <-] Hk.
  apply foldl_insert_Some in Hk as [(m & Hin & <- & <-) | [Hk _]].
  { apply list_elem_of_omap in Hin as ([] & Hin & [= ->]).
    apply (api_list_elem _ _ _ _ _ _ _ _ Hms) in Hin as (name & Hc & Hl).
    split; [done|]. exists (KConfigMap, ns, name). repeat split; eauto. }
  apply foldl_insert_Some in Hk as [(s & Hin & <- & <-) | [Hk _]].
  { apply list_elem_of_omap in Hin as ([] & Hin & [= ->]).
    apply (api_list_elem _ _ _ _ _ _ _ _ Hss) in Hin as (name & Hc & Hl).
    split; [done|]. exists (KService, ns, name). repeat split; eauto. }
  apply foldl_insert_Some in Hk as [(d & Hin & <- & <-) | [Hk _]].
  { apply list_elem_of_omap in Hin as ([] & Hin & [= ->]).
    apply (api_list_elem _ _ _ _ _ _ _ _ Hds) in Hin as (name & Hc & Hl).
    split; [done|]. exists (KDeployment, ns, name). repeat split; eauto. }
  by rewrite lookup_empty in Hk.
Qed.

(** An object that the topology owns is in the map, under its key. *)
Lemma getExistingResources_complete (faults : Faults) (c : Cluster)
  (topology : Topology) (ns : string) (existing : gmap string Obj) (id : ident)
  (o : Obj) :
  cluster_wf c ->
  getExistingResources faults c topology ns = inr existing ->
  owned c topology ns id o ->
  exists k, existingKey o = Some k /\ existing !! k = Some o.
Proof.
  intros Hwf. unfold getExistingResources.
  destruct (api_list faults c KDeployment _ _ _) as [|ds] eqn:Hds; [done|].
  destruct (api_list faults c KService _ _ _) as [|ss] eqn:Hss; [done|].
  destruct (api_list faults c KConfigMap _ _ _) as [|ms] eqn:Hms; [done|].
  intros [= <-] (Hc & Hns & _ & Hkind & Hl).
  destruct (Hwf _ _ Hc) as [Hid _]. destruct id as [[K ns'] name].
  cbn in Hns, Hkind. subst ns'.
  assert (Hunique : forall K' name' o',
            c !! (K', ns, name') = Some o' -> obj_ident o' = Some (K, ns, name) ->
            o' = o).
  { intros K' name' o' Hc' Hid'. destruct (Hwf _ _ Hc') as [Hid'' _].
    rewrite Hid' in Hid''. injection Hid'' as <- <-. congruence. }
  destruct o as [d|s|m|u|]; cbn in Hid; try done; injection Hid as <- Hns Hname.
  - eexists. split; [reflexivity|].
    apply foldl_insert_elem; [by intros ? _ [=]|left].
    apply foldl_insert_elem; [by intros ? _ [=]|left].
    apply foldl_insert_elem.
    + intros d' Hin Hkey. injection Hkey as Hkey. cbv [String.append] in Hkey.
      apply list_elem_of_omap in Hin as ([] & Hin & [= ->]).
      apply (api_list_elem _ _ _ _ _ _ _ _ Hds) in Hin as (name' & Hc' & _).
      apply (Hunique _ _ _ Hc'). destruct (Hwf _ _ Hc') as [Hid' _].
      cbn in Hid' |- *. injection Hid' as Hns' Hname'. congruence.
    + right. exists d. split; [|done]. apply list_elem_of_omap.
      exists (ODeployment d). split; [|done].
      apply (api_list_elem _ _ _ _ _ _ _ _ Hds). exists name. split; [exact Hc|exact Hl].
  - eexists. split; [reflexivity|].
    apply foldl_insert_elem; [by intros ? _ [=]|left].
    apply foldl_insert_elem.
    + intros s' Hin Hkey. injection Hkey as Hkey. cbv [String.append] in Hkey.
      apply list_elem_of_omap in Hin as ([] & Hin & [= ->]).
      apply (api_list_elem _ _ _ _ _ _ _ _ Hss) in Hin as (name' & Hc' & _).
      apply (Hunique _ _ _ Hc'). destruct (Hwf _ _ Hc') as [Hid' _].
      cbn in Hid' |- *. injection Hid' as Hns' Hname'. congruence.
    + right. exists s. split; [|done]. apply list_elem_of_omap.
      exists (OService s). split; [|done].
      apply (api_list_elem _ _ _ _ _ _ _ _ Hss). exists name. split; [exact Hc|exact Hl].
  - eexists. split; [reflexivity|].
    apply foldl_insert_elem.
    + intros m' Hin Hkey. injection Hkey as Hkey. cbv [String.append] in Hkey.
      apply list_elem_of_omap in Hin as ([] & Hin & [= ->]).
      apply (api_list_elem _ _ _ _ _ _ _ _ Hms) in Hin as (name' & Hc' & _).
      apply (Hunique _ _ _ Hc'). destruct (Hwf _ _ Hc') as [Hid' _].
      cbn in Hid' |- *. injection Hid' as Hns' Hname'. congruence.
    + right. exists m. split; [|done]. apply list_elem_of_omap.
      exists (OConfigMap m). split; [|done].
      apply (api_list_elem _ _ _ _ _ _ _ _ Hms). exists name. split; [exact Hc|exact Hl].
Qed.

(** ** Deleting what is no longer wanted *)

(** The type that [deleteResource] reads off the key of an object. *)
Definition kindWord (k : ResourceKind) : string :=
  match k with
  | KDeployment => "Deployment"
  | KService => "Service"
  | KConfigMap => "ConfigMap"
  | KVirtualMachine => "VirtualMachine"
  end.

Lemma SplitN2_existingKey (o : Obj) (k : string) (K : ResourceKind) (ns name : string) :
  existingKey o = Some k -> obj_ident o = Some (K, ns, name) ->
  SplitN2 k "/" = [kindWord K; name].
Proof. destruct o; cbn; try done; by intros [= <-] [= <- <- <-]. Qed.

(** [deleteResource] on an entry of the map of existing resources: the
    delete call goes to the identity of the object; a failure of the call
    other than not-found is returned, and anything else is recorded as a
    deletion. *)
Lemma deleteResource_existing (faults : Faults) (k : string) (o : Obj) (c : Cluster)
  (result : ReconcileResult) (K : ResourceKind) (ns name : string) :
  existingKey o = Some k -> obj_ident o = Some (K, ns, name) ->
  deleteResource faults k o c result
  = if faults VDelete K ns name then Ret (Some ErrInjected, c, result)
    else Ret (None, delete (K, ns, name) c,
              addDeleted result (mkResourceInfo (kindWord K) name "" "")).
Proof.
  assert (Hdel : forall K' ns' name',
            deleteOutcome c (api_delete faults c K' ns' name')
            = if faults VDelete K' ns' name' then (Some ErrInjected, c)
              else (None, delete (K', ns', name') c)).
  { intros K' ns' name'. unfold api_delete.
    destruct (faults VDelete K' ns' name'); [done|].
    destruct (c !! (K', ns', name')) eqn:Hc; cbn; [done|].
    by rewrite delete_id. }
  intros Hkey Hid. unfold deleteResource.
  rewrite (SplitN2_existingKey o k K ns name Hkey Hid).
  destruct o as [d|s|m|u|]; cbn in Hkey, Hid; try done;
    injection Hid as <- <- <-; cbn; rewrite Hdel;
    by destruct (faults VDelete _ _ _).
Qed.




(** ** A whole pass *)

Lemma valid_schedule_elem (sched : schedule) {V : Type} (m : gmap string V)
  (k : string) (v : V) :
  valid_schedule sched -> (k, v) ∈ sched V m <-> m !! k = Some v.
Proof. intros Hs. rewrite (Hs V m). apply elem_of_map_to_list. Qed.



(** Every object of the render results has the dynamic type of its tag. *)
Definition well_tagged (renderResults : gmap string RenderResult) : Prop :=
  forall n rr r, renderResults !! n = Some rr -> r ∈ rr_Resources rr -> tag_matches r.

(** No two resources of the render results name the same object of the
    cluster. *)
Definition distinct_identities (renderResults : gmap string RenderResult) : Prop :=
  NoDup (rident <$> resourcesOf (map_to_list renderResults)).












(** ** A second pass *)

Section foldl_insert_more.
Context {A B : Type} (f : A -> string) (g : A -> B).



End foldl_insert_more.








(** ** Checking the conditions of a pass on given render results *)


Definition returns {A : Type} (o : Outcome A) : bool :=
  match o with Ret _ => true | Panic _ => false end.

Definition obj_okb (o : Obj) : bool :=
  match o with
  | OUnstructured u => returns (NestedMap (Object u) ["spec"])
  | OOther => false
  | _ => true
  end.


Definition cluster_wfb (c : Cluster) : bool :=
  forallb (fun e : ident * Obj => bool_decide (obj_ident e.2 = Some e.1) && obj_okb e.2)
          (map_to_list c).


Lemma returns_spec {A : Type} (o : Outcome A) : returns o = true -> exists a, o = Ret a.
Proof. destruct o; [done|eauto]. Qed.

Lemma obj_okb_spec (o : Obj) : obj_okb o = true -> obj_ok o.
Proof. destruct o; cbn; try done. apply returns_spec. Qed.





Lemma cluster_wf_check (c : Cluster) : cluster_wfb c = true -> cluster_wf c.
Proof.
  unfold cluster_wfb. rewrite forallb_forall. intros Hall id o Hlook.
  apply elem_of_map_to_list, list_elem_of_In in Hlook. specialize (Hall _ Hlook).
  cbn in Hall. apply andb_true_iff in Hall as [Hid Hok].
  split; [by apply bool_decide_eq_true in Hid|by apply obj_okb_spec].
Qed.


(** ** A lab of two container nodes *)

Definition labNode (name : string) : RenderResult :=
  let config := testNode name "alpine:3" "linux" ∅ in
  mkRenderResult Common.WorkloadTypeContainer
    (match renderNodeResources sched_fwd config Common.WorkloadTypeContainer
             (plainTopology "lab") "ns" with
     | inr resources => resources
     | inl _ => []
     end)
    config.

Definition lab : gmap string RenderResult :=
  <["r1" := labNode "r1"]> {[ "r2" := labNode "r2" ]}.

(** A cluster that holds a Deployment of the topology that the lab no
    longer has. *)
Definition labCluster : Cluster :=
  {[ (KDeployment, "ns", "old") :=
       ODeployment
         (buildDeployment sched_fwd
            (mkNodeConfig "old" "alpine:3" "linux" {[ LabelTopology := "lab" ]} ∅ ∅ []
               None "" ∅)
            (plainTopology "lab") "ns") ]}.

(** The API server refuses to create the Deployment of [r1]. *)
Definition r1CreateFails : Faults :=
  fun verb kind ns name =>
    match verb, kind with
    | VCreate, KDeployment => bool_decide (name = "r1")
    | _, _ => false
    end.






(** ** Single steps *)

(** A step that fails has written nothing and reported nothing. *)
Lemma reconcileWith_failed {A : Type} (faults : Faults) (S : Scheme A) (a : A)
  (workloadType : WorkloadType) (c : Cluster) (result : ReconcileResult)
  (e : GoError) (c' : Cluster) (result' : ReconcileResult) (a' : A) :
  reconcileWith faults S a workloadType c result = Ret (Some e, c', result', a') ->
  c' = c /\ result' = result.
Proof.
  unfold reconcileWith.
  destruct (getWith _ _ _ _ _) as [err|existing].
  - destruct (IsNotFound err); [|ret_inv; auto].
    destruct (api_create _ _ _ _ _ _); ret_inv; auto.
  - destruct (sk_needs S existing a) as [why|[]]; [done| |ret_inv; auto].
    cbv zeta. destruct (api_update _ _ _ _ _ _); ret_inv; auto.
Qed.

(** What a step may do.  A step on a resource whose object matches its
    tag leaves the resource its tag, its identity and its key, and the
    cluster every object but the one of the resource; it deletes nothing
    and records no error itself; and when it fails it has written
    nothing to the cluster and added nothing to the result. *)
Theorem step_touches_only_its_object (faults : Faults) (r : Resource)
  (workloadType : WorkloadType) (ns : string) (c : Cluster) (result : ReconcileResult)
  (err : option GoError) (c' : Cluster) (result' : ReconcileResult) (r' : Resource) :
  tag_matches r ->
  reconcileResource faults r workloadType ns c result = Ret (err, c', result', r') ->
  tag_matches r' /\ rident r' = rident r /\ getResourceKey r' = getResourceKey r /\
  (forall id, rident r <> Some id -> c' !! id = c !! id) /\
  Deleted result' = Deleted result /\ Errors result' = Errors result /\
  (is_Some err -> c' = c /\ result' = result).
Proof.
  intros Htag Hstep.
  destruct (reconcileResource_frame faults r workloadType ns c result err c' result' r'
              Htag Hstep) as (Htag' & Hid & Hkey & _ & _).
  split; [done|]. split; [done|]. split; [done|]. split.
  { intros id Hne.
    exact (reconcileResource_other faults r workloadType ns c result err c' result' r'
             id Htag Hstep Hne). }
  revert Hstep. pattern r. apply by_scheme; [done|].
  intros A S ok a Hlaws Hpack. destruct (Hpack a) as (_ & _ & _ & ->).
  destruct (reconcileWith faults S a workloadType c result)
    as [why|[[[e1 c1] res1] a1]] eqn:Hw; [done|]. cbn [liftStep]. ret_inv.
  split; [|split].
  - revert Hw. unfold reconcileWith.
    destruct (getWith _ _ _ _ _) as [e|existing].
    + destruct (IsNotFound e); [|ret_inv; auto].
      destruct (api_create _ _ _ _ _ _); ret_inv; auto.
    + destruct (sk_needs S existing a) as [why|[]]; [done| |ret_inv; auto].
      cbv zeta. destruct (api_update _ _ _ _ _ _); ret_inv; auto.
  - revert Hw. unfold reconcileWith.
    destruct (getWith _ _ _ _ _) as [e|existing].
    + destruct (IsNotFound e); [|ret_inv; auto].
      destruct (api_create _ _ _ _ _ _); ret_inv; auto.
    + destruct (sk_needs S existing a) as [why|[]]; [done| |ret_inv; auto].
      cbv zeta. destruct (api_update _ _ _ _ _ _); ret_inv; auto.
  - intros [e ->]. by eapply reconcileWith_failed.
Qed.


Lemma step_touches_only_its_object_witness :
  let r := mkResource "Service"
             (OService (buildService (testNode "r1" "alpine:3" "linux" ∅)
                          (plainTopology "lab") "ns")) None in
  exists err c' result' r',
    reconcileResource r1CreateFails r Common.WorkloadTypeContainer "ns" labCluster
      emptyResult = Ret (err, c', result', r') /\
    tag_matches r' /\ rident r' = rident r /\ getResourceKey r' = getResourceKey r /\
    (forall id, rident r <> Some id -> c' !! id = labCluster !! id) /\
    Deleted result' = [] /\ Errors result' = [] /\
    (is_Some err -> c' = labCluster /\ result' = emptyResult).
Proof.
  intros r.
  destruct (reconcileResource r1CreateFails r Common.WorkloadTypeContainer "ns"
              labCluster emptyResult) as [why|[[[err c'] result'] r']] eqn:Hstep.
  { exfalso.
    assert (Hret : returns (reconcileResource r1CreateFails r Common.WorkloadTypeContainer
                              "ns" labCluster emptyResult) = true)
      by (vm_compute; reflexivity).
    rewrite Hstep in Hret. discriminate Hret. }
  exists err, c', result', r'. split; [reflexivity|].
  exact (step_touches_only_its_object r1CreateFails r Common.WorkloadTypeContainer "ns"
           labCluster emptyResult err c' result' r' eq_refl Hstep).
Defined.


(** ** Failures of the list and delete calls *)

(** A pass that cannot list the existing resources does nothing: it
    returns the error, and neither the cluster nor the render results
    have changed. *)
Theorem list_failure_aborts_pass (faults : Faults) (sched : schedule)
  (topology : Topology) (renderResults : gmap string RenderResult) (ns : string)
  (c : Cluster) (k : ResourceKind) :
  k <> KVirtualMachine -> faults VList k ns "" = true ->
  exists what,
    ReconcileTopologyWorkloads faults sched topology renderResults ns c
    = Ret (inl (ErrWrap "failed to get existing resources: "
                  (ErrWrap what ErrInjected)), c, renderResults).
Proof.
  intros Hk Hfault.
  unfold ReconcileTopologyWorkloads, getExistingResources, api_list.
  destruct (faults VList KDeployment ns "") eqn:Hd; [eauto|].
  destruct (faults VList KService ns "") eqn:Hs; [eauto|].
  destruct (faults VList KConfigMap ns "") eqn:Hm; [eauto|].
  destruct k; congruence.
Qed.

Lemma list_failure_aborts_pass_witness :
  exists what,
    ReconcileTopologyWorkloads
      (fun verb kind _ _ =>
         match verb, kind with VList, KService => true | _, _ => false end)
      sched_fwd (plainTopology "lab") lab "ns" labCluster
    = Ret (inl (ErrWrap "failed to get existing resources: "
                  (ErrWrap what ErrInjected)), labCluster, lab).
Proof.
  apply (list_failure_aborts_pass _ sched_fwd (plainTopology "lab") lab "ns" labCluster
           KService).
  - discriminate.
  - reflexivity.
Defined.

(** The map of existing resources holds the objects that the topology
    owns in the namespace, each under the key of its kind and name, and
    nothing else. *)
Theorem existing_resources_are_the_owned_ones (faults : Faults) (c : Cluster)
  (topology : Topology) (ns : string) (existing : gmap string Obj) :
  cluster_wf c ->
  getExistingResources faults c topology ns = inr existing ->
  forall k o,
    existing !! k = Some o <->
    existingKey o = Some k /\ exists id, owned c topology ns id o.
Proof.
  intros Hwf Hex k o. split.
  - intros Hk. exact (getExistingResources_owned faults c topology ns existing k o Hex Hk).
  - intros [Hkey [id Hown]].
    destruct (getExistingResources_complete faults c topology ns existing id o
                Hwf Hex Hown) as (k' & Hkey' & Hk').
    congruence.
Qed.

Lemma existing_resources_are_the_owned_ones_witness :
  exists existing,
    getExistingResources no_faults labCluster (plainTopology "lab") "ns" = inr existing /\
    forall k o,
      existing !! k = Some o <->
      existingKey o = Some k /\ exists id, owned labCluster (plainTopology "lab") "ns" id o.
Proof.
  destruct (getExistingResources_ok no_faults labCluster (plainTopology "lab") "ns"
              (fun _ => eq_refl)) as [existing Hex].
  exists existing. split; [exact Hex|].
  apply (existing_resources_are_the_owned_ones no_faults labCluster (plainTopology "lab")
           "ns" existing).
  - apply cluster_wf_check. vm_compute. reflexivity.
  - exact Hex.
Defined.

(** The deletion of unwanted resources stops at the first delete call
    that fails: when the first unwanted key that the run visits cannot
    be deleted, no resource is deleted, whatever keys follow. *)
Theorem first_delete_failure_stops_deletion (faults : Faults) (sched : schedule)
  (existing : gmap string Obj) (desired : gmap string Resource) (c : Cluster)
  (result : ReconcileResult) (wanted rest : list string) (k : string) (o : Obj)
  (K : ResourceKind) (ns name : string) :
  (sched Obj existing).*1 = (wanted ++ k :: rest)%list ->
  (forall k', k' ∈ wanted -> is_Some (desired !! k')) ->
  desired !! k = None -> existing !! k = Some o ->
  existingKey o = Some k -> obj_ident o = Some (K, ns, name) ->
  faults VDelete K ns name = true ->
  deleteUnwantedResources faults sched existing desired c result
  = Ret (Some (ErrWrap ("failed to delete resource " ++ k ++ ": ") ErrInjected),
         c, result).
Proof.
  intros Hkeys Hwanted Hnone Hex Hkey Hid Hfault.
  unfold deleteUnwantedResources. rewrite Hkeys. clear Hkeys.
  induction wanted as [|k' wanted IH]; cbn [app deleteUnwantedLoop].
  - rewrite Hnone, Hex. change (default OOther (Some o)) with o.
    rewrite (deleteResource_existing faults k o c result K ns name Hkey Hid).
    by rewrite Hfault.
  - destruct (Hwanted k') as [r ->]; [by left|].
    apply IH. intros k'' Hin. apply Hwanted. by right.
Qed.

Definition oldDeployment : Obj :=
  ODeployment
    (buildDeployment sched_fwd
       (mkNodeConfig "old" "alpine:3" "linux" {[ LabelTopology := "lab" ]} ∅ ∅ []
          None "" ∅)
       (plainTopology "lab") "ns").
Definition oldService : Obj :=
  OService (buildService (testNode "old" "alpine:3" "linux" ∅) (plainTopology "lab") "ns").

Lemma first_delete_failure_stops_deletion_witness :
  deleteUnwantedResources
    (fun verb kind _ _ => match verb, kind with VDelete, KDeployment => true | _, _ => false end)
    sched_fwd
    (<["Deployment/old" := oldDeployment]> {[ "Service/old" := oldService ]})
    {[ "Service/old" := mkResource "Service" oldService None ]}
    labCluster emptyResult
  = Ret (Some (ErrWrap ("failed to delete resource " ++ "Deployment/old" ++ ": ")
                 ErrInjected),
         labCluster, emptyResult).
Proof.
  apply (first_delete_failure_stops_deletion _ sched_fwd _ _ labCluster emptyResult
           ["Service/old"] [] "Deployment/old" oldDeployment KDeployment "ns" "old").
  - vm_compute. reflexivity.
  - intros k' ->%list_elem_of_singleton. vm_compute. eauto.
  - vm_compute. reflexivity.
  - vm_compute. reflexivity.
  - reflexivity.
  - reflexivity.
  - reflexivity.
Defined.

(** The manifest that the renderer builds cannot be compared: once the
    virtual machine exists in the cluster, reconciling the rendered
    manifest panics in the deep copy of its ["spec"], which holds the
    labels as a [map[string]string]. *)
Theorem rendered_vm_is_reconciled_only_once (faults : Faults) (sched : schedule)
  (config : NodeConfig) (topology : Topology) (ns : string)
  (workloadType : WorkloadType) (c : Cluster) (result : ReconcileResult)
  (existing : Unstructured) :
  faults VGet KVirtualMachine ns (Name config) = false ->
  c !! (KVirtualMachine, ns, Name config) = Some (OUnstructured existing) ->
  reconcileVirtualMachine faults (buildVirtualMachine sched config topology ns)
    workloadType c result
  = Panic DeepCopy.
Proof.
  intros Hget Hc. unfold reconcileVirtualMachine, getVirtualMachine, api_get.
  change (GetNamespace (buildVirtualMachine sched config topology ns)) with ns.
  change (GetName (buildVirtualMachine sched config topology ns)) with (Name config).
  rewrite Hget, Hc.
  destruct (NestedMap (Object existing) ["spec"]) as [why|existingSpec] eqn:Hspec.
  { by apply NestedMap_panic in Hspec as ->. }
  reflexivity.
Qed.

Lemma rendered_vm_is_reconciled_only_once_witness :
  let vm := buildVirtualMachine sched_fwd vyosNode (plainTopology "lab") "ns" in
  reconcileVirtualMachine no_faults vm Common.WorkloadTypeVM
    {[ (KVirtualMachine, "ns", "fw1") := OUnstructured vm ]} emptyResult
  = Panic DeepCopy.
Proof.
  intros vm.
  apply (rendered_vm_is_reconciled_only_once no_faults sched_fwd vyosNode
           (plainTopology "lab") "ns" Common.WorkloadTypeVM
           {[ (KVirtualMachine, "ns", "fw1") := OUnstructured vm ]} emptyResult vm).
  - reflexivity.
  - reflexivity.
Defined.

(** ** The renderer and the order of iteration *)

(** The copy loop [for k, v := range src { dst[k] = v }] computes the
    union of the two maps in which [src] wins, in whatever order the run
    visits [src]. *)
Lemma range_insert_union (sched : schedule) (src dst : gmap string string) :
  valid_schedule sched -> range_insert sched src dst = src ∪ dst.
Proof.
  intros Hsched. apply map_eq. intros k. unfold range_insert.
  destruct (src !! k) as [v|] eqn:Hsrc.
  - rewrite (lookup_union_Some_l src dst k v Hsrc).
    apply (foldl_insert_elem fst snd).
    + intros [k' v'] Hin Hk. cbn in Hk |- *. subst k'.
      apply (valid_schedule_elem sched src k v' Hsched) in Hin. congruence.
    + right. exists (k, v). split; [|done].
      by apply (valid_schedule_elem sched src k v Hsched).
  - rewrite lookup_union_r by done.
    destruct (dst !! k) as [v|] eqn:Hdst.
    + apply (foldl_insert_elem fst snd); [|by left].
      intros [k' v'] Hin Hk. cbn in Hk. subst k'.
      apply (valid_schedule_elem sched src k v' Hsched) in Hin. congruence.
    + destruct (foldl _ dst (sched string src) !! k) as [v|] eqn:Hfold; [|done].
      apply (foldl_insert_Some fst snd) in Hfold
        as [([k' v'] & Hin & Hk & _) | [Hfold _]]; [|congruence].
      cbn in Hk. subst k'.
      apply (valid_schedule_elem sched src k v' Hsched) in Hin. congruence.
Qed.

(** What the iteration order decides.  The node configuration, the
    VirtualMachine manifest and the ConfigMap of a node do not depend on
    the order in which the run ranges over the maps, and the Deployment
    depends on it through the order of the environment variables
    alone. *)
Theorem builders_ignore_iteration_order (ExecutionModeEnv NetworkingModeEnv : string)
  (sched1 sched2 : schedule) (nodeName : string) (definition : NodeDefinition)
  (config : NodeConfig) (topology : Topology) (ns : string) :
  valid_schedule sched1 -> valid_schedule sched2 ->
  buildNodeConfig ExecutionModeEnv NetworkingModeEnv sched1 nodeName definition topology
  = buildNodeConfig ExecutionModeEnv NetworkingModeEnv sched2 nodeName definition topology /\
  buildVirtualMachine sched1 config topology ns
  = buildVirtualMachine sched2 config topology ns /\
  buildConfigMap sched1 config topology ns = buildConfigMap sched2 config topology ns /\
  (sched1 string (Environment config) = sched2 string (Environment config) ->
   buildDeployment sched1 config topology ns = buildDeployment sched2 config topology ns).
Proof.
  intros Hs1 Hs2. split; [|split; [|split]].
  - unfold buildNodeConfig.
    destruct (negb (bool_decide (ne_ExecutionMode _ = ""))),
             (negb (bool_decide (ne_CNI _ = ""))),
             (ne_NodeOverrides _ !! nodeName) as [override|];
      try destruct (negb (bool_decide (ov_ExecutionMode override = "")));
      cbv zeta; by rewrite !(range_insert_union sched1), !(range_insert_union sched2).
  - unfold buildVirtualMachine.
    by rewrite !(range_insert_union sched1), !(range_insert_union sched2).
  - unfold buildConfigMap.
    by rewrite !(range_insert_union sched1), !(range_insert_union sched2).
  - intros Henv. unfold buildDeployment. rewrite Henv.
    by rewrite !(range_insert_union sched1), !(range_insert_union sched2).
Qed.

Lemma builders_ignore_iteration_order_witness :
  buildNodeConfig "EXECUTION_MODE" "NETWORKING_MODE" sched_fwd "fw1"
    (mkNodeDefinition "vyos/vyos:1.4" "vyos" (<["A" := "1"]> {["B" := "2"]}) ∅ "")
    (plainTopology "lab")
  = buildNodeConfig "EXECUTION_MODE" "NETWORKING_MODE" sched_rev "fw1"
      (mkNodeDefinition "vyos/vyos:1.4" "vyos" (<["A" := "1"]> {["B" := "2"]}) ∅ "")
      (plainTopology "lab") /\
  buildVirtualMachine sched_fwd vyosNode (plainTopology "lab") "ns"
  = buildVirtualMachine sched_rev vyosNode (plainTopology "lab") "ns" /\
  buildConfigMap sched_fwd vyosNode (plainTopology "lab") "ns"
  = buildConfigMap sched_rev vyosNode (plainTopology "lab") "ns" /\
  (sched_fwd string (Environment vyosNode) = sched_rev string (Environment vyosNode) ->
   buildDeployment sched_fwd vyosNode (plainTopology "lab") "ns"
   = buildDeployment sched_rev vyosNode (plainTopology "lab") "ns").
Proof.
  apply (builders_ignore_iteration_order "EXECUTION_MODE" "NETWORKING_MODE"
           sched_fwd sched_rev);
    [exact sched_fwd_valid|exact sched_rev_valid].
Defined.

(** ** What a rendering holds *)

Lemma append_cons (c : ascii) (a s : string) : String c a ++ s = String c (a ++ s).
Proof. reflexivity. Qed.

Lemma length_append (a s : string) :
  String.length (a ++ s) = String.length a + String.length s.
Proof. induction a as [|c a IH]; [done|]. rewrite append_cons. cbn. by rewrite IH. Qed.

Lemma append_inv_tail (a b s : string) : a ++ s = b ++ s -> a = b.
Proof.
  revert b. induction a as [|c a IH]; intros [|d b] Heq.
  - done.
  - apply (f_equal String.length) in Heq. rewrite !length_append in Heq. cbn in Heq. lia.
  - apply (f_equal String.length) in Heq. rewrite !length_append in Heq. cbn in Heq. lia.
  - rewrite !append_cons in Heq. injection Heq as -> Heq. f_equal. by apply IH.
Qed.

Section rendering_facts.
Context (ExecutionModeEnv NetworkingModeEnv : string).
Context (ToLower : string -> string) (sched : schedule).
Context (classifier : WorkloadClassifier).
Context (topology : Topology) (ns : string).

Lemma buildNodeConfig_Name (nodeName : string) (definition : NodeDefinition) :
  Name (buildNodeConfig ExecutionModeEnv NetworkingModeEnv sched nodeName definition
          topology) = nodeName.
Proof.
  unfold buildNodeConfig.
  destruct (negb (bool_decide (ne_ExecutionMode _ = ""))),
           (negb (bool_decide (ne_CNI _ = ""))),
           (ne_NodeOverrides _ !! nodeName) as [override|];
    try destruct (negb (bool_decide (ov_ExecutionMode override = "")));
    reflexivity.
Qed.

(** The node that [RenderTopologyWorkloads] stores for an entry. *)
Definition renderedNode (e : string * NodeDefinition) : RenderResult :=
  let nodeConfig :=
    buildNodeConfig ExecutionModeEnv NetworkingModeEnv sched e.1 e.2 topology in
  let workloadType := DetermineWorkloadType ToLower sched classifier nodeConfig in
  mkRenderResult workloadType
    (match renderNodeResources sched nodeConfig workloadType topology ns with
     | inr resources => resources
     | inl _ => []
     end)
    nodeConfig.

Lemma renderNodes_fold (entries : list (string * NodeDefinition)) :
  forall results,
    renderNodes ExecutionModeEnv NetworkingModeEnv ToLower sched classifier topology ns
      entries results
    = inr (foldl (fun acc e => <[e.1 := renderedNode e]> acc) results entries).
Proof.
  induction entries as [|[nodeName definition] entries IH]; intros results;
    cbn [renderNodes foldl]; [done|].
  unfold renderNode.
  set (nodeConfig := buildNodeConfig _ _ _ _ _ _).
  set (workloadType := DetermineWorkloadType _ _ _ _).
  destruct (renderNodeResources_total sched nodeConfig workloadType topology ns)
    as [resources Hres]; [apply DetermineWorkloadType_range|].
  rewrite Hres, IH. unfold renderedNode. cbn [fst snd].
  fold nodeConfig. fold workloadType. by rewrite Hres.
Qed.

(** The identities of the resources of a node: the workload and the
    Service under the name of the node, the ConfigMap under the name
    with the suffix [-config]. *)
Lemma renderNodeResources_idents (config : NodeConfig) (workloadType : WorkloadType)
  (resources : list Resource) :
  renderNodeResources sched config workloadType topology ns = inr resources ->
  NoDup (rident <$> resources) /\
  forall r, r ∈ resources ->
    (exists K, K <> KConfigMap /\ rident r = Some (K, ns, Name config)) \/
    rident r = Some (KConfigMap, ns, Name config ++ "-config").
Proof.
  unfold renderNodeResources, renderContainerResources, renderVMResources,
    renderCommonResources.
  repeat case_bool_decide; try discriminate;
    destruct (_ || _); intros [= <-]; (split; [|intros r Hr]).
  all: try (repeat (apply NoDup_cons; split;
                    [rewrite ?not_elem_of_cons; repeat split;
                     try discriminate; apply not_elem_of_nil|]);
            apply NoDup_nil_2).
  all: repeat (apply elem_of_cons in Hr as [-> | Hr]);
    try (by apply elem_of_nil in Hr);
    try (right; reflexivity);
    left; eexists; (split; [|reflexivity]); discriminate.
Qed.

(** The result of a rendering, node by node. *)
Lemma render_lookup (configs : gmap string NodeDefinition) :
  valid_schedule sched ->
  exists results,
    RenderTopologyWorkloads ExecutionModeEnv NetworkingModeEnv ToLower sched classifier
      topology configs ns = inr results /\
    forall n, results !! n = (fun definition => renderedNode (n, definition)) <$> configs !! n.
Proof.
  intros Hsched. unfold RenderTopologyWorkloads. rewrite renderNodes_fold.
  eexists. split; [reflexivity|]. intros n.
  destruct (configs !! n) as [definition|] eqn:Hn; cbn [fmap option_fmap option_map].
  - apply (foldl_insert_elem fst renderedNode).
    + intros [n' definition'] Hin Hn'. cbn in Hn'. subst n'.
      apply (valid_schedule_elem sched configs n definition' Hsched) in Hin.
      congruence.
    + right. exists (n, definition). split; [|done].
      by apply (valid_schedule_elem sched configs n definition Hsched).
  - destruct (foldl _ ∅ (sched NodeDefinition configs) !! n) as [rr|] eqn:Hfold; [|done].
    apply (foldl_insert_Some fst renderedNode) in Hfold
      as [([n' definition'] & Hin & Hn' & _) | [Hfold _]].
    + cbn in Hn'. subst n'.
      apply (valid_schedule_elem sched configs n definition' Hsched) in Hin.
      congruence.
    + by rewrite lookup_empty in Hfold.
Qed.

Lemma renderedNode_resources (e : string * NodeDefinition) :
  renderNodeResources sched (rr_NodeConfig (renderedNode e))
    (rr_WorkloadType (renderedNode e)) topology ns
  = inr (rr_Resources (renderedNode e)).
Proof.
  unfold renderedNode. cbn [rr_NodeConfig rr_WorkloadType rr_Resources].
  set (nodeConfig := buildNodeConfig _ _ _ _ _ _).
  set (workloadType := DetermineWorkloadType _ _ _ _).
  destruct (renderNodeResources_total sched nodeConfig workloadType topology ns)
    as [resources Hres]; [apply DetermineWorkloadType_range|].
  by rewrite Hres.
Qed.

End rendering_facts.

(** Rendering never fails, and it renders every node of the topology on
    its own: the result has an entry for a name exactly when the
    topology has a node of that name, and the entry holds the node's
    configuration, the workload type that the classifier gives it and
    the resources rendered for that configuration and type. *)
Theorem render_covers_every_node (ExecutionModeEnv NetworkingModeEnv : string)
  (ToLower : string -> string) (sched : schedule) (classifier : WorkloadClassifier)
  (topology : Topology) (configs : gmap string NodeDefinition) (ns : string) :
  valid_schedule sched ->
  exists results,
    RenderTopologyWorkloads ExecutionModeEnv NetworkingModeEnv ToLower sched classifier
      topology configs ns = inr results /\
    forall n,
      match configs !! n with
      | Some definition =>
          exists rr,
            results !! n = Some rr /\
            rr_NodeConfig rr
            = buildNodeConfig ExecutionModeEnv NetworkingModeEnv sched n definition
                topology /\
            rr_WorkloadType rr
            = DetermineWorkloadType ToLower sched classifier (rr_NodeConfig rr) /\
            renderNodeResources sched (rr_NodeConfig rr) (rr_WorkloadType rr) topology ns
            = inr (rr_Resources rr)
      | None => results !! n = None
      end.
Proof.
  intros Hsched.
  destruct (render_lookup ExecutionModeEnv NetworkingModeEnv ToLower sched classifier
              topology ns configs Hsched) as (results & Hrender & Hlook).
  exists results. split; [exact Hrender|]. intros n. rewrite Hlook.
  destruct (configs !! n) as [definition|]; [|done].
  eexists. split; [reflexivity|]. split; [reflexivity|]. split; [reflexivity|].
  apply renderedNode_resources.
Qed.

Lemma render_covers_every_node_witness :
  exists results,
    RenderTopologyWorkloads "EXECUTION_MODE" "NETWORKING_MODE" ascii_ToLower sched_rev
      NewWorkloadClassifier (plainTopology "lab") twoVariables "ns" = inr results /\
    forall n,
      match twoVariables !! n with
      | Some definition =>
          exists rr,
            results !! n = Some rr /\
            rr_NodeConfig rr
            = buildNodeConfig "EXECUTION_MODE" "NETWORKING_MODE" sched_rev n definition
                (plainTopology "lab") /\
            rr_WorkloadType rr
            = DetermineWorkloadType ascii_ToLower sched_rev NewWorkloadClassifier
                (rr_NodeConfig rr) /\
            renderNodeResources sched_rev (rr_NodeConfig rr) (rr_WorkloadType rr)
              (plainTopology "lab") "ns"
            = inr (rr_Resources rr)
      | None => results !! n = None
      end.
Proof.
  apply (render_covers_every_node "EXECUTION_MODE" "NETWORKING_MODE" ascii_ToLower
           sched_rev NewWorkloadClassifier (plainTopology "lab") twoVariables "ns").
  exact sched_rev_valid.
Defined.

Lemma fmap_resourcesOf {B : Type} (f : Resource -> B)
  (entries : list (string * RenderResult)) :
  f <$> resourcesOf entries = entries ≫= (fun e => f <$> rr_Resources e.2).
Proof.
  induction entries as [|e entries IH]; [done|].
  rewrite resourcesOf_cons, fmap_app, IH. reflexivity.
Qed.

(** What the renderer hands to the reconciler.  Rendering a topology
    gives render results whose objects have the dynamic types of their
    tags and which name distinct objects of the cluster, all in the
    namespace of the rendering: the workload and the Service of a node
    under the node's name, its ConfigMap under the name with the suffix
    [-config]. *)
Theorem rendered_results_name_distinct_objects
  (ExecutionModeEnv NetworkingModeEnv : string) (ToLower : string -> string)
  (sched : schedule) (classifier : WorkloadClassifier) (topology : Topology)
  (configs : gmap string NodeDefinition) (ns : string) :
  valid_schedule sched ->
  exists results,
    RenderTopologyWorkloads ExecutionModeEnv NetworkingModeEnv ToLower sched classifier
      topology configs ns = inr results /\
    well_tagged results /\ distinct_identities results /\
    forall n rr r, results !! n = Some rr -> r ∈ rr_Resources rr ->
      (exists K, K <> KConfigMap /\ rident r = Some (K, ns, n)) \/
      rident r = Some (KConfigMap, ns, n ++ "-config").
Proof.
  intros Hsched.
  destruct (render_lookup ExecutionModeEnv NetworkingModeEnv ToLower sched classifier
              topology ns configs Hsched) as (results & Hrender & Hlook).
  exists results. split; [exact Hrender|].
  assert (Hnode : forall n rr, results !! n = Some rr ->
            Forall tag_matches (rr_Resources rr) /\
            NoDup (rident <$> rr_Resources rr) /\
            forall r, r ∈ rr_Resources rr ->
              (exists K, K <> KConfigMap /\ rident r = Some (K, ns, n)) \/
              rident r = Some (KConfigMap, ns, n ++ "-config")).
  { intros n rr Hn. rewrite Hlook in Hn.
    destruct (configs !! n) as [definition|]; [|done]. injection Hn as <-.
    pose proof (renderedNode_resources ExecutionModeEnv NetworkingModeEnv ToLower sched
                  classifier topology ns (n, definition)) as Hres.
    split; [by eapply renderNodeResources_tags|].
    destruct (renderNodeResources_idents sched topology ns _ _ _ Hres) as [Hnd Hid].
    split; [done|]. intros r Hr. specialize (Hid r Hr).
    cbn [renderedNode rr_NodeConfig fst snd] in Hid.
    by rewrite buildNodeConfig_Name in Hid. }
  split; [|split].
  - intros n rr r Hn Hr. destruct (Hnode n rr Hn) as [Htags _].
    rewrite Forall_forall in Htags. by apply Htags.
  - unfold distinct_identities. rewrite fmap_resourcesOf. apply NoDup_bind.
    + intros [n1 rr1] [n2 rr2] id Hin1 Hin2 Hid1 Hid2.
      apply elem_of_map_to_list in Hin1, Hin2. cbn [snd] in Hid1, Hid2.
      apply list_elem_of_fmap in Hid1 as (r1 & -> & Hr1).
      apply list_elem_of_fmap in Hid2 as (r2 & Heq & Hr2).
      destruct (Hnode n1 rr1 Hin1) as (_ & _ & H1).
      destruct (Hnode n2 rr2 Hin2) as (_ & _ & H2).
      assert (n1 = n2) as ->.
      { destruct (H1 r1 Hr1) as [(K1 & HK1 & Hk1) | Hk1],
                 (H2 r2 Hr2) as [(K2 & HK2 & Hk2) | Hk2];
          rewrite Hk1, Hk2 in Heq; injection Heq as Heq; try congruence.
        by apply append_inv_tail in Heq. }
      congruence.
    + intros [n rr] Hin. apply elem_of_map_to_list in Hin.
      by destruct (Hnode n rr Hin) as (_ & ? & _).
    + apply NoDup_map_to_list.
  - intros n rr r Hn Hr. destruct (Hnode n rr Hn) as (_ & _ & Hid). by apply Hid.
Qed.

Lemma rendered_results_name_distinct_objects_witness :
  exists results,
    RenderTopologyWorkloads "EXECUTION_MODE" "NETWORKING_MODE" ascii_ToLower sched_rev
      NewWorkloadClassifier (plainTopology "lab") twoVariables "ns" = inr results /\
    well_tagged results /\ distinct_identities results /\
    forall n rr r, results !! n = Some rr -> r ∈ rr_Resources rr ->
      (exists K, K <> KConfigMap /\ rident r = Some (K, "ns", n)) \/
      rident r = Some (KConfigMap, "ns", n ++ "-config").
Proof.
  apply (rendered_results_name_distinct_objects "EXECUTION_MODE" "NETWORKING_MODE"
           ascii_ToLower sched_rev NewWorkloadClassifier (plainTopology "lab")
           twoVariables "ns").
  exact sched_rev_valid.
Defined.

(** ** Rendering again *)

Lemma reverse_ne {A : Type} (l : list A) : NoDup l -> 1 < length l -> reverse l <> l.
Proof.
  destruct l as [|x [|y l]]; cbn [length]; try lia. intros Hnd _ Heq.
  apply NoDup_cons in Hnd as [Hx _].
  rewrite !reverse_cons in Heq.
  destruct (reverse l) as [|z k] eqn:Hrev; cbn in Heq.
  - injection Heq as -> _. apply Hx. by left.
  - injection Heq as -> _. apply Hx. right.
    apply elem_of_reverse. rewrite Hrev. by left.
Qed.

(** A node with two or more environment variables can be rendered in
    two orders, and the reconciler takes the two Deployments to differ:
    rendering the same node again can force an update of a Deployment
    that nothing has changed. *)
Theorem rendering_again_can_force_an_update (config : NodeConfig) (topology : Topology)
  (ns : string) :
  1 < size (Environment config) ->
  needsDeploymentUpdate (buildDeployment sched_fwd config topology ns)
    (buildDeployment sched_rev config topology ns) = true.
Proof.
  intros Hsize. unfold needsDeploymentUpdate.
  rewrite bool_decide_eq_false_2; [done|].
  cbn. unfold sched_fwd, sched_rev. intros [= Heq].
  apply (f_equal (map (fun e => (env_Name e, env_Value e)))) in Heq.
  rewrite !map_map in Heq. cbn in Heq.
  assert (Hid : forall l : list (string * string), map (fun x => (x.1, x.2)) l = l).
  { induction l as [|[] l IH]; cbn; congruence. }
  rewrite !Hid in Heq.
  apply (reverse_ne (map_to_list (Environment config))).
  - apply NoDup_map_to_list.
  - by rewrite length_map_to_list.
  - done.
Qed.

Lemma rendering_again_can_force_an_update_witness :
  needsDeploymentUpdate
    (buildDeployment sched_fwd (testNode "n1" "alpine:3" "linux" (<["A" := "1"]> {["B" := "2"]}))
       (plainTopology "lab") "ns")
    (buildDeployment sched_rev (testNode "n1" "alpine:3" "linux" (<["A" := "1"]> {["B" := "2"]}))
       (plainTopology "lab") "ns") = true.
Proof.
  apply (rendering_again_can_force_an_update
           (testNode "n1" "alpine:3" "linux" (<["A" := "1"]> {["B" := "2"]}))
           (plainTopology "lab") "ns").
  vm_compute. lia.
Defined.

(** ** Selectors *)

Lemma buildNodeConfig_topology_node (ExecutionModeEnv NetworkingModeEnv : string)
  (sched : schedule) (nodeName : string) (definition : NodeDefinition)
  (topology : Topology) :
  valid_schedule sched ->
  Labels (buildNodeConfig ExecutionModeEnv NetworkingModeEnv sched nodeName definition
            topology) !! LabelTopologyNode
  = Some (default nodeName (nd_Labels definition !! LabelTopologyNode)).
Proof.
  intros Hsched. unfold buildNodeConfig.
  destruct (negb (bool_decide (ne_ExecutionMode _ = ""))),
           (negb (bool_decide (ne_CNI _ = ""))),
           (ne_NodeOverrides _ !! nodeName) as [override|];
    try destruct (negb (bool_decide (ov_ExecutionMode override = "")));
    cbv zeta; cbn [Labels]; rewrite range_insert_union by done;
    (destruct (nd_Labels definition !! LabelTopologyNode) as [v|] eqn:Hl;
     [by rewrite (lookup_union_Some_l _ _ _ _ Hl)|rewrite lookup_union_r by done]);
    cbn [default from_option id];
    repeat (rewrite lookup_insert_ne by (by vm_compute));
    apply lookup_insert_eq.
Qed.

(** The selectors of a node.  The Deployment of a node selects its pods
    by the topology-node label with the name of the node, and so does
    the Service.  The pods carry that label exactly when the labels of
    the node definition do not give the topology-node label another
    value: a node that does is rendered into a Deployment whose selector
    does not match its own pod template. *)
Theorem selectors_match_the_pod_labels (ExecutionModeEnv NetworkingModeEnv : string)
  (sched : schedule) (nodeName : string) (definition : NodeDefinition)
  (topology : Topology) (ns : string) :
  valid_schedule sched ->
  let config :=
    buildNodeConfig ExecutionModeEnv NetworkingModeEnv sched nodeName definition topology in
  let deployment := buildDeployment sched config topology ns in
  let service := buildService config topology ns in
  let selector : gmap string string := {[ LabelTopologyNode := nodeName ]} in
  Selector (dep_Spec deployment) = Some (mkLabelSelector (Some selector)) /\
  svc_Selector (svc_Spec service) = Some selector /\
  exists labels,
    tpl_Labels (Template (dep_Spec deployment)) = Some labels /\
    (selector ⊆ labels <->
     default nodeName (nd_Labels definition !! LabelTopologyNode) = nodeName).
Proof.
  intros Hsched config deployment service selector.
  assert (Hname : Name config = nodeName) by apply buildNodeConfig_Name.
  split; [|split].
  - unfold deployment, buildDeployment. cbn [dep_Spec Selector]. by rewrite Hname.
  - unfold service, buildService. cbn [svc_Spec svc_Selector]. by rewrite Hname.
  - eexists. split; [reflexivity|].
    unfold selector. rewrite map_singleton_subseteq_l.
    rewrite lookup_insert_ne by (by vm_compute).
    rewrite range_insert_union by done. rewrite (right_id_L ∅ (∪)).
    unfold config. rewrite buildNodeConfig_topology_node by done.
    split; congruence.
Qed.

Lemma selectors_match_the_pod_labels_witness :
  let definition :=
    mkNodeDefinition "alpine:3" "linux" ∅ {[ LabelTopologyNode := "other" ]} "" in
  let config :=
    buildNodeConfig "EXECUTION_MODE" "NETWORKING_MODE" sched_fwd "n1" definition
      (plainTopology "lab") in
  let deployment := buildDeployment sched_fwd config (plainTopology "lab") "ns" in
  let service := buildService config (plainTopology "lab") "ns" in
  let selector : gmap string string := {[ LabelTopologyNode := "n1" ]} in
  Selector (dep_Spec deployment) = Some (mkLabelSelector (Some selector)) /\
  svc_Selector (svc_Spec service) = Some selector /\
  exists labels,
    tpl_Labels (Template (dep_Spec deployment)) = Some labels /\
    (selector ⊆ labels <->
     default "n1" (nd_Labels definition !! LabelTopologyNode) = "n1").
Proof.
  intros definition.
  apply (selectors_match_the_pod_labels "EXECUTION_MODE" "NETWORKING_MODE" sched_fwd
           "n1" definition (plainTopology "lab") "ns").
  exact sched_fwd_valid.
Defined.

(** ** The ConfigMap of a node *)

(** A node gets a ConfigMap exactly when it has files or a startup
    configuration; the ConfigMap is named after the node with the suffix
    [-config], and its data are the files of the node, with the startup
    configuration under the key [startup-config] in place of a file of
    that name. *)
Theorem configmap_holds_files_and_startup_config (sched : schedule) (config : NodeConfig)
  (topology : Topology) (ns : string) :
  valid_schedule sched ->
  if bool_decide (Files config = ∅ /\ StartupConfig config = "")
  then renderCommonResources sched config topology ns = inr []
  else
    exists configMap,
      renderCommonResources sched config topology ns
      = inr [mkResource "ConfigMap" (OConfigMap configMap) None] /\
      meta_Name (cm_Meta configMap) = Name config ++ "-config" /\
      meta_Namespace (cm_Meta configMap) = ns /\
      cm_Data configMap
      = Some (if bool_decide (StartupConfig config = "") then Files config
              else <["startup-config" := StartupConfig config]> (Files config)).
Proof.
  intros Hsched. unfold renderCommonResources.
  assert (Hsize : bool_decide (0 < size (Files config))
                  = negb (bool_decide (Files config = ∅))).
  { destruct (decide (Files config = ∅)) as [Hempty|Hne].
    - rewrite Hempty, map_size_empty.
      rewrite (bool_decide_eq_true_2 (_ = ∅)) by done.
      by rewrite bool_decide_eq_false_2 by lia.
    - rewrite (bool_decide_eq_false_2 (_ = ∅)) by done.
      apply bool_decide_eq_true_2.
      destruct (size (Files config)) eqn:Hsz; [|lia].
      by apply map_size_empty_inv in Hsz. }
  rewrite Hsize.
  destruct (decide (Files config = ∅)) as [Hempty|Hne],
           (decide (StartupConfig config = "")) as [Hstart|Hstart].
  - rewrite (bool_decide_eq_true_2 (_ /\ _)) by done.
    by rewrite !bool_decide_eq_true_2.
  - rewrite (bool_decide_eq_false_2 (_ /\ _)) by tauto.
    rewrite (bool_decide_eq_true_2 (_ = ∅)), (bool_decide_eq_false_2 (_ = "")) by done.
    eexists. split; [reflexivity|]. split; [done|]. split; [done|].
    unfold buildConfigMap. cbn [cm_Data].
    rewrite (bool_decide_eq_false_2 (_ = "")) by done. cbn [negb].
    by rewrite range_insert_union, (right_id_L ∅ (∪)).
  - rewrite (bool_decide_eq_false_2 (_ /\ _)) by tauto.
    rewrite (bool_decide_eq_false_2 (_ = ∅)), (bool_decide_eq_true_2 (_ = "")) by done.
    eexists. split; [reflexivity|]. split; [done|]. split; [done|].
    unfold buildConfigMap. cbn [cm_Data].
    rewrite (bool_decide_eq_true_2 (_ = "")) by done. cbn [negb].
    by rewrite range_insert_union, (right_id_L ∅ (∪)).
  - rewrite (bool_decide_eq_false_2 (_ /\ _)) by tauto.
    rewrite (bool_decide_eq_false_2 (_ = ∅)), (bool_decide_eq_false_2 (_ = "")) by done.
    eexists. split; [reflexivity|]. split; [done|]. split; [done|].
    unfold buildConfigMap. cbn [cm_Data].
    rewrite (bool_decide_eq_false_2 (_ = "")) by done. cbn [negb].
    by rewrite range_insert_union, (right_id_L ∅ (∪)).
Qed.

Lemma configmap_holds_files_and_startup_config_witness :
  let config :=
    mkNodeConfig "fw1" "vyos/vyos:1.4" "vyos" ∅ ∅ ∅ [] None "set system host-name fw1"
      {[ "startup-config" := "shadowed"; "motd" := "hello" ]} in
  exists configMap,
    renderCommonResources sched_rev config (plainTopology "lab") "ns"
    = inr [mkResource "ConfigMap" (OConfigMap configMap) None] /\
    meta_Name (cm_Meta configMap) = Name config ++ "-config" /\
    meta_Namespace (cm_Meta configMap) = "ns" /\
    cm_Data configMap
    = Some (if bool_decide (StartupConfig config = "") then Files config
            else <["startup-config" := StartupConfig config]> (Files config)).
Proof.
  intros config.
  exact (configmap_holds_files_and_startup_config sched_rev config (plainTopology "lab")
           "ns" sched_rev_valid).
Defined.

(** ** Ownership *)

Lemma buildNodeConfig_topology (ExecutionModeEnv NetworkingModeEnv : string)
  (sched : schedule) (nodeName : string) (definition : NodeDefinition)
  (topology : Topology) :
  valid_schedule sched ->
  Labels (buildNodeConfig ExecutionModeEnv NetworkingModeEnv sched nodeName definition
            topology) !! LabelTopology
  = Some (default (topo_Name topology) (nd_Labels definition !! LabelTopology)).
Proof.
  intros Hsched. unfold buildNodeConfig.
  destruct (negb (bool_decide (ne_ExecutionMode _ = ""))),
           (negb (bool_decide (ne_CNI _ = ""))),
           (ne_NodeOverrides _ !! nodeName) as [override|];
    try destruct (negb (bool_decide (ov_ExecutionMode override = "")));
    cbv zeta; cbn [Labels]; rewrite range_insert_union by done;
    (destruct (nd_Labels definition !! LabelTopology) as [v|] eqn:Hl;
     [by rewrite (lookup_union_Some_l _ _ _ _ Hl)|rewrite lookup_union_r by done]);
    cbn [default from_option id];
    repeat (rewrite lookup_insert_ne by (by vm_compute));
    apply lookup_insert_eq.
Qed.

(** The Deployment, the Service and the ConfigMap rendered for a node
    carry the label of the topology, by which a later pass lists them
    as existing resources of the topology, unless the labels of the
    node definition give that label another value: the Deployment of
    such a node is not among the existing resources of any later pass. *)
Theorem rendered_resources_carry_the_topology_label
  (ExecutionModeEnv NetworkingModeEnv : string) (sched : schedule) (nodeName : string)
  (definition : NodeDefinition) (topology : Topology) (ns : string)
  (workloadType : WorkloadType) (resources : list Resource) (r : Resource) :
  valid_schedule sched ->
  renderNodeResources sched
    (buildNodeConfig ExecutionModeEnv NetworkingModeEnv sched nodeName definition topology)
    workloadType topology ns = inr resources ->
  r ∈ resources -> is_Some (existingKey (res_Object r)) ->
  obj_labels (res_Object r) ≫= (.!! LabelTopology)
  = Some (if bool_decide (res_Type r = "Deployment")
          then default (topo_Name topology) (nd_Labels definition !! LabelTopology)
          else topo_Name topology).
Proof.
  intros Hsched.
  pose proof (buildNodeConfig_topology ExecutionModeEnv NetworkingModeEnv sched nodeName
                definition topology Hsched) as Hlabel.
  set (config := buildNodeConfig _ _ _ _ _ _) in *.
  unfold renderNodeResources, renderContainerResources, renderVMResources,
    renderCommonResources.
  repeat case_bool_decide; try discriminate;
    destruct (_ || _); intros [= <-] Hr Hkey;
    repeat (apply elem_of_cons in Hr as [-> | Hr]);
    try (by apply elem_of_nil in Hr);
    try (by destruct Hkey);
    cbn [res_Object res_Type obj_labels mbind option_bind];
    try (rewrite bool_decide_eq_false_2 by done);
    try (rewrite bool_decide_eq_true_2 by done);
    unfold buildDeployment, buildService, buildConfigMap;
    cbn [dep_Meta svc_Meta cm_Meta meta_Labels mbind option_bind];
    try (rewrite lookup_insert_ne by (by vm_compute));
    try (rewrite range_insert_union, (right_id_L ∅ (∪)) by done; exact Hlabel);
    try apply lookup_insert_eq.
Qed.

Lemma rendered_resources_carry_the_topology_label_witness :
  let definition :=
    mkNodeDefinition "alpine:3" "linux" ∅ {[ LabelTopology := "another" ]} "" in
  let config :=
    buildNodeConfig "EXECUTION_MODE" "NETWORKING_MODE" sched_fwd "n1" definition
      (plainTopology "lab") in
  let r := mkResource "Deployment"
             (ODeployment (buildDeployment sched_fwd config (plainTopology "lab") "ns"))
             None in
  obj_labels (res_Object r) ≫= (.!! LabelTopology) = Some "another".
Proof.
  intros definition config r.
  apply (rendered_resources_carry_the_topology_label "EXECUTION_MODE" "NETWORKING_MODE"
           sched_fwd "n1" definition (plainTopology "lab") "ns"
           Common.WorkloadTypeContainer
           [r; mkResource "Service"
                 (OService (buildService config (plainTopology "lab") "ns"))
                 (Some ["n1"])] r).
  - exact sched_fwd_valid.
  - reflexivity.
  - by left.
  - by eexists.
Defined.

(** ** More of the classifier *)

(** [GetSupportedVMKinds]: the patterns of the image table that stand
    for a VM, in the order of the run. *)
Definition GetSupportedVMKinds (sched : schedule) (c : WorkloadClassifier) : list string :=
  foldl (fun kinds e => if e.2 : bool then (kinds ++ [e.1])%list else kinds) []
        (sched bool (vmImageMap c)).

(** [GetSupportedContainerKinds] *)
Definition GetSupportedContainerKinds (sched : schedule) (c : WorkloadClassifier)
  : list string :=
  foldl (fun kinds e => if negb e.2 then (kinds ++ [e.1])%list else kinds) []
        (sched bool (vmImageMap c)).

(** [strings.Join] *)
Definition Join (elems : list string) (sep : string) : string :=
  match elems with
  | [] => ""
  | first :: rest => foldl (fun acc s => acc ++ sep ++ s) first rest
  end.

(** [GetClassificationReasoning]; [fmt.Sprintf] with [%s] verbs is
    concatenation. *)
Definition GetClassificationReasoning (ToLower : string -> string) (sched : schedule)
  (c : WorkloadClassifier) (config : NodeConfig) : string :=
  let reasoning : list string := [] in
  let reasoning :=
    match Environment config !! EXECUTION_MODE with
    | Some execMode =>
        (reasoning ++ [("EXECUTION_MODE environment variable set to " ++ execMode)%string])%list
    | None => reasoning
    end in
  let reasoning :=
    if index_bool (forceVM c) (Name config)
    then (reasoning ++ ["forced to VM by classifier configuration"])%list
    else reasoning in
  let reasoning :=
    if index_bool (forceContainer c) (Name config)
    then (reasoning ++ ["forced to container by classifier configuration"])%list
    else reasoning in
  let imageLower := ToLower (Image config) in
  let reasoning :=
    match find (fun e : string * bool => Contains imageLower (ToLower e.1))
               (sched bool (vmImageMap c)) with
    | Some (imagePattern, isVM) =>
        if isVM
        then (reasoning ++ [("image contains VM pattern: " ++ imagePattern)%string])%list
        else (reasoning
              ++ [("image contains container pattern: " ++ imagePattern)%string])%list
    | None => reasoning
    end in
  let workloadType := classifyByKind ToLower (Kind config) in
  let reasoning :=
    if negb (bool_decide (workloadType = ""))
    then (reasoning ++ [("node kind " ++ Kind config ++ " indicates " ++ workloadType
                         ++ " workload")%string])%list
    else reasoning in
  let reasoning :=
    if bool_decide (length reasoning = 0)
    then (reasoning ++ ["no specific indicators found, defaulting to container"])%list
    else reasoning in
  Join reasoning "; ".

(** A pattern of the image table matches the image. *)
Definition matches (ToLower : string -> string) (c : WorkloadClassifier) (image : string)
  (pattern : string) (isVM : bool) : Prop :=
  vmImageMap c !! pattern = Some isVM /\
  Contains (ToLower image) (ToLower pattern) = true.

(** The workload type of a table entry. *)
Definition verdict (isVM : bool) : WorkloadType :=
  if isVM then WorkloadTypeVM else WorkloadTypeContainer.

(** The order that visits the key [first] before all others. *)
Definition sched_first (first : string) : schedule :=
  fun V m =>
    match m !! first with
    | Some v => (first, v) :: map_to_list (delete first m)
    | None => map_to_list m
    end.

Lemma sched_first_valid (first : string) : valid_schedule (sched_first first).
Proof.
  intros V m. unfold sched_first. destruct (m !! first) as [v|] eqn:Hm; [|done].
  by apply map_to_list_delete.
Qed.

Lemma find_Some_elem {A : Type} (f : A -> bool) (l : list A) (x : A) :
  find f l = Some x -> x ∈ l /\ f x = true.
Proof.
  induction l as [|y l IH]; cbn; [done|].
  destruct (f y) eqn:Hy.
  - intros [= ->]. split; [by left|done].
  - intros [Hin Hx]%IH. split; [by right|done].
Qed.

Lemma find_is_Some {A : Type} (f : A -> bool) (l : list A) (x : A) :
  x ∈ l -> f x = true -> is_Some (find f l).
Proof.
  induction 1 as [y l|y z l _ IH]; cbn; intros Hx.
  - rewrite Hx. eauto.
  - destruct (f z); eauto.
Qed.

(** The verdict of the image table and the order of iteration.  When
    patterns of the table match the image, one of them decides, namely
    the first that the run visits: the verdict is the same in every run
    if the matching patterns agree, and when two of them disagree there
    is a run for either verdict. *)
Theorem table_verdict_follows_iteration_order (ToLower : string -> string)
  (c : WorkloadClassifier) (image : string) :
  (forall (sched : schedule) (isVM : bool),
     valid_schedule sched ->
     (exists pattern, matches ToLower c image pattern isVM) ->
     (forall pattern isVM', matches ToLower c image pattern isVM' -> isVM' = isVM) ->
     classifyByImage ToLower sched c image = verdict isVM) /\
  (forall pattern1 pattern2,
     matches ToLower c image pattern1 true ->
     matches ToLower c image pattern2 false ->
     exists sched1 sched2,
       valid_schedule sched1 /\ valid_schedule sched2 /\
       classifyByImage ToLower sched1 c image = WorkloadTypeVM /\
       classifyByImage ToLower sched2 c image = WorkloadTypeContainer).
Proof.
  split.
  - intros sched isVM Hsched [pattern [Hlook Hmatch]] Hagree.
    unfold classifyByImage. cbv zeta.
    destruct (find _ (sched bool (vmImageMap c))) as [[p v]|] eqn:Hfind.
    + apply find_Some_elem in Hfind as [Hin Hp]. cbn in Hp.
      apply (valid_schedule_elem sched (vmImageMap c) p v Hsched) in Hin.
      by rewrite (Hagree p v (conj Hin Hp)).
    + destruct (find_is_Some
                  (fun e : string * bool => Contains (ToLower image) (ToLower e.1))
                  (sched bool (vmImageMap c)) (pattern, isVM)) as [x Hx];
        [by apply (valid_schedule_elem sched (vmImageMap c) pattern isVM Hsched)
        |done|congruence].
  - intros pattern1 pattern2 [Hl1 Hm1] [Hl2 Hm2].
    exists (sched_first pattern1), (sched_first pattern2).
    split; [apply sched_first_valid|]. split; [apply sched_first_valid|].
    unfold classifyByImage, sched_first. rewrite Hl1, Hl2. cbn [find fst].
    by rewrite Hm1, Hm2.
Qed.

(** An image that holds a VM pattern and a container pattern of the
    default table: either verdict is possible. *)
Lemma table_verdict_follows_iteration_order_witness :
  exists sched1 sched2,
    valid_schedule sched1 /\ valid_schedule sched2 /\
    classifyByImage ascii_ToLower sched1 NewWorkloadClassifier "vyos/vyos-alpine"
    = WorkloadTypeVM /\
    classifyByImage ascii_ToLower sched2 NewWorkloadClassifier "vyos/vyos-alpine"
    = WorkloadTypeContainer.
Proof.
  apply (proj2 (table_verdict_follows_iteration_order ascii_ToLower NewWorkloadClassifier
                  "vyos/vyos-alpine") "vyos/vyos" "alpine").
  - split; vm_compute; reflexivity.
  - split; vm_compute; reflexivity.
Defined.

Lemma supported_kinds_filter (l : list (string * bool)) (b : bool) :
  forall acc,
    foldl (fun kinds e => if (if b then e.2 else negb e.2) : bool
                          then (kinds ++ [e.1])%list else kinds) acc l
    = (acc ++ (filter (fun e => e.2 = b) l).*1)%list.
Proof.
  induction l as [|[p v] l IH]; intros acc; cbn [foldl].
  - by rewrite filter_nil, app_nil_r.
  - rewrite IH, filter_cons. cbn [fst snd].
    destruct b, v; cbn; rewrite ?decide_True, ?decide_False by done;
      by rewrite <- ?app_assoc.
Qed.

(** The two listings split the image table.  A pattern is listed by
    [GetSupportedVMKinds] exactly when the table marks it as a VM, by
    [GetSupportedContainerKinds] exactly when the table marks it as a
    container, and the two lists together hold every pattern of the
    table once. *)
Theorem supported_kinds_split_the_table (sched : schedule) (c : WorkloadClassifier) :
  valid_schedule sched ->
  (forall p, p ∈ GetSupportedVMKinds sched c <-> vmImageMap c !! p = Some true) /\
  (forall p, p ∈ GetSupportedContainerKinds sched c <-> vmImageMap c !! p = Some false) /\
  (GetSupportedVMKinds sched c ++ GetSupportedContainerKinds sched c)%list
  ≡ₚ (map_to_list (vmImageMap c)).*1.
Proof.
  intros Hsched.
  assert (HVM : GetSupportedVMKinds sched c
                = (filter (fun e => e.2 = true) (sched bool (vmImageMap c))).*1).
  { exact (supported_kinds_filter (sched bool (vmImageMap c)) true []). }
  assert (HCt : GetSupportedContainerKinds sched c
                = (filter (fun e => e.2 = false) (sched bool (vmImageMap c))).*1).
  { exact (supported_kinds_filter (sched bool (vmImageMap c)) false []). }
  assert (Hin : forall b p,
            p ∈ (filter (fun e : string * bool => e.2 = b) (sched bool (vmImageMap c))).*1
            <-> vmImageMap c !! p = Some b).
  { intros b p. rewrite list_elem_of_fmap. split.
    - intros ([p' v] & -> & [Hv Hin]%list_elem_of_filter). cbn in Hv. subst v.
      by apply (valid_schedule_elem sched (vmImageMap c) p' b Hsched).
    - intros Hl. exists (p, b). split; [done|]. apply list_elem_of_filter.
      split; [done|].
      by apply (valid_schedule_elem sched (vmImageMap c) p b Hsched). }
  rewrite HVM, HCt. split; [apply Hin|]. split; [apply Hin|].
  rewrite <- fmap_app, <- (Hsched bool (vmImageMap c)).
  apply fmap_Permutation. clear HVM HCt Hin.
  induction (sched bool (vmImageMap c)) as [|[p v] l IH]; [done|].
  rewrite !filter_cons. cbn [snd].
  destruct v; rewrite ?decide_True, ?decide_False by done; cbn.
  - apply perm_skip, IH.
  - etrans; [symmetry; apply Permutation_middle|]. apply perm_skip, IH.
Qed.

Lemma supported_kinds_split_the_table_witness :
  (forall p, p ∈ GetSupportedVMKinds sched_rev NewWorkloadClassifier
             <-> vmImageMap NewWorkloadClassifier !! p = Some true) /\
  (forall p, p ∈ GetSupportedContainerKinds sched_rev NewWorkloadClassifier
             <-> vmImageMap NewWorkloadClassifier !! p = Some false) /\
  (GetSupportedVMKinds sched_rev NewWorkloadClassifier
   ++ GetSupportedContainerKinds sched_rev NewWorkloadClassifier)%list
  ≡ₚ (map_to_list (vmImageMap NewWorkloadClassifier)).*1.
Proof.
  exact (supported_kinds_split_the_table sched_rev NewWorkloadClassifier sched_rev_valid).
Defined.

(** The reasoning and the verdict.  [GetClassificationReasoning] looks
    at the directive, the force registries, the image table and the
    kind, and not at the indicators in the image name by which
    [DetermineWorkloadType] also classifies: for a node that only an
    indicator makes a VM, the verdict is VM and the reasoning is that
    nothing was found and the node defaults to a container. *)
Theorem reasoning_can_contradict_the_verdict (ToLower : string -> string)
  (sched : schedule) (c : WorkloadClassifier) (config : NodeConfig) :
  valid_schedule sched ->
  Environment config !! EXECUTION_MODE = None ->
  index_bool (forceVM c) (Name config) = false ->
  index_bool (forceContainer c) (Name config) = false ->
  (forall pattern isVM, ~ matches ToLower c (Image config) pattern isVM) ->
  classifyByKind ToLower (Kind config) = "" ->
  existsb (fun indicator => Contains (ToLower (Image config)) indicator) vmIndicators
  = true ->
  DetermineWorkloadType ToLower sched c config = WorkloadTypeVM /\
  GetClassificationReasoning ToLower sched c config
  = "no specific indicators found, defaulting to container".
Proof.
  intros Hsched Henv HVM HCt Hnone Hkind Hind.
  assert (Hfind : find (fun e : string * bool =>
                          Contains (ToLower (Image config)) (ToLower e.1))
                       (sched bool (vmImageMap c)) = None).
  { destruct (find _ _) as [[p v]|] eqn:Hfind; [|done].
    apply find_Some_elem in Hfind as [Hin Hp].
    apply (valid_schedule_elem sched (vmImageMap c) p v Hsched) in Hin.
    by destruct (Hnone p v). }
  split.
  - unfold DetermineWorkloadType, classifyWithoutDirective, classifyByImage.
    rewrite Henv, HVM, HCt. cbv zeta. by rewrite Hfind, Hind.
  - unfold GetClassificationReasoning. cbv zeta.
    by rewrite Henv, HVM, HCt, Hfind, Hkind.
Qed.

Lemma reasoning_can_contradict_the_verdict_witness :
  let config := testNode "r1" "registry.local/qemu-router:1" "router" ∅ in
  DetermineWorkloadType ascii_ToLower sched_fwd NewWorkloadClassifier config
  = WorkloadTypeVM /\
  GetClassificationReasoning ascii_ToLower sched_fwd NewWorkloadClassifier config
  = "no specific indicators found, defaulting to container".
Proof.
  intros config.
  apply (reasoning_can_contradict_the_verdict ascii_ToLower sched_fwd
           NewWorkloadClassifier config).
  - exact sched_fwd_valid.
  - reflexivity.
  - reflexivity.
  - reflexivity.
  - intros pattern isVM [Hlook Hmatch].
    apply elem_of_map_to_list in Hlook.
    assert (Hall : forallb (fun e : string * bool =>
                     negb (Contains (ascii_ToLower (Image config)) (ascii_ToLower e.1)))
                     (map_to_list (vmImageMap NewWorkloadClassifier)) = true)
      by (vm_compute; reflexivity).
    rewrite forallb_forall in Hall.
    apply list_elem_of_In, Hall in Hlook. cbn [fst] in Hlook.
    rewrite Hmatch in Hlook. discriminate Hlook.
  - vm_compute. reflexivity.
  - vm_compute. reflexivity.
Defined.

(** ** Package [common]: the result of an executor and the manager *)

Module Execution.

(** [common.ExecutionResult] *)
Record ExecutionResult : Type := mkExecutionResult {
  er_WorkloadType : WorkloadType;
  er_Name : string;
  er_Namespace : string;
  er_Status : string;
  er_Message : string;
  er_Ready : bool;
}.

(** What a method of an executor leaves behind: its results and the
    cluster. *)
Definition Call (A : Type) : Type := (GoError + A) * Cluster.

(** [common.Executor], as far as the manager uses it; the [nil]
    interface value is [None]. *)
Record Executor : Type := mkExecutor {
  exec_Execute : NodeConfig -> Cluster -> Call ExecutionResult;
}.

(** [common.Manager]: the fields that its methods read. *)
Record Manager : Type := mkManager {
  executors : gmap string (option Executor);
  defaultExecutionMode : ExecutionMode;
}.

Definition NewManager (executionMode : ExecutionMode) : Manager :=
  mkManager ∅ executionMode.

Definition RegisterExecutor (m : Manager) (workloadType : WorkloadType)
  (executor : option Executor) : Manager :=
  mkManager (<[workloadType := executor]> (executors m)) (defaultExecutionMode m).

Definition vmImages : list string :=
  [ "cisco/csr1000v"; "arista/veos"; "juniper/vmx";
    "vyos/vyos"; "pfsense/pfsense"; "opnsense/opnsense";
    "mikrotik/routeros"; "fortinet/fortigate" ].

Section manager.
Context (ToLower : string -> string).

(** [Manager.determineWorkloadType] *)
Definition determineWorkloadType (config : NodeConfig) : WorkloadType :=
  if existsb (fun vmImage => Contains (ToLower (Image config)) vmImage) vmImages
  then Common.WorkloadTypeVM
  else Common.WorkloadTypeContainer.

(** [Manager.Execute]: an executor that is registered as [nil] is found
    and is not replaced. *)
Definition Execute (m : Manager) (config : NodeConfig) (c : Cluster)
  : Call ExecutionResult :=
  let workloadType := determineWorkloadType config in
  let executor :=
    match executors m !! workloadType with
    | Some executor => executor
    | None => default None (executors m !! Common.WorkloadTypeContainer)
    end in
  match executor with
  | None =>
      (inl (ErrNew ("no executor available for workload type " ++ workloadType)), c)
  | Some executor => exec_Execute executor config c
  end.

End manager.

End Execution.

(** ** Package [container]: the container executor *)

Module ContainerExecutor.
Import Execution.

Section executor.
Context (faults : Faults) (sched : schedule).
(** The [namespace] field of the executor. *)
Context (namespace : string).

Definition renderDeployment (config : NodeConfig) : Deployment :=
  let labels : gmap string string :=
    range_insert sched (Labels config)
      (list_to_map
         [ ("app", Name config);
           (LabelTopologyNode, Name config);
           ("clabernetes/execution-mode", "native");
           ("clabernetes/workload-type", "container") ]) in
  let annotations : gmap string string :=
    range_insert sched (Annotations config)
      (list_to_map
         [ ("clabernetes/node-kind", Kind config);
           ("clabernetes/image", Image config) ]) in
  let env :=
    ([ mkEnvVar "NODE_NAME" (Name config);
       mkEnvVar "NODE_KIND" (Kind config);
       mkEnvVar "EXECUTION_MODE" "native" ]
     ++ map (fun kv : string * string => mkEnvVar kv.1 kv.2)
            (sched string (Environment config)))%list in
  let container :=
    mkContainer (Name config) (Image config) (Some env)
      (Some [ mkContainerPort "ssh" 22%Z ProtocolTCP;
              mkContainerPort "netconf" 830%Z ProtocolTCP;
              mkContainerPort "gnmi" 57400%Z ProtocolTCP ])
      (Some (mkSecurityContext
               (Some (mkCapabilities (Some ["NET_ADMIN"; "SYS_ADMIN"])))))
      PullIfNotPresent
      (match Resources config with
       | Some resources => resources
       | None => zeroResourceRequirements
       end) in
  let replicas : Z := 1%Z in
  mkDeployment
    (mkObjectMeta (Name config) namespace (Some labels) (Some annotations) "")
    (mkDeploymentSpec
       (Some replicas)
       (Some (mkLabelSelector (Some {[ "app" := Name config ]})))
       (mkPodTemplateSpec (Some labels) (Some annotations)
          (mkPodSpec (Some [container]) RestartPolicyAlways DNSClusterFirst))
       (mkDeploymentStrategy "")).

Definition renderService (config : NodeConfig) : Service :=
  let labels : gmap string string :=
    list_to_map [ ("app", Name config); (LabelTopologyNode, Name config) ] in
  mkService
    (mkObjectMeta (Name config) namespace (Some labels) None "")
    (mkServiceSpec (Some {[ "app" := Name config ]})
       (Some [ mkServicePort "ssh" 22%Z ProtocolTCP;
               mkServicePort "netconf" 830%Z ProtocolTCP;
               mkServicePort "gnmi" 57400%Z ProtocolTCP ])
       ServiceTypeClusterIP "").

(** [ContainerExecutor.Execute]: the failure to create the Service is
    logged and not returned.  The API server answers a creation with
    the object as it has stored it. *)
Definition Execute (config : NodeConfig) (c : Cluster) : Call ExecutionResult :=
  let deployment := renderDeployment config in
  match api_create faults c KDeployment namespace (meta_Name (dep_Meta deployment))
          (ODeployment deployment) with
  | inl err =>
      (inl (ErrWrap ("failed to create deployment for node " ++ Name config ++ ": ") err),
       c)
  | inr c =>
      let createdDeployment := deployment in
      let service := renderService config in
      let c :=
        match api_create faults c KService namespace (meta_Name (svc_Meta service))
                (OService service) with
        | inl _ => c
        | inr c' => c'
        end in
      (inr (mkExecutionResult Common.WorkloadTypeContainer
              (meta_Name (dep_Meta createdDeployment))
              (meta_Namespace (dep_Meta createdDeployment))
              "Creating" "Container deployment created successfully" false),
       c)
  end.

(** [ContainerExecutor.Delete]: the failure to delete the Service is
    logged and not returned. *)
Definition Delete (name ns : string) (c : Cluster) : option GoError * Cluster :=
  match api_delete faults c KDeployment ns name with
  | inl err => (Some (ErrWrap ("failed to delete deployment " ++ name ++ ": ") err), c)
  | inr c =>
      match api_delete faults c KService ns name with
      | inl _ => (None, c)
      | inr c' => (None, c')
      end
  end.

End executor.

End ContainerExecutor.

(** ** Package [vm]: the methods of the KubeVirt executor on the cluster *)

Module VMExecutor.
Import Execution.

(** [unstructured.NestedBool] and [unstructured.NestedString] with
    their [found] result: the value, when the field is there and has the
    type. *)
Definition NestedBool (obj : gmap string UValue) (fields : list string) : option bool :=
  match nestedField (UMap obj) fields with
  | Some (UBool b) => Some b
  | _ => None
  end.

Definition NestedString (obj : gmap string UValue) (fields : list string)
  : option string :=
  match nestedField (UMap obj) fields with
  | Some (UString s) => Some s
  | _ => None
  end.

(** The ports of [renderService], by node kind. *)
Definition servicePorts (kind : string) : list ServicePort :=
  let ports := [ mkServicePort "ssh" 22%Z ProtocolTCP ] in
  if bool_decide (kind = "vyos")
  then (ports ++ [ mkServicePort "api" 443%Z ProtocolTCP ])%list
  else if bool_decide (kind = "pfsense") || bool_decide (kind = "opnsense")
  then ((ports ++ [ mkServicePort "web" 80%Z ProtocolTCP ])
        ++ [ mkServicePort "https" 443%Z ProtocolTCP ])%list
  else ports.

Section executor.
Context (faults : Faults).

Definition renderService (namespace : string) (config : NodeConfig) : Service :=
  let labels : gmap string string :=
    list_to_map [ ("app", Name config); (LabelTopologyNode, Name config) ] in
  mkService
    (mkObjectMeta (Name config) namespace (Some labels) None "")
    (mkServiceSpec (Some {[ "kubevirt.io/vm" := Name config ]})
       (Some (servicePorts (Kind config)))
       ServiceTypeClusterIP "").

(** [VMExecutor.Delete]: the failure to delete the Service is logged
    and not returned. *)
Definition Delete (name ns : string) (c : Cluster) : option GoError * Cluster :=
  match api_delete faults c KVirtualMachine ns name with
  | inl err => (Some (ErrWrap ("failed to delete VM " ++ name ++ ": ") err), c)
  | inr c =>
      match api_delete faults c KService ns name with
      | inl _ => (None, c)
      | inr c' => (None, c')
      end
  end.

(** [VMExecutor.GetStatus].  The [ready] that the inner [if] declares
    is another variable than the [ready] of the result. *)
Definition GetStatus (name ns : string) (c : Cluster)
  : Outcome (GoError + ExecutionResult) :=
  match getVirtualMachine faults c ns name with
  | inl err => Ret (inl (ErrWrap ("failed to get VM " ++ name ++ ": ") err))
  | inr vm =>
      let status := "Creating" in
      let ready := false in
      let message := "Virtual machine is starting" in
      match NestedMap (Object vm) ["status"] with
      | Panic why => Panic why
      | Ret found =>
          let '(status, message) :=
            match found with
            | Some vmStatus =>
                match NestedBool vmStatus ["ready"] with
                | Some true => ("Running", "Virtual machine is running")
                | _ =>
                    match NestedString vmStatus ["printableStatus"] with
                    | Some printableStatus =>
                        (printableStatus,
                         "Virtual machine status: " ++ printableStatus)
                    | None => (status, message)
                    end
                end
            | None => (status, message)
            end in
          Ret (inr (mkExecutionResult Common.WorkloadTypeVM (GetName vm) (GetNamespace vm)
                      status message ready))
      end
  end.

End executor.

End VMExecutor.

Import Execution.

(** ** The executors *)

Section executor_facts.
Context (faults : Faults).

(** What a successful [Execute] has found and done. *)
Lemma Execute_ok (sched : schedule) (ns : string) (config : NodeConfig)
  (c c1 : Cluster) (r : ExecutionResult) :
  ContainerExecutor.Execute faults sched ns config c = (inr r, c1) ->
  let dep := (KDeployment, ns, Name config) in
  let svc := (KService, ns, Name config) in
  let c0 := <[dep := ODeployment (ContainerExecutor.renderDeployment sched ns config)]> c in
  faults VCreate KDeployment ns (Name config) = false /\
  c !! dep = None /\
  r = mkExecutionResult Common.WorkloadTypeContainer (Name config) ns "Creating"
        "Container deployment created successfully" false /\
  (c1 = c0 \/
   (faults VCreate KService ns (Name config) = false /\ c !! svc = None /\
    c1 = <[svc := OService (ContainerExecutor.renderService ns config)]> c0)).
Proof.
  unfold ContainerExecutor.Execute, api_create. cbn.
  destruct (faults VCreate KDeployment ns (Name config)); [done|].
  destruct (c !! (KDeployment, ns, Name config)) eqn:Hdep; [done|].
  destruct (faults VCreate KService ns (Name config)).
  { intros [= <- <-]. auto. }
  rewrite lookup_insert_ne by done.
  destruct (c !! (KService, ns, Name config)) eqn:Hsvc.
  - intros [= <- <-]. auto.
  - intros [= <- <-]. do 3 (split; [done|]). right. auto.
Qed.

(** A workload that [Execute] has created and [Delete] removes is gone
    without a trace: when the namespace held no Service of the node's
    name before and the two deletions are served, the cluster is again
    the one before [Execute], whether or not [Execute] could create the
    Service. *)
Theorem execute_then_delete_restores_the_cluster (sched : schedule) (ns : string)
  (config : NodeConfig) (c c1 : Cluster) (r : ExecutionResult) :
  c !! (KService, ns, Name config) = None ->
  faults VDelete KDeployment ns (Name config) = false ->
  faults VDelete KService ns (Name config) = false ->
  ContainerExecutor.Execute faults sched ns config c = (inr r, c1) ->
  ContainerExecutor.Delete faults (er_Name r) (er_Namespace r) c1 = (None, c).
Proof.
  intros Hsvc HfD HfS Hex.
  destruct (Execute_ok sched ns config c c1 r Hex) as (_ & Hdep & -> & Hc1).
  unfold ContainerExecutor.Delete, api_delete. cbn. rewrite HfD, HfS.
  destruct Hc1 as [->|(_ & _ & ->)].
  - rewrite lookup_insert_eq, delete_insert_id by done. by rewrite Hsvc.
  - rewrite lookup_insert_ne, lookup_insert_eq by done.
    rewrite delete_insert_ne, delete_insert_id by done.
    rewrite lookup_insert_eq. by rewrite delete_insert_id.
Qed.

(** [Execute] is a creation and not a reconciliation: after it has
    succeeded once, it fails for the same node with the API server's
    refusal of the second Deployment, under any iteration order, and
    writes nothing. *)
Theorem execute_is_not_repeatable (sched sched' : schedule) (ns : string)
  (config : NodeConfig) (c c1 : Cluster) (r : ExecutionResult) :
  ContainerExecutor.Execute faults sched ns config c = (inr r, c1) ->
  ContainerExecutor.Execute faults sched' ns config c1
  = (inl (ErrWrap ("failed to create deployment for node " ++ Name config ++ ": ")
            ErrAlreadyExists),
     c1).
Proof.
  intros Hex.
  destruct (Execute_ok sched ns config c c1 r Hex) as (Hf & _ & _ & Hc1).
  assert (is_Some (c1 !! (KDeployment, ns, Name config))) as [o Ho].
  { destruct Hc1 as [->|(_ & _ & ->)].
    - rewrite lookup_insert_eq. by eexists.
    - rewrite lookup_insert_ne, lookup_insert_eq by done. by eexists. }
  unfold ContainerExecutor.Execute, api_create. cbn. by rewrite Hf, Ho.
Qed.

(** A Service that [Execute] could not create is never created: when
    the API server refuses the Service, [Execute] reports the success
    it reports when it has created both objects, and every later
    [Execute] for the node, whatever the API server then does, fails
    and leaves the cluster without the Service. *)
Theorem swallowed_service_failure_is_never_repaired (sched : schedule) (ns : string)
  (config : NodeConfig) (c : Cluster) :
  faults VCreate KDeployment ns (Name config) = false ->
  c !! (KDeployment, ns, Name config) = None ->
  c !! (KService, ns, Name config) = None ->
  faults VCreate KService ns (Name config) = true ->
  exists c1,
    ContainerExecutor.Execute faults sched ns config c
    = (inr (mkExecutionResult Common.WorkloadTypeContainer (Name config) ns "Creating"
              "Container deployment created successfully" false),
       c1) /\
    c1 !! (KService, ns, Name config) = None /\
    forall (faults' : Faults) (sched' : schedule),
      exists err, ContainerExecutor.Execute faults' sched' ns config c1 = (inl err, c1).
Proof.
  intros Hf Hdep Hsvc HfS. eexists. split; [|split].
  - unfold ContainerExecutor.Execute, api_create. cbn. by rewrite Hf, Hdep, HfS.
  - by rewrite lookup_insert_ne.
  - intros faults' sched'. unfold ContainerExecutor.Execute, api_create. cbn.
    rewrite lookup_insert_eq.
    destruct (faults' VCreate KDeployment ns (Name config)); by eexists.
Qed.

(** [Delete] of either executor succeeds once: the second call for the
    same workload finds it gone and returns the API server's NotFound,
    where the reconciler's [deleteResource] takes NotFound for done. *)
Theorem executor_delete_is_not_repeatable (vm : bool) (name ns : string)
  (c c1 : Cluster) :
  (if vm then VMExecutor.Delete else ContainerExecutor.Delete) faults name ns c
  = (None, c1) ->
  (if vm then VMExecutor.Delete else ContainerExecutor.Delete) faults name ns c1
  = (Some (ErrWrap ("failed to delete " ++ (if vm then "VM" else "deployment")
                    ++ " " ++ name ++ ": ") ErrNotFound),
     c1).
Proof.
  set (kind := if vm then KVirtualMachine else KDeployment).
  assert (kind <> KService) as Hkind by (by destruct vm).
  intros Hdel.
  assert (faults VDelete kind ns name = false /\ c1 !! (kind, ns, name) = None)
    as [Hf Hgone].
  { destruct vm; unfold VMExecutor.Delete, ContainerExecutor.Delete, api_delete in Hdel;
      fold kind in Hdel;
      (destruct (faults VDelete kind ns name); [done|]);
      (destruct (c !! (kind, ns, name)); [|done]);
      (split; [done|]);
      (destruct (faults VDelete KService ns name);
         [injection Hdel as <-; apply lookup_delete_eq|]);
      (destruct (delete (kind, ns, name) c !! (KService, ns, name));
         injection Hdel as <-;
         [rewrite lookup_delete_ne by congruence|]; apply lookup_delete_eq). }
  destruct vm; unfold VMExecutor.Delete, ContainerExecutor.Delete, api_delete;
    fold kind; by rewrite Hf, Hgone.
Qed.

(** [GetStatus] of the KubeVirt executor never reports a workload as
    ready: the result's [Ready] is false also for a VirtualMachine whose
    status says that it is ready, which the result's [Status] calls
    Running. *)
Theorem vm_status_is_never_ready (name ns : string) (c : Cluster)
  (r : ExecutionResult) :
  VMExecutor.GetStatus faults name ns c = Ret (inr r) ->
  er_Ready r = false /\
  forall vm,
    c !! (KVirtualMachine, ns, name) = Some (OUnstructured vm) ->
    manifestField vm ["status"; "ready"] = Some (UBool true) ->
    er_Status r = "Running" /\ er_Message r = "Virtual machine is running".
Proof.
  unfold VMExecutor.GetStatus, getVirtualMachine, api_get.
  destruct (faults VGet KVirtualMachine ns name); [done|].
  destruct (c !! (KVirtualMachine, ns, name)) as [[| | |vm|]|]; try done.
  assert (forall vm' : Unstructured, Some (OUnstructured vm) = Some (OUnstructured vm') ->
            manifestField vm' ["status"; "ready"]
            = (Object vm !! "status") ≫= (fun s => nestedField s ["ready"])) as Hfield.
  { intros vm' [= <-]. unfold manifestField. cbn [nestedField].
    by destruct (Object vm !! "status"). }
  unfold NestedMap, VMExecutor.NestedBool. cbn [nestedField].
  destruct (Object vm !! "status") as [[| | |vmStatus| |]|] eqn:Hstatus;
    try (intros [= <-]; split; [done|]; intros vm' Hvm; by rewrite (Hfield vm' Hvm)).
  destruct (json_typed (UMap vmStatus)); [|done].
  destruct (vmStatus !! "ready") as [[|[]| | | |]|] eqn:Hready;
    try (destruct (VMExecutor.NestedString vmStatus ["printableStatus"]);
         intros [= <-]; (split; [done|]); intros vm' Hvm; rewrite (Hfield vm' Hvm);
         cbn; rewrite Hready; try intros [=]).
  all: done.
Qed.

End executor_facts.

(** ** The manager *)

Section manager_facts.
Context (ToLower : string -> string).

Lemma determineWorkloadType_cases (config : NodeConfig) :
  determineWorkloadType ToLower config = Common.WorkloadTypeVM \/
  determineWorkloadType ToLower config = Common.WorkloadTypeContainer.
Proof. unfold determineWorkloadType. destruct (existsb _ _); auto. Qed.

(** A manager without an executor for virtual machines runs every node
    with the container executor, also the nodes whose image it takes
    for the image of a virtual machine. *)
Theorem manager_falls_back_to_the_container_executor (m : Manager) (e : Executor)
  (config : NodeConfig) (c : Cluster) :
  executors m !! Common.WorkloadTypeVM = None ->
  executors m !! Common.WorkloadTypeContainer = Some (Some e) ->
  Execution.Execute ToLower m config c = exec_Execute e config c.
Proof.
  intros Hvm Hct. unfold Execution.Execute.
  destruct (determineWorkloadType_cases config) as [-> | ->].
  - by rewrite Hvm, Hct.
  - by rewrite Hct.
Qed.

(** Registering [nil] is not the same as registering nothing: for a
    node that the manager takes for a virtual machine, a manager that
    has the container executor alone runs it with that executor, and
    the same manager after [RegisterExecutor] of a [nil] executor for
    virtual machines fails, with the cluster untouched. *)
Theorem registering_nil_disables_the_fallback (m : Manager) (e : Executor)
  (config : NodeConfig) (c : Cluster) :
  determineWorkloadType ToLower config = Common.WorkloadTypeVM ->
  executors m !! Common.WorkloadTypeVM = None ->
  executors m !! Common.WorkloadTypeContainer = Some (Some e) ->
  Execution.Execute ToLower m config c = exec_Execute e config c /\
  Execution.Execute ToLower (RegisterExecutor m Common.WorkloadTypeVM None) config c
  = (inl (ErrNew "no executor available for workload type vm"), c).
Proof.
  intros Hwt Hvm Hct. unfold Execution.Execute. rewrite Hwt. split.
  - by rewrite Hvm, Hct.
  - cbn [executors RegisterExecutor]. by rewrite lookup_insert_eq.
Qed.

End manager_facts.

(** ** What the executors render *)

(** The name of an entry of a list of the manifest. *)
Definition entryName (v : UValue) : option string :=
  match nestedField v ["name"] with
  | Some (UString s) => Some s
  | _ => None
  end.

(** The names of the interfaces of a node's virtual machine. *)
Definition interfaceNames (config : NodeConfig) : list string :=
  "default" :: imap (fun i _ => VMExec.netName i) (Interfaces config).

Lemma imap_const_seq {A B : Type} (g : nat -> B) (l : list A) :
  imap (fun i _ => g i) l = g <$> seq 0 (length l).
Proof.
  revert g. induction l as [|x l IH]; intros g; [done|].
  cbn [imap length seq fmap list_fmap]. f_equal.
  rewrite <- fmap_S_seq, <- list_fmap_compose. apply (IH (g ∘ S)).
Qed.

Lemma netName_inj : Inj (=) (=) VMExec.netName.
Proof.
  intros i j Heq. unfold VMExec.netName in Heq. cbv [String.append] in Heq.
  injection Heq as Heq. apply (inj pretty) in Heq. lia.
Qed.

Lemma interfaceNames_NoDup (config : NodeConfig) : NoDup (interfaceNames config).
Proof.
  unfold interfaceNames. rewrite imap_const_seq. apply NoDup_cons. split.
  - intros Hin. apply list_elem_of_fmap in Hin as (i & Heq & _).
    unfold VMExec.netName in Heq. cbv [String.append] in Heq. discriminate Heq.
  - apply (NoDup_fmap_2 _ (Inj0 := netName_inj)), NoDup_seq.
Qed.

(** Every interface of the executor's VirtualMachine has its network:
    the manifest lists one interface and one network more than the node
    has interfaces, the two lists carry the same names in the same
    order, and no name occurs twice. *)
Theorem vm_interfaces_pair_with_networks (sched : schedule) (namespace : string)
  (config : NodeConfig) :
  let vm := mkUnstructured (VMExec.renderVirtualMachine sched namespace config) in
  exists interfaces networks,
    manifestField vm ["spec"; "template"; "spec"; "domain"; "devices"; "interfaces"]
    = Some (USlice interfaces) /\
    manifestField vm ["spec"; "template"; "spec"; "networks"] = Some (USlice networks) /\
    entryName <$> interfaces = Some <$> interfaceNames config /\
    entryName <$> networks = Some <$> interfaceNames config /\
    length (interfaceNames config) = S (length (Interfaces config)) /\
    NoDup (interfaceNames config).
Proof.
  intros vm. exists (VMExec.vmInterfaces config), (VMExec.vmNetworks config).
  unfold vm, VMExec.renderVirtualMachine.
  destruct (VMExec.vmRequests config) as [memory cpu].
  do 2 (split; [reflexivity|]).
  unfold VMExec.vmInterfaces, VMExec.vmNetworks, interfaceNames.
  cbn [fmap list_fmap length]. rewrite !fmap_imap, length_imap.
  do 3 (split; [reflexivity|]). exact (interfaceNames_NoDup config).
Qed.

Lemma range_insert_lookup (sched : schedule) (src dst : gmap string string)
  (k v : string) :
  valid_schedule sched -> dst !! k = Some v ->
  range_insert sched src dst !! k = Some (default v (src !! k)).
Proof.
  intros Hsched Hdst. rewrite range_insert_union by done.
  destruct (src !! k) as [w|] eqn:Hsrc.
  - by rewrite (lookup_union_Some_l _ _ _ _ Hsrc).
  - by rewrite lookup_union_r.
Qed.

(** The selectors of the container executor.  The Deployment and the
    Service select the pods by the label [app] with the name of the
    node, and the pods carry the node's own labels over the executor's:
    a node whose labels give [app] another value gets a Deployment
    whose selector does not match its own pod template, and a Service
    without endpoints. *)
Theorem executor_selectors_match_unless_app_is_relabelled (sched : schedule)
  (namespace : string) (config : NodeConfig) :
  valid_schedule sched ->
  let deployment := ContainerExecutor.renderDeployment sched namespace config in
  let service := ContainerExecutor.renderService namespace config in
  let selector : gmap string string := {[ "app" := Name config ]} in
  Selector (dep_Spec deployment) = Some (mkLabelSelector (Some selector)) /\
  svc_Selector (svc_Spec service) = Some selector /\
  exists labels,
    tpl_Labels (Template (dep_Spec deployment)) = Some labels /\
    meta_Labels (dep_Meta deployment) = Some labels /\
    (selector ⊆ labels <-> default (Name config) (Labels config !! "app") = Name config).
Proof.
  intros Hsched deployment service selector.
  do 2 (split; [reflexivity|]). eexists. do 2 (split; [reflexivity|]).
  unfold selector. rewrite map_singleton_subseteq_l.
  rewrite (range_insert_lookup sched _ _ "app" (Name config) Hsched)
    by apply lookup_insert_eq.
  split; congruence.
Qed.

(** The selector of the Service of a virtual machine.  The Service
    selects by the label [kubevirt.io/vm] with the name of the node,
    and the template of the VirtualMachine carries the node's own
    labels over the executor's: the Service finds the virtual machine
    exactly when the node's labels do not give [kubevirt.io/vm] another
    value. *)
Theorem vm_service_selects_the_vm_unless_relabelled (sched : schedule)
  (namespace : string) (config : NodeConfig) :
  valid_schedule sched ->
  let vm := mkUnstructured (VMExec.renderVirtualMachine sched namespace config) in
  let service := VMExecutor.renderService namespace config in
  let selector : gmap string string := {[ "kubevirt.io/vm" := Name config ]} in
  svc_Selector (svc_Spec service) = Some selector /\
  exists labels,
    manifestField vm ["spec"; "template"; "metadata"; "labels"]
    = Some (UStringMap labels) /\
    (selector ⊆ labels <->
     default (Name config) (Labels config !! "kubevirt.io/vm") = Name config).
Proof.
  intros Hsched vm service selector. split; [reflexivity|].
  unfold vm, VMExec.renderVirtualMachine.
  destruct (VMExec.vmRequests config) as [memory cpu].
  eexists. split; [reflexivity|].
  unfold selector. rewrite map_singleton_subseteq_l.
  rewrite (range_insert_lookup sched _ _ "kubevirt.io/vm" (Name config) Hsched).
  - split; congruence.
  - reflexivity.
Qed.

(** ** Scenarios for the executors *)

(** A Linux node, and a VyOS node with two interfaces whose labels
    claim the keys of the selectors. *)
Definition linuxNode : NodeConfig := testNode "r1" "alpine:3" "linux" ∅.

Definition relabelledNode : NodeConfig :=
  mkNodeConfig "fw1" "VyOS/vyos:1.4" "vyos"
    (<["app" := "firewall"]> {[ "kubevirt.io/vm" := "edge" ]}) ∅ ∅
    [ mkNetworkInterface "eth1" "ethernet" None;
      mkNetworkInterface "eth2" "ethernet" None ]
    None "" ∅.

(** The API server refuses to create Services. *)
Definition serviceCreateFails : Faults :=
  fun verb kind ns name =>
    match verb, kind with
    | VCreate, KService => true
    | _, _ => false
    end.

(** A VirtualMachine with its Service, as KubeVirt reports it once it
    runs. *)
Definition runningVM : Unstructured :=
  mkUnstructured
    (list_to_map
       [ ("kind", UString "VirtualMachine");
         ("metadata", umap [ ("name", UString "fw1"); ("namespace", UString "lab") ]);
         ("status", umap [ ("ready", UBool true);
                           ("printableStatus", UString "Running") ]) ]).

Definition vmWorkload : Cluster :=
  <[(KVirtualMachine, "lab", "fw1") := OUnstructured runningVM]>
    {[ (KService, "lab", "fw1") := OService (VMExecutor.renderService "lab" relabelledNode) ]}.

(** The manager with the container executor alone. *)
Definition containerOnly : Manager :=
  RegisterExecutor (NewManager ExecutionModeAuto) Common.WorkloadTypeContainer
    (Some (mkExecutor (ContainerExecutor.Execute no_faults sched_fwd "lab"))).

(** The call has returned a result and no error. *)
Definition succeeded {A : Type} (call : Call A) : bool :=
  match call.1 with
  | inr _ => true
  | inl _ => false
  end.

Lemma execute_then_delete_restores_the_cluster_witness :
  exists (r : ExecutionResult) (c1 : Cluster),
    ContainerExecutor.Execute serviceCreateFails sched_fwd "lab" linuxNode ∅ = (inr r, c1) /\
    ContainerExecutor.Delete serviceCreateFails (er_Name r) (er_Namespace r) c1 = (None, ∅).
Proof.
  assert (succeeded (ContainerExecutor.Execute serviceCreateFails sched_fwd "lab"
                       linuxNode ∅) = true) as Hok by (vm_compute; reflexivity).
  destruct (ContainerExecutor.Execute serviceCreateFails sched_fwd "lab" linuxNode ∅)
    as [[err|r] c1] eqn:Hex; [discriminate Hok|].
  exists r, c1. split; [reflexivity|].
  exact (execute_then_delete_restores_the_cluster serviceCreateFails sched_fwd "lab"
           linuxNode ∅ c1 r eq_refl eq_refl eq_refl Hex).
Defined.

Lemma execute_is_not_repeatable_witness :
  exists (r : ExecutionResult) (c1 : Cluster),
    ContainerExecutor.Execute no_faults sched_fwd "lab" linuxNode ∅ = (inr r, c1) /\
    ContainerExecutor.Execute no_faults sched_rev "lab" linuxNode c1
    = (inl (ErrWrap "failed to create deployment for node r1: " ErrAlreadyExists), c1).
Proof.
  assert (succeeded (ContainerExecutor.Execute no_faults sched_fwd "lab" linuxNode ∅)
          = true) as Hok by (vm_compute; reflexivity).
  destruct (ContainerExecutor.Execute no_faults sched_fwd "lab" linuxNode ∅)
    as [[err|r] c1] eqn:Hex; [discriminate Hok|].
  exists r, c1. split; [reflexivity|].
  exact (execute_is_not_repeatable no_faults sched_fwd sched_rev "lab" linuxNode ∅ c1 r Hex).
Defined.

Lemma swallowed_service_failure_is_never_repaired_witness :
  exists c1 : Cluster,
    ContainerExecutor.Execute serviceCreateFails sched_fwd "lab" linuxNode ∅
    = (inr (mkExecutionResult Common.WorkloadTypeContainer "r1" "lab" "Creating"
              "Container deployment created successfully" false),
       c1) /\
    c1 !! (KService, "lab", "r1") = None /\
    forall (faults' : Faults) (sched' : schedule),
      exists err, ContainerExecutor.Execute faults' sched' "lab" linuxNode c1 = (inl err, c1).
Proof.
  apply (swallowed_service_failure_is_never_repaired serviceCreateFails sched_fwd "lab"
           linuxNode ∅); reflexivity.
Defined.

Lemma executor_delete_is_not_repeatable_witness :
  VMExecutor.Delete no_faults "fw1" "lab" vmWorkload = (None, ∅) /\
  VMExecutor.Delete no_faults "fw1" "lab" ∅
  = (Some (ErrWrap "failed to delete VM fw1: " ErrNotFound), ∅).
Proof.
  assert (VMExecutor.Delete no_faults "fw1" "lab" vmWorkload = (None, ∅)) as Hdel
    by (vm_compute; reflexivity).
  split; [exact Hdel|].
  exact (executor_delete_is_not_repeatable no_faults true "fw1" "lab" vmWorkload ∅ Hdel).
Defined.

Lemma vm_status_is_never_ready_witness :
  exists r : ExecutionResult,
    VMExecutor.GetStatus no_faults "fw1" "lab" vmWorkload = Ret (inr r) /\
    er_Ready r = false /\
    forall vm,
      vmWorkload !! (KVirtualMachine, "lab", "fw1") = Some (OUnstructured vm) ->
      manifestField vm ["status"; "ready"] = Some (UBool true) ->
      er_Status r = "Running" /\ er_Message r = "Virtual machine is running".
Proof.
  eexists. split; [vm_compute; reflexivity|].
  apply (vm_status_is_never_ready no_faults "fw1" "lab" vmWorkload).
  vm_compute. reflexivity.
Defined.

Lemma manager_falls_back_to_the_container_executor_witness :
  determineWorkloadType ascii_ToLower relabelledNode = Common.WorkloadTypeVM /\
  Execution.Execute ascii_ToLower containerOnly relabelledNode ∅
  = ContainerExecutor.Execute no_faults sched_fwd "lab" relabelledNode ∅.
Proof.
  split; [reflexivity|].
  apply (manager_falls_back_to_the_container_executor ascii_ToLower containerOnly
           (mkExecutor (ContainerExecutor.Execute no_faults sched_fwd "lab"))
           relabelledNode ∅); reflexivity.
Defined.

Lemma registering_nil_disables_the_fallback_witness :
  Execution.Execute ascii_ToLower containerOnly relabelledNode ∅
  = ContainerExecutor.Execute no_faults sched_fwd "lab" relabelledNode ∅ /\
  Execution.Execute ascii_ToLower
    (RegisterExecutor containerOnly Common.WorkloadTypeVM None) relabelledNode ∅
  = (inl (ErrNew "no executor available for workload type vm"), ∅).
Proof.
  apply (registering_nil_disables_the_fallback ascii_ToLower containerOnly
           (mkExecutor (ContainerExecutor.Execute no_faults sched_fwd "lab"))
           relabelledNode ∅); reflexivity.
Defined.

Lemma executor_selectors_match_unless_app_is_relabelled_witness :
  let deployment := ContainerExecutor.renderDeployment sched_fwd "lab" relabelledNode in
  let service := ContainerExecutor.renderService "lab" relabelledNode in
  let selector : gmap string string := {[ "app" := "fw1" ]} in
  Selector (dep_Spec deployment) = Some (mkLabelSelector (Some selector)) /\
  svc_Selector (svc_Spec service) = Some selector /\
  exists labels,
    tpl_Labels (Template (dep_Spec deployment)) = Some labels /\
    meta_Labels (dep_Meta deployment) = Some labels /\
    (selector ⊆ labels <-> default "fw1" (Labels relabelledNode !! "app") = "fw1").
Proof.
  exact (executor_selectors_match_unless_app_is_relabelled sched_fwd "lab" relabelledNode
           sched_fwd_valid).
Defined.

Lemma vm_service_selects_the_vm_unless_relabelled_witness :
  let vm := mkUnstructured (VMExec.renderVirtualMachine sched_fwd "lab" relabelledNode) in
  let service := VMExecutor.renderService "lab" relabelledNode in
  let selector : gmap string string := {[ "kubevirt.io/vm" := "fw1" ]} in
  svc_Selector (svc_Spec service) = Some selector /\
  exists labels,
    manifestField vm ["spec"; "template"; "metadata"; "labels"]
    = Some (UStringMap labels) /\
    (selector ⊆ labels <->
     default "fw1" (Labels relabelledNode !! "kubevirt.io/vm") = "fw1").
Proof.
  exact (vm_service_selects_the_vm_unless_relabelled sched_fwd "lab" relabelledNode
           sched_fwd_valid).
Defined.
